(** * Article extraction and paywall detection: a shallow embedding

    The scrapers of this repository ([articles_data_ET.py],
    [ET_news_integrated.py], [fetch_news_articles.py]) fetch a page, decide
    whether it sits behind a paywall, locate the article body, clean it and
    file the outcome in one of three lists.  This development embeds those
    functions and proves what the specification says about them.  It also
    embeds the recheck script [check_paywall_articles.py] and the date
    reader [extract_year_month] of [ET_news_integrated.py].

    Conventions of the embedding.
    - A Python [str] is a [string]; a character is a code point below 256.
    - A parsed page is a tree of [node]s, as BeautifulSoup hands it out; the
      library calls the scrapers make ([find], [find_all], [get_text],
      [decompose]) are functions on that tree.  A text node carries its
      class: [get_text] leaves out the comments and the text of a [script],
      a [style] or a [template], which the searches by [string=] and
      [.string] see.
    - A call that raises gives the exception: [get] on an element that was
      decomposed, [split] with an empty separator.
    - The network and the HTML parser are a [world]: the answer to the k-th
      request, either an exception or a parsed page. *)

From Stdlib Require Import String Ascii List Bool Arith Lia.
Import ListNotations.
Open Scope string_scope.
Open Scope list_scope.
Open Scope nat_scope.

(** ** Python string operations *)

Module PyStr.

(** [str.isspace] on one character, for code points below 256. *)
Definition isspace (c : ascii) : bool :=
  let n := nat_of_ascii c in
  ((9 <=? n) && (n <=? 13)) || ((28 <=? n) && (n <=? 32))
  || (n =? 133) || (n =? 160).

Fixpoint lstrip (s : string) : string :=
  match s with
  | EmptyString => EmptyString
  | String c s' => if isspace c then lstrip s' else s
  end.

Fixpoint rstrip (s : string) : string :=
  match s with
  | EmptyString => EmptyString
  | String c s' =>
      match rstrip s' with
      | EmptyString => if isspace c then EmptyString else String c EmptyString
      | r => String c r
      end
  end.

(** [s.strip()] *)
Definition strip (s : string) : string := rstrip (lstrip s).

(** [re.sub(r'\s+', ' ', s)]: [in_run] tells that the previous character
    was white space, already replaced by the single blank of its run. *)
Fixpoint sub_spaces (in_run : bool) (s : string) : string :=
  match s with
  | EmptyString => EmptyString
  | String c s' =>
      if isspace c
      then (if in_run then sub_spaces true s'
            else String " " (sub_spaces true s'))
      else String c (sub_spaces false s')
  end.

(** [s.replace(old, new)] for one-character [old] and [new]. *)
Fixpoint replace_char (old new : ascii) (s : string) : string :=
  match s with
  | EmptyString => EmptyString
  | String c s' =>
      String (if Ascii.eqb c old then new else c) (replace_char old new s')
  end.

(** [sub in s] *)
Fixpoint contains (sub s : string) : bool :=
  if prefix sub s then true
  else match s with
       | EmptyString => false
       | String _ s' => contains sub s'
       end.

(** The text of [s] before the first occurrence of [sep], all of [s] when
    there is none. *)
Fixpoint text_before (sep s : string) : string :=
  if prefix sep s then EmptyString
  else match s with
       | EmptyString => EmptyString
       | String c s' => String c (text_before sep s')
       end.

(** [s.split(sep)[0]]: the text before the first occurrence of [sep];
    [None] stands for the [ValueError] that [split] raises when [sep] is
    empty. *)
Definition split_head (sep s : string) : option string :=
  match sep with
  | EmptyString => None
  | String _ _ => Some (text_before sep s)
  end.

Definition lower_char (c : ascii) : ascii :=
  let n := nat_of_ascii c in
  if ((65 <=? n) && (n <=? 90))
     || ((192 <=? n) && (n <=? 222) && negb (n =? 215))
  then ascii_of_nat (n + 32) else c.

(** [s.lower()] *)
Fixpoint lower (s : string) : string :=
  match s with
  | EmptyString => EmptyString
  | String c s' => String (lower_char c) (lower s')
  end.

(** Truth value of a string: the empty string is false. *)
Definition truthy (s : string) : bool :=
  match s with EmptyString => false | _ => true end.

(** [c * n] *)
Fixpoint times (c : ascii) (n : nat) : string :=
  match n with
  | O => EmptyString
  | S n' => String c (times c n')
  end.

Definition LF : ascii := ascii_of_nat 10.
Definition CR : ascii := ascii_of_nat 13.
Definition TAB : ascii := ascii_of_nat 9.

End PyStr.

Import PyStr.

(** ** The parsed page *)

Module Soup.

(** The subclasses of [NavigableString] the parser gives to some strings:
    those of the markup ([CData], [Comment], [Declaration], [Doctype],
    [ProcessingInstruction]) and those of the text inside a [script], a
    [style], a [template], an [rt] or an [rp]. *)
Inductive string_class : Type :=
| CData
| Comment
| Declaration
| Doctype
| ProcessingInstruction
| Script
| Stylesheet
| TemplateString
| RubyTextString
| RubyParenthesisString.

Definition string_class_eqb (a b : string_class) : bool :=
  match a, b with
  | CData, CData | Comment, Comment | Declaration, Declaration
  | Doctype, Doctype | ProcessingInstruction, ProcessingInstruction
  | Script, Script | Stylesheet, Stylesheet
  | TemplateString, TemplateString | RubyTextString, RubyTextString
  | RubyParenthesisString, RubyParenthesisString => true
  | _, _ => false
  end.

(** A node of the tree: a text node of class [NavigableString] itself, a
    tag with its name, the tokens of its [class] attribute (none when the
    attribute is absent), its [id] and its children, or a text node of one
    of the subclasses.  The [BeautifulSoup] object itself is the tag named
    [[document]]. *)
#[warnings="-register-all"]
Inductive node : Type :=
| NavigableString (s : string)
| Tag (name : string) (class_ : list string) (id : option string)
      (contents : list node)
| SpecialString (c : string_class) (s : string).

Definition document (contents : list node) : node :=
  Tag "[document]" [] None contents.

(** [tag.descendants]: every node below [n], in document order. *)
Fixpoint descendants (n : node) : list node :=
  match n with
  | Tag _ _ _ ks => flat_map (fun k => k :: descendants k) ks
  | _ => []
  end.

(** [n.find(...)] and [n.find_all(...)] with the search criterion [p]. *)
Definition find (p : node -> bool) (n : node) : option node :=
  List.find p (descendants n).

Definition find_all (p : node -> bool) (n : node) : list node :=
  List.filter p (descendants n).

(** Truth value of what [find] returns: a tag is true, [None] is false. *)
Definition found (r : option node) : bool :=
  match r with Some _ => true | None => false end.

(** Search criteria.  [named t]: the tag name is [t]; [named_in ts]: it is
    one of [ts]; [class_is c]: [class_=c], one class token is [c];
    [class_in cs]: [class_=[...]]; [class_where f]: [class_=f], a function
    tried on each token; [id_is i] and [id_where f] likewise for [id];
    [string_where f]: [string=f] with no tag name, a text node satisfying
    [f]. *)
Definition named (t : string) (n : node) : bool :=
  match n with
  | Tag t' _ _ _ => String.eqb t' t
  | _ => false
  end.

Definition named_in (ts : list string) (n : node) : bool :=
  existsb (fun t => named t n) ts.

Definition classes (n : node) : list string :=
  match n with
  | Tag _ cs _ _ => cs
  | _ => []
  end.

Definition class_where (f : string -> bool) (n : node) : bool :=
  existsb f (classes n).

Definition class_is (c : string) : node -> bool :=
  class_where (String.eqb c).

Definition class_in (cs : list string) : node -> bool :=
  class_where (fun c => existsb (String.eqb c) cs).

Definition id_where (f : string -> bool) (n : node) : bool :=
  match n with
  | Tag _ _ (Some i) _ => f i
  | _ => false
  end.

Definition id_is (i : string) : node -> bool := id_where (String.eqb i).

Definition string_where (f : string -> bool) (n : node) : bool :=
  match n with
  | NavigableString s => f s
  | SpecialString _ s => f s
  | Tag _ _ _ _ => false
  end.

(** [tag.string]: the text of a tag whose only content is one text node,
    possibly wrapped in tags with a single child. *)
Fixpoint string_of (n : node) : option string :=
  match n with
  | NavigableString s => Some s
  | SpecialString _ s => Some s
  | Tag _ _ _ [k] => string_of k
  | Tag _ _ _ _ => None
  end.

(** [find(t, string=f)]: a tag named [t] whose [.string] satisfies [f]. *)
Definition named_with_string (t : string) (f : string -> bool) (n : node)
  : bool :=
  named t n && match n, string_of n with
               | Tag _ _ _ _, Some s => f s
               | _, _ => false
               end.

(** [builder.string_containers] of the HTML tree builder: the class of the
    strings inside a tag of this name. *)
Definition string_containers (name : string) : option string_class :=
  if String.eqb name "rt" then Some RubyTextString
  else if String.eqb name "rp" then Some RubyParenthesisString
  else if String.eqb name "style" then Some Stylesheet
  else if String.eqb name "script" then Some Script
  else if String.eqb name "template" then Some TemplateString
  else None.

(** [n.interesting_string_types], as a test on the class of a string
    ([None]: [NavigableString] itself): the class of its own strings for a
    string container, [NavigableString] and [CData] for any other node. *)
Definition interesting_string_types (n : node) (c : option string_class)
  : bool :=
  let main_content :=
    match c with
    | None | Some CData => true
    | Some _ => false
    end in
  match n with
  | Tag name _ _ _ =>
      match string_containers name, c with
      | Some container, Some c' => string_class_eqb c' container
      | Some _, None => false
      | None, _ => main_content
      end
  | _ => main_content
  end.

(** The text nodes below [n] whose class is one of [types], in document
    order. *)
Fixpoint strings (types : option string_class -> bool) (n : node)
  : list string :=
  match n with
  | NavigableString s => if types None then [s] else []
  | SpecialString c s => if types (Some c) then [s] else []
  | Tag _ _ _ ks => flat_map (strings types) ks
  end.

(** [n._all_strings()]: the strings [get_text] joins, those below [n] of
    the classes [n] is interested in.  The text of a [script], a [style] or
    a [template] and the comments are not among them, unless [n] is itself
    the [script], [style] or [template]. *)
Definition _all_strings (n : node) : list string :=
  strings (interesting_string_types n) n.

(** [n.get_text()] *)
Definition get_text (n : node) : string :=
  String.concat "" (_all_strings n).

(** [n.get_text(separator=' ', strip=True)]: every such string stripped,
    the empty ones dropped, the rest joined by one blank. *)
Definition get_text_stripped (n : node) : string :=
  String.concat " " (filter truthy (map strip (_all_strings n))).

(** [BeautifulSoup(str(n), 'html.parser')], node by node: parsed again, a
    string of the markup keeps its class, and any other string gets the
    class of the innermost string container around it inside [n], or is a
    [NavigableString] when there is none.  The trees meant are those the
    parser builds, where no text node is empty and no two follow each
    other, so that each is read back as it was written. *)
Definition markup (c : string_class) : bool :=
  match c with
  | CData | Comment | Declaration | Doctype | ProcessingInstruction => true
  | _ => false
  end.

Fixpoint reparsed (container : option string_class) (n : node) : node :=
  match n with
  | NavigableString s =>
      match container with
      | Some c => SpecialString c s
      | None => n
      end
  | SpecialString c s =>
      if markup c then n
      else match container with
           | Some c' => SpecialString c' s
           | None => NavigableString s
           end
  | Tag name cs i ks =>
      Tag name cs i
        (map (reparsed (match string_containers name with
                        | Some c => Some c
                        | None => container
                        end)) ks)
  end.

(** [for e in n.find_all(p): e.decompose()]: every node below [n] that
    satisfies [p] is removed with all it contains. *)
Fixpoint decompose_all (p : node -> bool) (n : node) : node :=
  match n with
  | Tag t cs i ks =>
      let fix go (l : list node) : list node :=
        match l with
        | [] => []
        | k :: l' => if p k then go l' else decompose_all p k :: go l'
        end in
      Tag t cs i (go ks)
  | _ => n
  end.

(** The first node below [n] (in document order) that satisfies [p] is
    replaced by what [f] gives for it ([None]: it is removed); the result is
    [None] when no node satisfies [p]. *)
Fixpoint rewrite_first (p : node -> bool) (f : node -> option node)
  (n : node) : option node :=
  match n with
  | NavigableString _ | SpecialString _ _ => None
  | Tag t cs i ks =>
      let fix go (l : list node) : option (list node) :=
        match l with
        | [] => None
        | k :: l' =>
            if p k
            then Some (match f k with Some k' => k' :: l' | None => l' end)
            else match rewrite_first p f k with
                 | Some k' => Some (k' :: l')
                 | None => match go l' with
                           | Some l'' => Some (k :: l'')
                           | None => None
                           end
                 end
        end in
      match go ks with
      | Some ks' => Some (Tag t cs i ks')
      | None => None
      end
  end.

(** [e = n.find(p); if e: e.decompose()] *)
Definition decompose_first (p : node -> bool) (n : node) : node :=
  match rewrite_first p (fun _ => None) n with
  | Some n' => n'
  | None => n
  end.

(** The tree after the first node satisfying [p] was changed in place
    into [e']. *)
Definition put_first (p : node -> bool) (e' : node) (n : node) : node :=
  match rewrite_first p (fun _ => Some e') n with
  | Some n' => n'
  | None => n
  end.

End Soup.

Import Soup.

(** ** What the scrapers share *)

(** [clean_text], the same static method in all three classes. *)
Definition clean_text (text : string) : string :=
  if negb (truthy text) then ""
  else
    let text := sub_spaces false (strip text) in
    replace_char TAB " " (replace_char CR " " (replace_char LF " " text)).

(** One turn of the boilerplate loop:
    [if text in content: content = content.split(text)[0]]; [None] when
    [split] raises. *)
Definition cut_at (content text : string) : option string :=
  if contains text content then split_head text content else Some content.

(** The loop [for text in self.boilerplate_text: ...]; [None] when one of
    its turns raises. *)
Definition remove_boilerplate (boilerplate_text : list string)
  (content : string) : option string :=
  fold_left
    (fun content text =>
       match content with
       | Some content => cut_at content text
       | None => None
       end)
    boilerplate_text (Some content).

(** A value read from the input table: a string, or NaN for a cell that
    holds nothing ([pd.isna] is true of it). *)
Inductive cell : Type :=
| NaN
| Str (s : string).

(** The dataclass [ArticleData]. *)
Record ArticleData : Type := mkArticleData {
  url : cell;
  headline : string;
  published_date : string;
  full_content : option string;
  extraction_method : option string;
  error : option string
}.

(** [str(x)] of an optional string. *)
Definition str (x : option string) : string :=
  match x with Some s => s | None => "None" end.

(** Truth value of an optional string: [None] and [""] are false. *)
Definition truthy_opt (x : option string) : bool :=
  match x with Some s => truthy s | None => false end.

(** ** Network, exceptions and the scraper's lists *)

(** What a request can raise: a [requests.exceptions.RequestException]
    (connection error, timeout, malformed URL, the [HTTPError] of
    [raise_for_status]), or any other [Exception] (the HTML parser's, for
    one); [msg] is [str(e)]. *)
Inductive exn : Type :=
| RequestException (msg : string)
| OtherException (msg : string).

(** The outcome of [requests.get], [raise_for_status] and
    [BeautifulSoup(response.content, 'html.parser')] together. *)
Inductive response : Type :=
| Raises (e : exn)
| Page (soup : node).

(** The answer to the request for [url] that follows [k] earlier ones. *)
Definition world : Type := nat -> string -> response.

(** The three lists of the scraper object, and the URLs requested so far
    (oldest first). *)
Record scraper : Type := mkScraper {
  sent : list string;
  article_data : list ArticleData;
  failed_urls : list ArticleData;
  paywall_urls : list ArticleData
}.

Definition new_scraper : scraper := mkScraper [] [] [] [].

Inductive result (A : Type) : Type :=
| Ok (a : A)
| Raise (e : exn).
Arguments Ok {A} a.
Arguments Raise {A} e.

(** The [ValueError] of [content.split('')]. *)
Definition value_error : exn := OtherException "empty separator".

(** Computations on the scraper that may raise. *)
Definition M (A : Type) : Type := scraper -> scraper * result A.

Definition ret {A} (a : A) : M A := fun st => (st, Ok a).

Definition bind {A B} (m : M A) (k : A -> M B) : M B :=
  fun st =>
    match m st with
    | (st', Ok a) => k a st'
    | (st', Raise e) => (st', Raise e)
    end.

Notation "x <- m ;; k" := (bind m (fun x => k))
  (at level 61, m at next level, right associativity).
Notation "m ;;; k" := (bind m (fun _ => k))
  (at level 61, right associativity).

(** [try: m except ... as e: handler(e)] *)
Definition try_except {A} (m : M A) (handler : exn -> M A) : M A :=
  fun st =>
    match m st with
    | (st', Ok a) => (st', Ok a)
    | (st', Raise e) => handler e st'
    end.

(** The scraper after one more request, for [u]. *)
Definition requested (st : scraper) (u : string) : scraper :=
  mkScraper (sent st ++ [u]) (article_data st) (failed_urls st)
    (paywall_urls st).

(** The request and the parse of its answer. *)
Definition fetch (w : world) (u : string) : M node :=
  fun st =>
    match w (length (sent st)) u with
    | Raises e => (requested st u, Raise e)
    | Page soup => (requested st u, Ok soup)
    end.

(** A call that touches nothing of the scraper. *)
Definition call {A} (r : result A) : M A := fun st => (st, r).

Definition when (b : bool) (m : M unit) : M unit :=
  if b then m else ret tt.

Definition nonempty {A} (l : list A) : bool :=
  match l with [] => false | _ => true end.

(** The list a record goes to. *)
Inductive bucket : Type :=
| Extracted
| Paywalled
| Failed.

(** The test both loops apply to a result:
    [if result.full_content: ... elif "Paywall" in str(result.error): ...
     else: ...]. *)
Definition bucket_of (result : ArticleData) : bucket :=
  if truthy_opt (full_content result) then Extracted
  else if contains "Paywall" (str (error result)) then Paywalled
  else Failed.

(** ** [process_single_article], [recheck_paywall_articles] and
    [process_articles]

    The three methods read the same in [articles_data_ET.py] and in
    [ET_news_integrated.py]; they differ in the classifier and the locator
    they call. *)

Section Pipeline.

Variable is_paywall_page : node -> bool.
Variable extract_article_content
  : node -> result (option string * option string).
Variable w : world.

Definition failed (url : cell) (headline published_date reason : string)
  : ArticleData :=
  mkArticleData url headline published_date None None (Some reason).

(** The error the two [except] clauses write:
    [f"Request error: {str(e)}"] for a [RequestException],
    [f"Unexpected error: {str(e)}"] for any other [Exception]. *)
Definition error_text (e : exn) : string :=
  match e with
  | RequestException msg => ("Request error: " ++ msg)%string
  | OtherException msg => ("Unexpected error: " ++ msg)%string
  end.

(** The guard [pd.isna(url) or url == 'URL not available'] is the first
    branch of the match and the test of the second. *)
Definition process_single_article (url : cell)
  (headline published_date : string) : M ArticleData :=
  try_except
    (match url with
     | NaN => ret (failed url headline published_date "Invalid URL")
     | Str u =>
         if String.eqb u "URL not available"
         then ret (failed url headline published_date "Invalid URL")
         else
           soup <- fetch w u ;;
           if is_paywall_page soup
           then ret (failed url headline published_date "Paywall detected")
           else
             located <- call (extract_article_content soup) ;;
             let '(content, method) := located in
             if truthy_opt content
             then ret (mkArticleData url headline published_date content
                         method None)
             else ret (failed url headline published_date "No content found")
     end)
    (fun e => ret (failed url headline published_date (error_text e))).

(** The ways [process_single_article] ends, as a relation between the
    scraper before, the arguments, the scraper after and the record. *)
Inductive outcome (st : scraper) (url : cell) (headline published_date : string)
  : scraper -> ArticleData -> Prop :=
| invalid_url :
    url = NaN \/ url = Str "URL not available" ->
    outcome st url headline published_date st
      (failed url headline published_date "Invalid URL")
| request_raised u e :
    url = Str u -> u <> "URL not available" ->
    w (length (sent st)) u = Raises e ->
    outcome st url headline published_date (requested st u)
      (failed url headline published_date (error_text e))
| paywall_detected u soup :
    url = Str u -> u <> "URL not available" ->
    w (length (sent st)) u = Page soup ->
    is_paywall_page soup = true ->
    outcome st url headline published_date (requested st u)
      (failed url headline published_date "Paywall detected")
| content_extracted u soup content method :
    url = Str u -> u <> "URL not available" ->
    w (length (sent st)) u = Page soup ->
    is_paywall_page soup = false ->
    extract_article_content soup = Ok (Some content, method) ->
    truthy content = true ->
    outcome st url headline published_date (requested st u)
      (mkArticleData url headline published_date (Some content) method None)
| no_content_found u soup content method :
    url = Str u -> u <> "URL not available" ->
    w (length (sent st)) u = Page soup ->
    is_paywall_page soup = false ->
    extract_article_content soup = Ok (content, method) ->
    truthy_opt content = false ->
    outcome st url headline published_date (requested st u)
      (failed url headline published_date "No content found")
| locator_raised u soup e :
    url = Str u -> u <> "URL not available" ->
    w (length (sent st)) u = Page soup ->
    is_paywall_page soup = false ->
    extract_article_content soup = Raise e ->
    outcome st url headline published_date (requested st u)
      (failed url headline published_date (error_text e)).

(** The loop of [recheck_paywall_articles] over [self.paywall_urls], with
    its three local lists. *)
Fixpoint recheck_loop (articles : list ArticleData)
  (successfully_extracted still_paywall failed_urls : list ArticleData)
  : M (list ArticleData * list ArticleData * list ArticleData) :=
  match articles with
  | [] => ret (successfully_extracted, still_paywall, failed_urls)
  | article :: rest =>
      result <- process_single_article (url article) (headline article)
                  (published_date article) ;;
      match bucket_of result with
      | Extracted =>
          recheck_loop rest (successfully_extracted ++ [result])
            still_paywall failed_urls
      | Paywalled =>
          recheck_loop rest successfully_extracted
            (still_paywall ++ [result]) failed_urls
      | Failed =>
          recheck_loop rest successfully_extracted still_paywall
            (failed_urls ++ [result])
      end
  end.

Definition recheck_paywall_articles
  : M (list ArticleData * list ArticleData * list ArticleData) :=
  fun st => recheck_loop (paywall_urls st) [] [] [] st.

(** The scraper with [result] appended to the list [b] names. *)
Definition filed_in (b : bucket) (result : ArticleData) (st : scraper)
  : scraper :=
  match b with
  | Extracted =>
      mkScraper (sent st) (article_data st ++ [result]) (failed_urls st)
        (paywall_urls st)
  | Paywalled =>
      mkScraper (sent st) (article_data st) (failed_urls st)
        (paywall_urls st ++ [result])
  | Failed =>
      mkScraper (sent st) (article_data st) (failed_urls st ++ [result])
        (paywall_urls st)
  end.

Definition append_to (b : bucket) (result : ArticleData) : M unit :=
  fun st => (filed_in b result st, Ok tt).

(** The loop of [process_articles] over the rows of the input table. *)
Fixpoint process_rows (rows : list (cell * string * string)) : M unit :=
  match rows with
  | [] => ret tt
  | (article_url, headline, published_date) :: rest =>
      result <- process_single_article article_url headline published_date ;;
      append_to (bucket_of result) result ;;;
      process_rows rest
  end.

Definition extend_article_data (l : list ArticleData) : M unit :=
  fun st =>
    (mkScraper (sent st) (article_data st ++ l) (failed_urls st)
       (paywall_urls st), Ok tt).

Definition extend_failed_urls (l : list ArticleData) : M unit :=
  fun st =>
    (mkScraper (sent st) (article_data st) (failed_urls st ++ l)
       (paywall_urls st), Ok tt).

Definition set_paywall_urls (l : list ArticleData) : M unit :=
  fun st =>
    (mkScraper (sent st) (article_data st) (failed_urls st) l, Ok tt).

(** The recheck at the end of [process_articles]. *)
Definition recheck_pass : M unit :=
  fun st =>
    (if nonempty (paywall_urls st)
     then
       lists <- recheck_paywall_articles ;;
       let '(recovered, still_paywall, new_failed) := lists in
       when (nonempty recovered) (extend_article_data recovered) ;;;
       when (nonempty still_paywall) (set_paywall_urls still_paywall) ;;;
       when (nonempty new_failed) (extend_failed_urls new_failed)
     else ret tt) st.

Definition process_articles (rows : list (cell * string * string)) : M unit :=
  process_rows rows ;;; recheck_pass.

End Pipeline.

(** ** [articles_data_ET.py] *)

Module ArticlesDataET.

Definition boilerplate_text : list string :=
  [ "Catch all the US News";
    "Download The Economic Times News App";
    "You can now subscribe to our Economic Times WhatsApp channel";
    "Disclaimer Statement:";
    "Read More News on";
    "Prime Exclusives";
    "Investment Ideas";
    "View all Stories";
    "(You can now subscribe to our";
    "Read More News on" ].

Definition paywall_indicators : list string :=
  [ "articleBlocker"; "paywall_box"; "prime_paywall"; "subscribeBtn" ].

(** [soup.find(class_=[...]) or soup.find('article')] *)
Definition article_content (soup : node) : option node :=
  match find (class_in ["artText"; "article-text"; "article_content"])
          soup with
  | Some e => Some e
  | None => find (named "article") soup
  end.

Definition is_paywall_page (soup : node) : bool :=
  if existsb (fun indicator => found (find (class_is indicator) soup))
       paywall_indicators
  then true
  else
    negb (match article_content soup with
          | Some e => 200 <? String.length (strip (get_text e))
          | None => false
          end).

(** The test of the removal loop: a [script], [style], [noscript] or [div]
    with one of the listed classes. *)
Definition unwanted (n : node) : bool :=
  named_in ["script"; "style"; "noscript"; "div"] n
  && nonempty (classes n)
  && existsb
       (fun c =>
          existsb (String.eqb c)
            ["flt"; "ads"; "footer"; "disclaimer"; "prime"; "paywall"])
       (classes n).

(** The removal loop runs over a list made before anything is removed.
    When it has removed an element, the [script], [style], [noscript] and
    [div] elements inside it are still to come in that list, and they are
    emptied: [decompose] clears them, their [attrs] is gone, and
    [unwanted.get('class')] raises on the first of them. *)
Definition stale_access (element : node) : bool :=
  existsb
    (fun removed =>
       unwanted removed
       && existsb (named_in ["script"; "style"; "noscript"; "div"])
            (descendants removed))
    (descendants element).

Definition attribute_error : exn :=
  OtherException "'NoneType' object has no attribute 'get'".

(** [_process_content_element] works on the element in place: it gives the
    element as it leaves it, and the content. *)
Definition _process_content_element (element : node)
  : result (node * option string) :=
  if stale_access element then Raise attribute_error
  else
    let element := decompose_all unwanted element in
    let content := get_text_stripped element in
    match remove_boilerplate boilerplate_text content with
    | None => Raise value_error
    | Some content =>
        let content := clean_text content in
        Ok (element,
            if 200 <? String.length content then Some content else None)
    end.

Definition content_selectors : list string :=
  [ "artText"; "article_wrap"; "article-content"; "story-details" ].

(** The loop over [content_selectors]; [soup] is the page as the earlier
    steps left it. *)
Fixpoint try_selectors (selectors : list string) (soup : node)
  : result (node * (option string * option string)) :=
  match selectors with
  | [] => Ok (soup, (None, None))
  | name :: rest =>
      match find (class_is name) soup with
      | Some element =>
          match _process_content_element element with
          | Ok (element', content) =>
              let soup' := put_first (class_is name) element' soup in
              if truthy_opt content
              then Ok (soup', (content, Some ("class: " ++ name)%string))
              else try_selectors rest soup'
          | Raise e => Raise e
          end
      | None => try_selectors rest soup
      end
  end.

(** [extract_article_content]: the page as it leaves it, and the pair it
    returns. *)
Definition extract_article_content (soup : node)
  : result (node * (option string * option string)) :=
  match find (named "article") soup with
  | Some article_tag =>
      match _process_content_element article_tag with
      | Ok (article_tag', content) =>
          let soup' := put_first (named "article") article_tag' soup in
          if truthy_opt content
          then Ok (soup', (content, Some "article tag"))
          else try_selectors content_selectors soup'
      | Raise e => Raise e
      end
  | None => try_selectors content_selectors soup
  end.

(** What the caller gets: the pair, or the exception. *)
Definition located (soup : node) : result (option string * option string) :=
  match extract_article_content soup with
  | Ok (_, r) => Ok r
  | Raise e => Raise e
  end.

Definition process_single_article :=
  process_single_article is_paywall_page located.

Definition recheck_paywall_articles :=
  recheck_paywall_articles is_paywall_page located.

Definition process_articles :=
  process_articles is_paywall_page located.

End ArticlesDataET.

(** ** [ET_news_integrated.py] *)

Module ETNewsIntegrated.

Definition boilerplate_text : list string :=
  [ "Catch all the US News";
    "Download The Economic Times News App";
    "You can now subscribe to our Economic Times WhatsApp channel";
    "Disclaimer Statement:";
    "Read More News on";
    "Prime Exclusives";
    "Investment Ideas";
    "View all Stories";
    "(You can now subscribe to our";
    "Read More News on" ].

Definition paywall_indicators : list string :=
  [ "articleBlocker"; "paywall_box"; "prime_paywall"; "subscribeBtn";
    "paywall"; "subscription-required"; "premium-content" ].

Definition paywall_texts : list string :=
  [ "Subscribe to read";
    "Subscribe to continue reading";
    "This article is exclusively for subscribers";
    "To read the full article, subscribe";
    "Subscribe to ET Prime";
    "This article is locked" ].

Definition is_paywall_page (soup : node) : bool :=
  if existsb
       (fun indicator =>
          found (find (class_where
                         (fun c => truthy c && contains indicator c)) soup))
       paywall_indicators
  then true
  else if existsb
       (fun text =>
          found (find (string_where
                         (fun s => truthy s && contains text s)) soup))
       paywall_texts
  then true
  else if found (find (id_where
                         (fun i => truthy i && contains "paywall" (lower i)))
                   soup)
  then true
  else if found (find (named_with_string "button"
                         (fun s => truthy s
                                   && (contains "subscribe" (lower s)
                                       || contains "sign in" (lower s))))
                   soup)
  then true
  else false.

Definition unwanted_classes : list string :=
  [
    "flt"; "ads"; "footer"; "disclaimer"; "prime"; "paywall";
    "social-share"; "related-articles"; "recommended"; "sidebar";
    "advertisement"; "ad-container"; "ad-wrapper";
    "advertisement-container"; "social-media"; "share-buttons"; "comments";
    "comment-section"; "newsletter"; "subscription"; "subscribe";
    "sign-up"; "signup"; "cookie-notice"; "cookie-banner"; "cookie-policy";
    "cookie-consent"; "newsletter-signup"; "newsletter-form";
    "newsletter-container"; "newsletter-wrapper"; "newsletter-box";
    "newsletter-banner"; "newsletter-popup"; "newsletter-modal";
    "newsletter-dialog"; "newsletter-overlay"; "newsletter-backdrop";
    "newsletter-close"; "newsletter-close-button"; "newsletter-close-btn";
    "newsletter-dismiss"; "newsletter-dismiss-button";
    "newsletter-dismiss-btn"; "newsletter-hide"; "newsletter-hide-button";
    "newsletter-hide-btn"; "newsletter-remove"; "newsletter-remove-button";
    "newsletter-remove-btn"; "newsletter-exit"; "newsletter-exit-button";
    "newsletter-exit-btn"; "newsletter-close-icon"; "newsletter-close-x";
    "newsletter-close-times"; "newsletter-close-times-icon";
    "newsletter-close-times-x"; "newsletter-close-times-button";
    "newsletter-close-times-btn"; "newsletter-close-times-icon-button";
    "newsletter-close-times-icon-btn"; "newsletter-close-times-icon-x";
    "newsletter-close-times-icon-times";
    "newsletter-close-times-icon-close";
    "newsletter-close-times-icon-dismiss";
    "newsletter-close-times-icon-hide";
    "newsletter-close-times-icon-remove";
    "newsletter-close-times-icon-exit";
    "newsletter-close-times-icon-close-button";
    "newsletter-close-times-icon-close-btn";
    "newsletter-close-times-icon-dismiss-button";
    "newsletter-close-times-icon-dismiss-btn";
    "newsletter-close-times-icon-hide-button";
    "newsletter-close-times-icon-hide-btn";
    "newsletter-close-times-icon-remove-button";
    "newsletter-close-times-icon-remove-btn";
    "newsletter-close-times-icon-exit-button";
    "newsletter-close-times-icon-exit-btn" ].

Definition unwanted_ids : list string :=
  [ "comments"; "related-articles"; "recommended"; "sidebar";
    "advertisement" ].

(** [_process_content_element] works on a copy, the element parsed again
    as a document of its own. *)
Definition _process_content_element (element : node)
  : result (option string) :=
  let element_copy := document [reparsed None element] in
  let element_copy :=
    fold_left
      (fun copy unwanted_class =>
         decompose_all
           (class_where (fun c => truthy c && contains unwanted_class c))
           copy)
      unwanted_classes element_copy in
  let element_copy :=
    decompose_all
      (named_in ["script"; "style"; "noscript"; "iframe"; "form"])
      element_copy in
  let element_copy :=
    fold_left (fun copy unwanted_id => decompose_first (id_is unwanted_id) copy)
      unwanted_ids element_copy in
  let content := get_text_stripped element_copy in
  match remove_boilerplate boilerplate_text content with
  | None => Raise value_error
  | Some content =>
      let content := clean_text content in
      Ok (if 200 <? String.length content then Some content else None)
  end.

Definition content_selectors : list string :=
  [ "artText"; "article_wrap"; "article-content"; "story-details";
    "article_content"; "article-text"; "story-content"; "story-body";
    "articleBody"; "article-body" ].

Definition id_selectors : list string :=
  [ "articleBody"; "article-body"; "story-content"; "story-body" ].

(** The loop over [content_selectors]: [Ok (Some r)] when it returns [r],
    [Ok None] when it ends without returning. *)
Fixpoint try_selectors (selectors : list string) (soup : node)
  : result (option (option string * option string)) :=
  match selectors with
  | [] => Ok None
  | name :: rest =>
      match find (class_is name) soup with
      | Some element =>
          match _process_content_element element with
          | Ok content =>
              if truthy_opt content
              then Ok (Some (content, Some ("class: " ++ name)%string))
              else try_selectors rest soup
          | Raise e => Raise e
          end
      | None => try_selectors rest soup
      end
  end.

(** The loop over [id_selectors]. *)
Fixpoint try_ids (ids : list string) (soup : node)
  : result (option (option string * option string)) :=
  match ids with
  | [] => Ok None
  | id_name :: rest =>
      match find (id_is id_name) soup with
      | Some element =>
          match _process_content_element element with
          | Ok content =>
              if truthy_opt content
              then Ok (Some (content, Some ("id: " ++ id_name)%string))
              else try_ids rest soup
          | Raise e => Raise e
          end
      | None => try_ids rest soup
      end
  end.

(** The criterion of the last step: a [div] whose class names [article],
    [story] or [content]. *)
Definition main_content_div (n : node) : bool :=
  named "div" n
  && class_where
       (fun c => truthy c
                 && (contains "article" c || contains "story" c
                     || contains "content" c)) n.

(** The text the last step builds from the paragraphs of [main_content]. *)
Definition paragraph_text (main_content : node) : string :=
  String.concat " "
    (filter truthy
       (map (fun p => strip (get_text p))
          (find_all (named "p") main_content))).

Definition paragraphs_in_main_content (soup : node)
  : option (option string * option string) :=
  match find main_content_div soup with
  | Some main_content =>
      if nonempty (find_all (named "p") main_content)
      then
        let content := paragraph_text main_content in
        if truthy content && (200 <? String.length content)
        then Some (Some content, Some "paragraphs in main content")
        else None
      else None
  | None => None
  end.

Definition article_step (soup : node)
  : result (option (option string * option string)) :=
  match find (named "article") soup with
  | Some article_tag =>
      match _process_content_element article_tag with
      | Ok content =>
          if truthy_opt content then Ok (Some (content, Some "article tag"))
          else Ok None
      | Raise e => Raise e
      end
  | None => Ok None
  end.

(** A step, and the next one when it ends without returning. *)
Definition or_else {A} (x y : result (option A)) : result (option A) :=
  match x with
  | Ok None => y
  | _ => x
  end.

Definition extract_article_content (soup : node)
  : result (option string * option string) :=
  match or_else (article_step soup)
          (or_else (try_selectors content_selectors soup)
             (or_else (try_ids id_selectors soup)
                (Ok (paragraphs_in_main_content soup)))) with
  | Ok (Some r) => Ok r
  | Ok None => Ok (None, None)
  | Raise e => Raise e
  end.

Definition located (soup : node) : result (option string * option string) :=
  extract_article_content soup.

Definition process_single_article :=
  process_single_article is_paywall_page located.

Definition recheck_paywall_articles :=
  recheck_paywall_articles is_paywall_page located.

Definition process_articles :=
  process_articles is_paywall_page located.

End ETNewsIntegrated.

(** ** [fetch_news_articles.py] *)

Module FetchNewsArticles.

Definition boilerplate_text : list string :=
  [ "Download The News App";
    "Subscribe to our WhatsApp channel";
    "Disclaimer Statement:";
    "Read More News on";
    "Prime Exclusives";
    "View all Stories" ].

(** [paywall_indicators.get(source.lower(), ['paywall', 'subscription'])] *)
Definition paywall_indicators (source : string) : list string :=
  let key := lower source in
  if String.eqb key "economictimes"
  then ["articleBlocker"; "paywall_box"; "prime_paywall"; "subscribeBtn"]
  else if String.eqb key "livemint"
  then ["paywall"; "subscription-content"; "paywall-container"]
  else ["paywall"; "subscription"].

(** [soup.find(class_=[...]) or soup.find('article')] *)
Definition article_content (soup : node) : option node :=
  match find (class_in ["artText"; "article-text"]) soup with
  | Some e => Some e
  | None => find (named "article") soup
  end.

Definition is_paywall_page (soup : node) (source : string) : bool :=
  if existsb (fun indicator => found (find (class_is indicator) soup))
       (paywall_indicators source)
  then true
  else
    negb (match article_content soup with
          | Some e => 200 <? String.length (strip (get_text e))
          | None => false
          end).

(** An entry of [content_selectors]: [{'type': ..., 'name': ...}]. *)
Record selector : Type := mkSelector {
  type_ : string;
  name_ : string
}.

(** [content_selectors.get(source.lower(), [...])] *)
Definition content_selectors (source : string) : list selector :=
  let key := lower source in
  if String.eqb key "economictimes"
  then [ mkSelector "tag" "article"; mkSelector "class" "artText";
         mkSelector "class" "article_wrap" ]
  else if String.eqb key "livemint"
  then [ mkSelector "class" "mainArea"; mkSelector "class" "articleBody";
         mkSelector "tag" "article" ]
  else [ mkSelector "tag" "article"; mkSelector "class" "article-content";
         mkSelector "class" "story-content" ].

(** What a selector looks for; [None] for a type that is neither [class]
    nor [tag]. *)
Definition criterion (sel : selector) : option (node -> bool) :=
  if String.eqb (type_ sel) "class" then Some (class_is (name_ sel))
  else if String.eqb (type_ sel) "tag" then Some (named (name_ sel))
  else None.

Definition unwanted (n : node) : bool :=
  named_in ["script"; "style"; "noscript"; "div"] n
  && nonempty (classes n)
  && existsb (fun c => existsb (String.eqb c) ["ads"; "footer"; "paywall"])
       (classes n).

(** The removal loop raises as in [articles_data_ET.py]. *)
Definition stale_access (element : node) : bool :=
  existsb
    (fun removed =>
       unwanted removed
       && existsb (named_in ["script"; "style"; "noscript"; "div"])
            (descendants removed))
    (descendants element).

(** What the body of the loop makes of a found element, in place. *)
Definition cleaned (element : node) : result (node * string) :=
  if stale_access element
  then Raise (OtherException "'NoneType' object has no attribute 'get'")
  else
    let element := decompose_all unwanted element in
    let content := get_text_stripped element in
    match remove_boilerplate boilerplate_text content with
    | None => Raise value_error
    | Some content => Ok (element, clean_text content)
    end.

(** The loop of [extract_article_content] over the selectors. *)
Fixpoint try_selectors (selectors : list selector) (soup : node)
  : result (node * (option string * option string)) :=
  match selectors with
  | [] => Ok (soup, (None, None))
  | sel :: rest =>
      match criterion sel with
      | Some p =>
          match find p soup with
          | Some element =>
              match cleaned element with
              | Ok (element', content) =>
                  let soup' := put_first p element' soup in
                  if 200 <? String.length content
                  then Ok (soup', (Some content,
                                   Some (type_ sel ++ ": "
                                         ++ name_ sel)%string))
                  else try_selectors rest soup'
              | Raise e => Raise e
              end
          | None => try_selectors rest soup
          end
      | None => try_selectors rest soup
      end
  end.

Definition extract_article_content (soup : node) (source : string)
  : result (node * (option string * option string)) :=
  try_selectors (content_selectors source) soup.

End FetchNewsArticles.

(** ** Notions the statements use *)

(** Every character of [s] satisfies [f]. *)
Fixpoint all_chars (f : ascii -> bool) (s : string) : bool :=
  match s with
  | EmptyString => true
  | String c s' => f c && all_chars f s'
  end.

(** A character that is a blank or no white space at all. *)
Definition blank_or_solid (c : ascii) : bool :=
  negb (isspace c) || Ascii.eqb c " ".

(** The first character of [s], if any, is no white space. *)
Definition head_solid (s : string) : bool :=
  match s with
  | EmptyString => true
  | String c _ => negb (isspace c)
  end.














(** Exactly one of [full_content] and [error] is set. *)
Definition exactly_one (r : ArticleData) : Prop :=
  (full_content r <> None /\ error r = None)
  \/ (full_content r = None /\ error r <> None).

(** Every record of the three lists has exactly one of the two. *)
Definition sound (st : scraper) : Prop :=
  Forall exactly_one (article_data st)
  /\ Forall exactly_one (failed_urls st)
  /\ Forall exactly_one (paywall_urls st).

(** The number of records the three lists hold. *)
Definition filed (st : scraper) : nat :=
  length (article_data st) + length (failed_urls st)
  + length (paywall_urls st).

(** The boilerplate loop for phrases that are not empty: every turn is a
    cut, and no turn raises. *)
Definition cut_before (content text : string) : string :=
  if contains text content then text_before text content else content.

Definition cuts (boilerplate_text : list string) (content : string)
  : string :=
  fold_left cut_before boilerplate_text content.

(** The text [_process_content_element] of [articles_data_ET.py] measures:
    the element without its unwanted parts, its text, the boilerplate cut,
    the white space cleaned. *)
Definition cleaned_ET (element : node) : string :=
  clean_text
    (cuts ArticlesDataET.boilerplate_text
       (get_text_stripped
          (decompose_all ArticlesDataET.unwanted element))).

(** The same for the loop body of [fetch_news_articles.py]. *)
Definition cleaned_generic (element : node) : string :=
  clean_text
    (cuts FetchNewsArticles.boilerplate_text
       (get_text_stripped
          (decompose_all FetchNewsArticles.unwanted element))).

(** The copy [_process_content_element] of [ET_news_integrated.py] makes of
    the element, with the unwanted classes, tags and ids removed. *)
Definition pruned_copy (element : node) : node :=
  fold_left
    (fun copy unwanted_id => decompose_first (id_is unwanted_id) copy)
    ETNewsIntegrated.unwanted_ids
    (decompose_all
       (named_in ["script"; "style"; "noscript"; "iframe"; "form"])
       (fold_left
          (fun copy unwanted_class =>
             decompose_all
               (class_where
                  (fun c => truthy c && contains unwanted_class c))
               copy)
          ETNewsIntegrated.unwanted_classes
          (document [reparsed None element]))).

(** The text [_process_content_element] of [ET_news_integrated.py]
    measures. *)
Definition cleaned_integrated (element : node) : string :=
  clean_text
    (cuts ETNewsIntegrated.boilerplate_text
       (get_text_stripped (pruned_copy element))).

(** A cleaned text taken as the element to clean: an element that holds
    the text and nothing else. *)
Definition text_element (text : string) : node :=
  Tag "article" [] None [NavigableString text].

(** ** Pages, texts and worlds the examples use *)

Module Examples.

(** 201 characters of article text. *)
Definition long_text : string := times "x" 201.

Definition article (text : string) : node :=
  Tag "article" [] None [NavigableString text].



Definition empty_page : node := document [].

(** A page whose article holds a script of 250 characters and no text of
    its own, and a page whose only text, a paywall phrase, is in a
    script. *)
Definition script_page : node :=
  document
    [Tag "article" [] None
       [Tag "script" [] None [SpecialString Script (times "x" 250)]]].

Definition phrase_in_script_page : node :=
  document
    [Tag "script" [] None
       [SpecialString Script "var note = 'Subscribe to read';"]].

Definition readable_page : node := document [article long_text].


(** A page whose only text is in the paragraphs of a [div] that the last
    step of the locator of [ET_news_integrated.py] accepts. *)
Definition raw_paragraph : string :=
  (long_text ++ String LF "Read More News on")%string.

Definition paragraph_page : node :=
  document
    [Tag "div" ["main-content"] None
       [Tag "p" [] None [NavigableString raw_paragraph]]].

(** The same paragraph inside an [article] tag, which the first step of
    the locator finds. *)
Definition paragraph_in_article : node :=
  document
    [Tag "article" [] None
       [Tag "p" [] None [NavigableString raw_paragraph]]].

(** A text in which a line break splits a boilerplate phrase, and the text
    with a blank for the line break. *)
Definition broken_phrase_text : string :=
  (long_text ++ " Read" ++ String LF "More News on our site")%string.

Definition joined_phrase_text : string :=
  (long_text ++ " Read More News on our site")%string.

(** A page where the first [article] sits in an advertisement inside the
    main text, and a second [article] follows. *)
Definition nested_page : node :=
  document
    [Tag "div" ["artText"] None
       [Tag "div" ["ads"] None [article "short"];
        NavigableString (times "a" 201)];
     article (times "b" 201)].

(** That page as the locator of [articles_data_ET.py] leaves it. *)
Definition nested_page_after : node :=
  document
    [Tag "div" ["artText"] None [NavigableString (times "a" 201)];
     article (times "b" 201)].

(** An element with an advertisement and the article text between
    blanks. *)
Definition padded_element : node :=
  Tag "div" [] None
    [Tag "div" ["ads"] None [NavigableString "Buy now"];
     NavigableString ("  " ++ long_text ++ "  ")%string].



(** A client that refuses a URL without a scheme. *)
Definition no_scheme : world :=
  fun _ _ =>
    Raises (RequestException
              "Invalid URL '': No scheme supplied. Perhaps you meant https://?").


(** A client whose connection times out. *)
Definition timed_out : world :=
  fun _ _ => Raises (RequestException "Read timed out.").

(** A site that shows no article at the first request and the article at
    the later ones. *)
Definition paywall_then_open : world :=
  fun k _ =>
    match k with
    | O => Page empty_page
    | S _ => Page readable_page
    end.

(** A client whose error message repeats the URL it failed on. *)
Definition echo_url : world :=
  fun _ u =>
    Raises (RequestException ("404 Client Error: Not Found for url: " ++ u)).

Definition paywall_story_url : string := "http://x/Paywall-explained".

Definition row : cell * string * string :=
  (Str "http://x/a", "H", "1 Jan 2025").

End Examples.

(** ** The batch, row by row *)

(** The URL a row is requested with: none for a missing URL and for the
    placeholder. *)
Definition usable (url : cell) : option string :=
  match url with
  | NaN => None
  | Str u => if String.eqb u "URL not available" then None else Some u
  end.

(** The requests a list of URLs costs, in order. *)
Definition requests_for (urls : list cell) : list string :=
  flat_map (fun url => match usable url with Some u => [u] | None => [] end)
    urls.

Definition row_url (row : cell * string * string) : cell := fst (fst row).

Definition bucket_eqb (a b : bucket) : bool :=
  match a, b with
  | Extracted, Extracted | Paywalled, Paywalled | Failed, Failed => true
  | _, _ => false
  end.

(** The record goes to the list [b]. *)
Definition goes_to (b : bucket) (r : ArticleData) : bool :=
  bucket_eqb (bucket_of r) b.

(** The record carries the URL, headline and date of the row. *)
Definition made_for (row : cell * string * string) (r : ArticleData) : Prop :=
  url r = fst (fst row) /\ headline r = snd (fst row)
  /\ published_date r = snd row.

(** What a record of the list [b] looks like. *)
Definition fits (b : bucket) (r : ArticleData) : Prop :=
  match b with
  | Extracted => truthy_opt (full_content r) = true /\ error r = None
  | Paywalled =>
      full_content r = None /\ contains "Paywall" (str (error r)) = true
  | Failed =>
      full_content r = None /\ contains "Paywall" (str (error r)) = false
  end.

(** Every list of the scraper holds records of its kind. *)
Definition labelled (st : scraper) : Prop :=
  Forall (fits Extracted) (article_data st)
  /\ Forall (fits Failed) (failed_urls st)
  /\ Forall (fits Paywalled) (paywall_urls st).


(** The row a record was made from. *)
Definition row_of (r : ArticleData) : cell * string * string :=
  (url r, headline r, published_date r).

(** The record carries the values of one of the rows. *)
Definition from_rows (rows : list (cell * string * string))
  (r : ArticleData) : Prop :=
  In (row_of r) rows.

Module BatchExamples.

(** A table of two rows, the second without a URL. *)
Definition two_rows : list (cell * string * string) :=
  [(Str "http://x/a", "A", "1 Jan 2025"); (NaN, "B", "2 Jan 2025")].

(** A scraper that has already extracted one article and failed on one. *)
Definition earlier_run : scraper :=
  mkScraper ["http://x/0"]
    [mkArticleData (Str "http://x/0") "Z" "31 Dec 2024"
       (Some Examples.long_text) (Some "article tag") None]
    [mkArticleData NaN "Y" "30 Dec 2024" None None (Some "Invalid URL")]
    [].

End BatchExamples.


(** ** What an extracted record says about itself *)

(** The steps the locator of [articles_data_ET.py] can name. *)
Definition ET_methods : list string :=
  "article tag"
  :: map (fun name => ("class: " ++ name)%string)
       ArticlesDataET.content_selectors.

(** The steps the locator of [ET_news_integrated.py] can name. *)
Definition integrated_methods : list string :=
  "article tag"
  :: map (fun name => ("class: " ++ name)%string)
       ETNewsIntegrated.content_selectors
  ++ map (fun name => ("id: " ++ name)%string) ETNewsIntegrated.id_selectors
  ++ ["paragraphs in main content"].

(** A record with content has more than 200 characters of it and names one
    of [methods]; a record without content names no method. *)
Definition extracted_by (methods : list string) (r : ArticleData) : Prop :=
  match full_content r with
  | Some content =>
      200 < String.length content
      /\ exists method, extraction_method r = Some method /\ In method methods
  | None => extraction_method r = None
  end.


(** ** What the removal loops leave *)

(** A search criterion that reads the name, the classes and the id of a
    tag, not what the tag contains. *)
Definition shallow (p : node -> bool) : Prop :=
  forall t cs i ks ks', p (Tag t cs i ks) = p (Tag t cs i ks').

(** No node below [n] satisfies [p]. *)
Definition free_of (p : node -> bool) (n : node) : Prop :=
  forall d, In d (descendants n) -> p d = false.

(** The children [decompose_all] keeps, each with its own removals done. *)
Definition kept (p : node -> bool) (ks : list node) : list node :=
  flat_map (fun k => if p k then [] else [decompose_all p k]) ks.

(** The criteria of the three removal loops of [ET_news_integrated.py]:
    a class token that contains one of [unwanted_classes], one of the five
    tag names, one of [unwanted_ids]. *)
Definition unwanted_class (n : node) : bool :=
  existsb
    (fun unwanted_class =>
       class_where (fun c => truthy c && contains unwanted_class c) n)
    ETNewsIntegrated.unwanted_classes.

Definition unwanted_tag : node -> bool :=
  named_in ["script"; "style"; "noscript"; "iframe"; "form"].

Module SanitizerExamples.

(** An article with an advertisement between two paragraphs. *)
Definition with_advertisement : node :=
  Tag "article" [] None
    [ Tag "p" [] None [NavigableString Examples.long_text];
      Tag "div" ["ads"] None [NavigableString "Buy now"];
      Tag "p" [] None [NavigableString "The end."] ].

Definition without_advertisement : node :=
  Tag "article" [] None
    [ Tag "p" [] None [NavigableString Examples.long_text];
      Tag "p" [] None [NavigableString "The end."] ].

End SanitizerExamples.


(** The children of a tag after [rewrite_first] has changed the first node
    below it that satisfies [p]. *)
Fixpoint rewrite_children (p : node -> bool) (f : node -> option node)
  (l : list node) : option (list node) :=
  match l with
  | [] => None
  | k :: l' =>
      if p k
      then Some (match f k with Some k' => k' :: l' | None => l' end)
      else match rewrite_first p f k with
           | Some k' => Some (k' :: l')
           | None => match rewrite_children p f l' with
                     | Some l'' => Some (k :: l'')
                     | None => None
                     end
           end
  end.


(** ** The batch of [fetch_news_articles.py] *)

Module FetchNewsBatch.

(** The URL [requests.get] is called with, as text: a missing cell of the
    table is the float [nan]. *)
Definition url_text (url : cell) : string :=
  match url with
  | NaN => "nan"
  | Str u => u
  end.

(** What [extract_article_content] hands to its caller. *)
Definition located (soup : node) (source : string)
  : result (option string * option string) :=
  match FetchNewsArticles.extract_article_content soup source with
  | Ok (_, r) => Ok r
  | Raise e => Raise e
  end.

Section Batch.

Variable w : world.

(** [process_single_article]: there is no test of the URL before the
    request. *)
Definition process_single_article (url : cell)
  (headline published_date source : string) : M ArticleData :=
  try_except
    (soup <- fetch w (url_text url) ;;
     if FetchNewsArticles.is_paywall_page soup source
     then ret (failed url headline published_date "Paywall detected")
     else
       located <- call (located soup source) ;;
       let '(content, method) := located in
       if truthy_opt content
       then ret (mkArticleData url headline published_date content
                   method None)
       else ret (failed url headline published_date "No content found"))
    (fun e => ret (failed url headline published_date (error_text e))).

(** The loop of [process_articles] over the rows of the input table; no
    recheck follows it. *)
Fixpoint process_articles (rows : list (cell * string * string))
  (source : string) : M unit :=
  match rows with
  | [] => ret tt
  | (article_url, headline, published_date) :: rest =>
      result <- process_single_article article_url headline published_date
                  source ;;
      append_to (bucket_of result) result ;;;
      process_articles rest source
  end.

End Batch.

End FetchNewsBatch.


(** ** [check_paywall_articles.py] *)

Module CheckPaywallArticles.

Definition boilerplate : list string :=
  [ "Catch all the US News";
    "Download The Economic Times News App";
    "You can now subscribe to our Economic Times WhatsApp channel";
    "Disclaimer Statement:";
    "Read More News on";
    "Prime Exclusives";
    "Investment Ideas";
    "View all Stories";
    "(You can now subscribe to our";
    "Read More News on" ].

Definition unwanted (n : node) : bool :=
  named_in ["script"; "style"; "noscript"; "div"] n
  && nonempty (classes n)
  && existsb
       (fun c =>
          existsb (String.eqb c)
            ["flt"; "ads"; "footer"; "disclaimer"; "prime"; "paywall"])
       (classes n).

(** The removal loop raises as in [articles_data_ET.py]. *)
Definition stale_access (element : node) : bool :=
  existsb
    (fun removed =>
       unwanted removed
       && existsb (named_in ["script"; "style"; "noscript"; "div"])
            (descendants removed))
    (descendants element).

(** [extract_article_content]: the article tag or nothing. *)
Definition extract_article_content (soup : node) : result (option string) :=
  match find (named "article") soup with
  | Some article_tag =>
      if stale_access article_tag
      then Raise (OtherException "'NoneType' object has no attribute 'get'")
      else
        let article_tag := decompose_all unwanted article_tag in
        let content := get_text_stripped article_tag in
        match remove_boilerplate boilerplate content with
        | None => Raise value_error
        | Some content =>
            let content := clean_text content in
            if 200 <? String.length content then Ok (Some content)
            else Ok None
        end
  | None => Ok None
  end.

(** A value of the JSON file: [null], the float [NaN] or a string. *)
Inductive value : Type :=
| Null
| Nan
| Text (s : string).

(** An article as [json.load] gives it: a dictionary, keys in the order of
    the file. *)
Definition dict : Type := list (string * value).

(** [d[k]]; [None] stands for the [KeyError]. *)
Fixpoint dict_get (k : string) (d : dict) : option value :=
  match d with
  | [] => None
  | (k', v) :: d' => if String.eqb k' k then Some v else dict_get k d'
  end.

(** [d[k] = v]: the value of an old key is replaced where it stands, a new
    key goes to the end. *)
Fixpoint dict_set (k : string) (v : value) (d : dict) : dict :=
  match d with
  | [] => [(k, v)]
  | (k', v') :: d' =>
      if String.eqb k' k then (k, v) :: d' else (k', v') :: dict_set k v d'
  end.

(** [str(v)], the text [requests.get] makes of the URL. *)
Definition py_str (v : value) : string :=
  match v with
  | Null => "None"
  | Nan => "nan"
  | Text s => s
  end.

(** [str(e)] *)
Definition message (e : exn) : string :=
  match e with
  | RequestException msg => msg
  | OtherException msg => msg
  end.

Definition key_error (k : string) : exn :=
  OtherException ("'" ++ k ++ "'")%string.

(** The loop of [recheck_paywall_articles] over the loaded list.  The
    script has no scraper object: of the state only the requests are
    used.  [article['url']] is read before the [try]. *)
Fixpoint recheck_loop (w : world) (paywall_urls : list dict)
  (successfully_extracted still_paywall failed_urls : list dict)
  : M (list dict * list dict * list dict) :=
  match paywall_urls with
  | [] => ret (successfully_extracted, still_paywall, failed_urls)
  | article :: rest =>
      match dict_get "url" article with
      | None => fun st => (st, Raise (key_error "url"))
      | Some url =>
          lists <-
            try_except
              (soup <- fetch w (py_str url) ;;
               content <- call (extract_article_content soup) ;;
               match content with
               | Some text =>
                   if truthy text
                   then ret (successfully_extracted
                               ++ [dict_set "full_content" (Text text)
                                     article],
                             still_paywall, failed_urls)
                   else ret (successfully_extracted,
                             still_paywall ++ [article], failed_urls)
               | None =>
                   ret (successfully_extracted, still_paywall ++ [article],
                        failed_urls)
               end)
              (fun e =>
                 ret (successfully_extracted, still_paywall,
                      failed_urls
                      ++ [dict_set "error" (Text (message e)) article])) ;;
          let '(successfully_extracted, still_paywall, failed_urls) :=
            lists in
          recheck_loop w rest successfully_extracted still_paywall
            failed_urls
      end
  end.

(** The text of the URL of an article that has one. *)
Definition url_of (article : dict) : string :=
  match dict_get "url" article with
  | Some url => py_str url
  | None => ""
  end.

Definition has_url (article : dict) : bool :=
  match dict_get "url" article with Some _ => true | None => false end.

(** [a] is [a0] with more than 200 characters of content put in; its other
    keys, the old error among them, are as they were. *)
Definition recovered_from (articles : list dict) (a : dict) : Prop :=
  exists a0 text,
    In a0 articles
    /\ a = dict_set "full_content" (Text text) a0
    /\ 200 < String.length text
    /\ dict_get "error" a = dict_get "error" a0.

(** [a] is [a0] with the message of an exception as its error. *)
Definition failed_from (articles : list dict) (a : dict) : Prop :=
  exists a0 e,
    In a0 articles /\ a = dict_set "error" (Text (message e)) a0.

(** A record of the paywall list as [_save_json] wrote it. *)
Definition paywalled_article (u : string) : dict :=
  [ ("url", Text u); ("headline", Text "H");
    ("published_date", Text "1 Jan 2025"); ("full_content", Null);
    ("extraction_method", Null); ("error", Text "Paywall detected") ].

End CheckPaywallArticles.


(** ** [extract_year_month] of [ET_news_integrated.py] *)

Module ExtractYearMonth.

(** The character classes of the two patterns: [\d], [\s], [[A-Za-z]]. *)
Inductive char_class : Type :=
| digit
| space
| letter.

Definition in_class (c : char_class) (a : ascii) : bool :=
  let n := nat_of_ascii a in
  match c with
  | digit => (48 <=? n) && (n <=? 57)
  | space => isspace a
  | letter => ((65 <=? n) && (n <=? 90)) || ((97 <=? n) && (n <=? 122))
  end.

(** One piece of a pattern: a class repeated [at_least] to [at_most] times
    ([None]: no bound), as many as possible first; [captured] when it is a
    group. *)
Record atom : Type := mkAtom {
  captured : bool;
  class : char_class;
  at_least : nat;
  at_most : option nat
}.

(** [(\d{1,2})\s+([A-Za-z]{3,})\s+(\d{4})] *)
Definition pattern1 : list atom :=
  [ mkAtom true digit 1 (Some 2); mkAtom false space 1 None;
    mkAtom true letter 3 None; mkAtom false space 1 None;
    mkAtom true digit 4 (Some 4) ].

(** [([A-Za-z]{3,})\s+(\d{1,2})\s+(\d{4})] *)
Definition pattern2 : list atom :=
  [ mkAtom true letter 3 None; mkAtom false space 1 None;
    mkAtom true digit 1 (Some 2); mkAtom false space 1 None;
    mkAtom true digit 4 (Some 4) ].

(** The characters of class [c] [s] starts with. *)
Fixpoint run (c : char_class) (s : string) : nat :=
  match s with
  | EmptyString => 0
  | String a s' => if in_class c a then S (run c s') else 0
  end.

Definition longest (a : atom) (s : string) : nat :=
  match at_most a with
  | Some m => Nat.min m (run (class a) s)
  | None => run (class a) s
  end.

Definition take (k : nat) (s : string) : string := substring 0 k s.

Fixpoint skip (k : nat) (s : string) : string :=
  match k, s with
  | S k', String _ s' => skip k' s'
  | _, _ => s
  end.

(** The lengths a repetition tries, the longest first. *)
Fixpoint descend {A : Type} (k at_least : nat) (attempt : nat -> option A)
  : option A :=
  if k <? at_least then None
  else match attempt k with
       | Some r => Some r
       | None =>
           match k with
           | O => None
           | S k' => descend k' at_least attempt
           end
       end.

(** The match of a pattern at the start of [s]: its groups. *)
Fixpoint match_here (p : list atom) (s : string) : option (list string) :=
  match p with
  | [] => Some []
  | a :: rest =>
      descend (longest a s) (at_least a)
        (fun k =>
           match match_here rest (skip k s) with
           | Some groups =>
               Some (if captured a then take k s :: groups else groups)
           | None => None
           end)
  end.

(** [re.search(p, s)]: the match at the first place that has one. *)
Fixpoint search (p : list atom) (s : string) : option (list string) :=
  match match_here p s with
  | Some groups => Some groups
  | None =>
      match s with
      | EmptyString => None
      | String _ s' => search p s'
      end
  end.

(** [int(s)] for a string of digits. *)
Definition int (s : string) : nat :=
  (fix go (acc : nat) (s : string) : nat :=
     match s with
     | EmptyString => acc
     | String a s' => go (10 * acc + (nat_of_ascii a - 48)) s'
     end) 0 s.

(** [s.split(',')] *)
Fixpoint split_comma (s : string) : list string :=
  match s with
  | EmptyString => [EmptyString]
  | String a s' =>
      match split_comma s' with
      | part :: parts =>
          if Ascii.eqb a "," then EmptyString :: part :: parts
          else String a part :: parts
      | [] => [String a EmptyString]
      end
  end.

Definition month_names : list (nat * string) :=
  [ (1, "January"); (2, "February"); (3, "March"); (4, "April");
    (5, "May"); (6, "June"); (7, "July"); (8, "August");
    (9, "September"); (10, "October"); (11, "November");
    (12, "December") ].

Definition month_map : list (string * nat) :=
  [ ("jan", 1); ("feb", 2); ("mar", 3); ("apr", 4); ("may", 5);
    ("jun", 6); ("jul", 7); ("aug", 8); ("sep", 9); ("oct", 10);
    ("nov", 11); ("dec", 12) ].

(** [d.get(k)] *)
Fixpoint get {V : Type} (eqb : V -> V -> bool) {W : Type}
  (d : list (V * W)) (k : V) : option W :=
  match d with
  | [] => None
  | (k', v) :: d' => if eqb k' k then Some v else get eqb d' k
  end.

Section Row.

(** The last resort, [datetime.strptime] with the six formats in turn:
    the year and the lower-cased [%b] of the first format that parses the
    text, if one does. *)
Variable strptime : string -> option (nat * string).

(** The cleaned date: the time part dropped, the commas made blanks. *)
Definition clean_date (date_str : string) : string :=
  let clean_date := strip date_str in
  let clean_date :=
    if contains "IST" clean_date
    then
      let parts := split_comma clean_date in
      if 2 <=? length parts
      then strip (String.concat "," (firstn 2 parts))
      else clean_date
    else clean_date in
  replace_char "," " " clean_date.

(** The year and the month abbreviation the three attempts give. *)
Definition year_and_month_str (clean_date : string)
  : option (nat * string) :=
  match search pattern1 clean_date with
  | Some [day; month; year] => Some (int year, substring 0 3 (lower month))
  | Some _ => None
  | None =>
      match search pattern2 clean_date with
      | Some [month; day; year] =>
          Some (int year, substring 0 3 (lower month))
      | Some _ => None
      | None => strptime clean_date
      end
  end.

(** The body of the loop for one row: the [year] and the [month] the row
    gets; [None] when the two columns keep their [None]. *)
Definition year_month (date_str : cell) : option (nat * string) :=
  match date_str with
  | NaN => None
  | Str date_str =>
      if truthy (strip date_str)
      then
        match year_and_month_str (clean_date date_str) with
        | Some (year, month_str) =>
            match get String.eqb month_map (lower month_str) with
            | Some month_num =>
                if negb (month_num =? 0)
                   && (1 <=? month_num) && (month_num <=? 12)
                   && (1900 <=? year) && (year <=? 2100)
                then match get Nat.eqb month_names month_num with
                     | Some name => Some (year, name)
                     | None => None
                     end
                else None
            | None => None
            end
        | None => None
        end
      else None
  end.

(** [extract_year_month] on the column of dates. *)
Definition extract_year_month (published_date : list cell)
  : list (option (nat * string)) :=
  map year_month published_date.

End Row.

(** The parts of a written date: a day of one or two digits, a month of
    three letters or more, a year of four digits. *)
Definition date_parts (day month year : string) : bool :=
  all_chars (in_class digit) day
  && (1 <=? String.length day) && (String.length day <=? 2)
  && all_chars (in_class letter) month && (3 <=? String.length month)
  && all_chars (in_class digit) year && (String.length year =? 4).

(** The name of the month a written month stands for: the one its first
    three letters, in lower case, are the key of. *)
Definition month_of (month : string) : option string :=
  match get String.eqb month_map (substring 0 3 (lower month)) with
  | Some month_num => get Nat.eqb month_names month_num
  | None => None
  end.

(** [s] does not start with a character of class [c]. *)
Definition starts_outside (c : char_class) (s : string) : bool :=
  match s with
  | EmptyString => true
  | String a _ => negb (in_class c a)
  end.

Definition no_comma (s : string) : bool :=
  all_chars (fun a => negb (Ascii.eqb a ",")) s.

End ExtractYearMonth.


Module DateExamples.

(** An oracle for the last resort that always gives a date out of range. *)
Definition far_future (clean_date : string) : option (nat * string) :=
  Some (3000, "jan").

End DateExamples.


(** The searches of the locator of [articles_data_ET.py], each with the
    method it reports: [soup.find('article')], and [soup.find(class_=name)]
    for a name of [content_selectors]. *)
Definition ET_search (p : node -> bool) (method : string) : Prop :=
  (p = named "article" /\ method = "article tag")
  \/ (exists name,
         In name ArticlesDataET.content_selectors
         /\ p = class_is name
         /\ method = ("class: " ++ name)%string).

(** The pages the locator of [articles_data_ET.py] looks at: the page it is
    given, and the page after [_process_content_element] has worked in
    place on an element that one of its searches found. *)
Inductive seen_from (soup : node) : node -> Prop :=
| seen_first : seen_from soup soup
| seen_next (p : node -> bool) (method : string)
    (soup0 element element' : node) (content : option string) :
    seen_from soup soup0 ->
    ET_search p method ->
    find p soup0 = Some element ->
    ArticlesDataET._process_content_element element
    = Ok (element', content) ->
    seen_from soup (put_first p element' soup0).

(** * Facts about the string operations *)

Section StringFacts.

Local Arguments isspace : simpl never.

Lemma lstrip_head_solid (s : string) : head_solid (lstrip s) = true.
Proof.
  induction s as [|c s IH]; simpl; auto.
  destruct (isspace c) eqn:E; simpl; auto. now rewrite E.
Qed.

Lemma lstrip_fixed (s : string) : head_solid s = true -> lstrip s = s.
Proof.
  destruct s as [|c s]; simpl; auto.
  destruct (isspace c); simpl; auto; discriminate.
Qed.

Lemma rstrip_empty_iff (s : string) :
  rstrip s = EmptyString <-> all_chars isspace s = true.
Proof.
  induction s as [|c s IH]; simpl.
  - tauto.
  - destruct (rstrip s) eqn:R.
    + destruct (isspace c); simpl; split; intros H; auto; try discriminate.
      now apply IH.
    + split; intros H; try discriminate.
      apply andb_true_iff in H. destruct H as [_ H].
      apply IH in H. discriminate.
Qed.

Lemma rstrip_cons_fixed (c : ascii) (s : string) :
  rstrip s = s -> s <> EmptyString -> rstrip (String c s) = String c s.
Proof.
  intros H N. simpl. rewrite H. destruct s; [congruence | reflexivity].
Qed.

Lemma rstrip_idem (s : string) : rstrip (rstrip s) = rstrip s.
Proof.
  induction s as [|c s IH]; simpl; auto.
  destruct (rstrip s) as [|a r] eqn:R.
  - destruct (isspace c) eqn:E; simpl; auto. now rewrite E.
  - apply rstrip_cons_fixed; [exact IH | discriminate].
Qed.

Lemma rstrip_head_solid (s : string) :
  head_solid s = true -> head_solid (rstrip s) = true.
Proof.
  destruct s as [|c s]; simpl; auto.
  intros H. destruct (rstrip s); [|exact H].
  destruct (isspace c) eqn:E; [discriminate|]. simpl. now rewrite E.
Qed.

Lemma strip_head_solid (s : string) : head_solid (strip s) = true.
Proof. apply rstrip_head_solid, lstrip_head_solid. Qed.

Lemma strip_rstrip_fixed (s : string) : rstrip (strip s) = strip s.
Proof. apply rstrip_idem. Qed.

(** A text that starts and ends with a solid character is its own strip. *)
Lemma strip_fixed (s : string) :
  head_solid s = true -> rstrip s = s -> strip s = s.
Proof. intros H R. unfold strip. now rewrite lstrip_fixed. Qed.

Lemma strip_idem (s : string) : strip (strip s) = strip s.
Proof. apply strip_fixed; [apply strip_head_solid | apply strip_rstrip_fixed]. Qed.

Lemma sub_spaces_blanks (b : bool) (s : string) :
  all_chars blank_or_solid (sub_spaces b s) = true.
Proof.
  revert b. induction s as [|c s IH]; intros b; simpl; auto.
  destruct (isspace c) eqn:E.
  - destruct b; simpl; auto.
  - simpl. unfold blank_or_solid at 1. rewrite E. simpl. auto.
Qed.

Lemma replace_char_blanks (old : ascii) (s : string) :
  blank_or_solid old = false ->
  all_chars blank_or_solid s = true -> replace_char old " " s = s.
Proof.
  intros O. induction s as [|c s IH]; simpl; auto.
  intros H. apply andb_true_iff in H. destruct H as [Hc Hs].
  rewrite (IH Hs). destruct (Ascii.eqb c old) eqn:E; auto.
  apply Ascii.eqb_eq in E. congruence.
Qed.

Lemma sub_spaces_idem (s : string) :
  (forall b, sub_spaces false (sub_spaces b s) = sub_spaces b s)
  /\ sub_spaces true (sub_spaces true s) = sub_spaces true s.
Proof.
  induction s as [|c s [IH1 IH2]]; simpl; [split; auto|].
  destruct (isspace c) eqn:E; split; intros; simpl.
  - destruct b; auto. simpl. change (isspace " ") with true. simpl.
    now rewrite IH2.
  - exact IH2.
  - rewrite E. now rewrite IH1.
  - rewrite E. now rewrite IH1.
Qed.

Lemma sub_spaces_head_solid (s : string) :
  head_solid s = true -> head_solid (sub_spaces false s) = true.
Proof.
  destruct s as [|c s]; simpl; auto.
  destruct (isspace c) eqn:E; simpl; [discriminate | now rewrite E].
Qed.

Lemma sub_spaces_empty (b : bool) (s : string) :
  sub_spaces b s = EmptyString -> all_chars isspace s = true.
Proof.
  revert b. induction s as [|c s IH]; intros b; simpl; auto.
  destruct (isspace c); simpl.
  - destruct b; [apply IH | discriminate].
  - discriminate.
Qed.

Lemma sub_spaces_rstrip_fixed (s : string) :
  rstrip s = s -> forall b, rstrip (sub_spaces b s) = sub_spaces b s.
Proof.
  induction s as [|c s IH]; intros R b; auto.
  simpl in R. destruct (rstrip s) as [|a r] eqn:Rs; simpl in R.
  - destruct (isspace c) eqn:E; simpl in R; [discriminate|].
    injection R as R. subst s. simpl. rewrite E. simpl. now rewrite E.
  - injection R as R.
    assert (N : forall b', sub_spaces b' s <> EmptyString).
    { intros b' H. apply sub_spaces_empty, rstrip_empty_iff in H.
      congruence. }
    assert (F : forall b', rstrip (sub_spaces b' s) = sub_spaces b' s).
    { apply IH. congruence. }
    simpl. destruct (isspace c).
    + destruct b; [apply F|]. apply rstrip_cons_fixed; auto.
    + apply rstrip_cons_fixed; auto.
Qed.

Lemma clean_text_eq (s : string) : clean_text s = sub_spaces false (strip s).
Proof.
  unfold clean_text. destruct s as [|c s]; [reflexivity|].
  cbn [truthy negb].
  rewrite (replace_char_blanks LF)
    by (reflexivity || apply sub_spaces_blanks).
  rewrite (replace_char_blanks CR)
    by (reflexivity || apply sub_spaces_blanks).
  apply replace_char_blanks; [reflexivity | apply sub_spaces_blanks].
Qed.

(** What [clean_text] leaves alone: a text with a solid first and last
    character whose white space is single blanks. *)
Lemma clean_text_fixed (t : string) :
  head_solid t = true -> rstrip t = t -> sub_spaces false t = t ->
  clean_text t = t.
Proof.
  intros H R S. rewrite clean_text_eq, strip_fixed; auto.
Qed.

Lemma clean_text_shape (s : string) :
  head_solid (clean_text s) = true
  /\ rstrip (clean_text s) = clean_text s
  /\ sub_spaces false (clean_text s) = clean_text s.
Proof.
  rewrite clean_text_eq. repeat split.
  - apply sub_spaces_head_solid, strip_head_solid.
  - apply sub_spaces_rstrip_fixed, strip_rstrip_fixed.
  - apply sub_spaces_idem.
Qed.

Lemma clean_text_idem (s : string) : clean_text (clean_text s) = clean_text s.
Proof.
  destruct (clean_text_shape s) as (H & R & S). now apply clean_text_fixed.
Qed.

Lemma strip_clean_text (s : string) : strip (clean_text s) = clean_text s.
Proof.
  destruct (clean_text_shape s) as (H & R & _). now apply strip_fixed.
Qed.

End StringFacts.

(** ** Occurrences and cuts *)

Section CutFacts.

Lemma prefix_cons (c : ascii) (a b : string) :
  prefix (String c a) (String c b) = prefix a b.
Proof. simpl. destruct (ascii_dec c c); congruence. Qed.

Lemma prefix_cons_inv (a : string) (c : ascii) (b : string) :
  prefix a (String c b) = true ->
  a = EmptyString \/ exists a', a = String c a' /\ prefix a' b = true.
Proof.
  destruct a as [|x a]; [now left|]. simpl.
  destruct (ascii_dec x c); [|discriminate].
  subst. right. now exists a.
Qed.

Lemma prefix_nil (b : string) : prefix EmptyString b = true.
Proof. now destruct b. Qed.

Lemma prefix_empty_r (a : string) :
  prefix a EmptyString = true -> a = EmptyString.
Proof. destruct a; [reflexivity | discriminate]. Qed.



Lemma prefix_length (a b : string) :
  prefix a b = true -> String.length a <= String.length b.
Proof.
  revert a. induction b as [|x b IH]; intros a H.
  - apply prefix_empty_r in H. now subst.
  - apply prefix_cons_inv in H. destruct H as [->|(a' & -> & H)]; simpl.
    + lia.
    + apply IH in H. lia.
Qed.

Lemma prefix_app (a b : string) : prefix a (a ++ b) = true.
Proof.
  induction a as [|c a IH]; [apply prefix_nil|].
  change (String c a ++ b)%string with (String c (a ++ b)).
  now rewrite prefix_cons.
Qed.

Lemma contains_cons (p : string) (c : ascii) (s : string) :
  contains p s = true -> contains p (String c s) = true.
Proof.
  intros H. cbn [contains]. rewrite H. now destruct (prefix p (String c s)).
Qed.

Lemma contains_app_r (p a s : string) :
  contains p s = true -> contains p (a ++ s) = true.
Proof.
  intros H. induction a as [|c a IH]; [exact H|].
  now apply contains_cons.
Qed.






Lemma text_before_absent (p s : string) :
  contains p s = false -> text_before p s = s.
Proof.
  induction s as [|c s IH]; cbn [contains text_before].
  - now destruct (prefix p "").
  - destruct (prefix p (String c s)); [discriminate|].
    intros H. now rewrite IH.
Qed.





Lemma cuts_absent (phrases : list string) (content : string) :
  Forall (fun p => contains p content = false) phrases ->
  cuts phrases content = content.
Proof.
  induction 1 as [|p l Hp Hl IH]; [reflexivity|].
  cbn [cuts fold_left].
  replace (cut_before content p) with content
    by (unfold cut_before; now rewrite Hp).
  exact IH.
Qed.











End CutFacts.

(** * The boilerplate step *)

Lemma ET_phrases_nonempty :
  Forall (fun p => p <> EmptyString) ArticlesDataET.boilerplate_text.
Proof. repeat constructor; discriminate. Qed.

Lemma generic_phrases_nonempty :
  Forall (fun p => p <> EmptyString) FetchNewsArticles.boilerplate_text.
Proof. repeat constructor; discriminate. Qed.

Lemma integrated_phrases_nonempty :
  Forall (fun p => p <> EmptyString) ETNewsIntegrated.boilerplate_text.
Proof. repeat constructor; discriminate. Qed.

Lemma script_phrases_nonempty :
  Forall (fun p => p <> EmptyString) CheckPaywallArticles.boilerplate.
Proof. repeat constructor; discriminate. Qed.

(** A turn of the loop with a phrase that is not empty is a cut. *)
Lemma cut_at_nonempty (content text : string) :
  text <> EmptyString -> cut_at content text = Some (cut_before content text).
Proof.
  intros N. unfold cut_at, cut_before, split_head.
  destruct text; [contradiction|]. now destruct (contains _ content).
Qed.



(** With phrases that are not empty the loop does not raise. *)
Lemma remove_boilerplate_cuts (phrases : list string) (content : string) :
  Forall (fun p => p <> EmptyString) phrases ->
  remove_boilerplate phrases content = Some (cuts phrases content).
Proof.
  intros N. revert content.
  induction N as [|p l Hp _ IH]; intros content; [reflexivity|].
  unfold remove_boilerplate, cuts. cbn [fold_left].
  rewrite (cut_at_nonempty _ _ Hp). apply IH.
Qed.






(** * The paywall classifiers *)

Section SoupFacts.


Lemma find_in (p : node -> bool) (n e : node) :
  find p n = Some e -> In e (descendants n) /\ p e = true.
Proof. apply find_some. Qed.









End SoupFacts.






(** The text of a script is no part of the text [get_text] returns, so an
    article that holds nothing but a script is a thin one; the search by
    [string=] does see the text of a script. *)
Lemma script_text_is_left_out :
  ArticlesDataET.article_content Examples.script_page
  = Some (Tag "article" [] None
            [Tag "script" [] None [SpecialString Script (times "x" 250)]])
  /\ get_text
       (Tag "article" [] None
          [Tag "script" [] None [SpecialString Script (times "x" 250)]])
     = EmptyString
  /\ ArticlesDataET.is_paywall_page Examples.script_page = true
  /\ ETNewsIntegrated.is_paywall_page Examples.phrase_in_script_page = true
  /\ get_text (Tag "script" [] None [SpecialString Script "x"]) = "x".
Proof. repeat split; vm_compute; reflexivity. Qed.

(** * One article, and the batch *)

Section PipelineFacts.

Variable is_paywall_page : node -> bool.
Variable extract_article_content
  : node -> result (option string * option string).
Variable w : world.

Local Notation "'psa'" :=
  (process_single_article is_paywall_page extract_article_content w).
Local Notation "'ends'" :=
  (outcome is_paywall_page extract_article_content w).
Local Notation "'rows_loop'" :=
  (process_rows is_paywall_page extract_article_content w).
Local Notation "'recheck'" :=
  (recheck_loop is_paywall_page extract_article_content w).

(** [process_single_article] always returns a record, in one of the six
    ways of [outcome]. *)
Lemma process_single_article_returns (url : cell) (h d : string)
  (st : scraper) :
  exists st' r, psa url h d st = (st', Ok r) /\ ends st url h d st' r.
Proof.
  unfold process_single_article, try_except.
  destruct url as [|u].
  - do 2 eexists. split; [reflexivity|]. constructor. now left.
  - destruct (String.eqb u "URL not available") eqn:E.
    + apply String.eqb_eq in E. subst u.
      do 2 eexists. split; [reflexivity|]. constructor. now right.
    + apply String.eqb_neq in E. unfold bind, fetch, call.
      destruct (w (length (sent st)) u) as [e|soup] eqn:W.
      * do 2 eexists. split; [reflexivity|]. now eapply request_raised.
      * destruct (is_paywall_page soup) eqn:P.
        -- do 2 eexists. split; [reflexivity|].
           now eapply paywall_detected; eauto.
        -- destruct (extract_article_content soup)
             as [[content method]|e] eqn:X.
           ++ destruct (truthy_opt content) eqn:T.
              ** do 2 eexists. split; [reflexivity|].
                 destruct content as [c|]; [|discriminate].
                 eapply content_extracted; eauto.
              ** do 2 eexists. split; [reflexivity|].
                 eapply no_content_found; eauto.
           ++ do 2 eexists. split; [reflexivity|].
              eapply locator_raised; eauto.
Qed.

Lemma outcome_exactly_one (st st' : scraper) (url : cell) (h d : string)
  (r : ArticleData) :
  ends st url h d st' r -> exactly_one r.
Proof.
  unfold exactly_one.
  destruct 1; simpl; solve [right; split; congruence | left; split; congruence].
Qed.

(** The lists are left alone, and at most one request is made. *)
Lemma outcome_frame (st st' : scraper) (url : cell) (h d : string)
  (r : ArticleData) :
  ends st url h d st' r ->
  article_data st' = article_data st
  /\ failed_urls st' = failed_urls st
  /\ paywall_urls st' = paywall_urls st
  /\ length (sent st') <= S (length (sent st)).
Proof.
  destruct 1; simpl; repeat split; auto; rewrite length_app; simpl; lia.
Qed.

(** For a URL that is a string other than the placeholder, the request is
    made. *)
Lemma outcome_requested (st st' : scraper) (u h d : string)
  (r : ArticleData) :
  u <> "URL not available" ->
  ends st (Str u) h d st' r -> st' = requested st u.
Proof.
  intros N H. inversion H; subst; try congruence.
  destruct H0; congruence.
Qed.

(** The failure modes, one by one. *)
Lemma invalid_url_short_circuit (url : cell) (h d : string) (st : scraper) :
  url = NaN \/ url = Str "URL not available" ->
  psa url h d st = (st, Ok (failed url h d "Invalid URL")).
Proof. intros [->| ->]; reflexivity. Qed.

Lemma request_exception_caught (u h d msg : string) (st : scraper) :
  u <> "URL not available" ->
  w (length (sent st)) u = Raises (RequestException msg) ->
  psa (Str u) h d st
  = (requested st u,
     Ok (failed (Str u) h d ("Request error: " ++ msg)%string)).
Proof.
  intros N W. apply String.eqb_neq in N.
  unfold process_single_article, try_except, bind, fetch.
  rewrite N, W. reflexivity.
Qed.


Lemma filed_in_sound (b : bucket) (r : ArticleData) (st : scraper) :
  exactly_one r -> sound st -> sound (filed_in b r st).
Proof.
  intros Hr (A & F & P). unfold sound.
  destruct b; simpl; repeat split; auto; apply Forall_app; auto.
Qed.

Lemma filed_in_count (b : bucket) (r : ArticleData) (st : scraper) :
  filed (filed_in b r st) = S (filed st) /\ sent (filed_in b r st) = sent st.
Proof.
  unfold filed. destruct b; simpl; rewrite length_app; simpl; split; auto; lia.
Qed.

Lemma process_rows_cons (url : cell) (h d : string)
  (rest : list (cell * string * string)) (st st1 : scraper)
  (r : ArticleData) :
  psa url h d st = (st1, Ok r) ->
  rows_loop ((url, h, d) :: rest) st
  = rows_loop rest (filed_in (bucket_of r) r st1).
Proof.
  intros H. cbn [process_rows]. unfold bind at 1. rewrite H.
  reflexivity.
Qed.

(** The loop over the rows never raises: every row leaves one record in
    one of the lists, and costs at most one request. *)
Lemma process_rows_returns (rows : list (cell * string * string))
  (st : scraper) :
  exists st',
    rows_loop rows st = (st', Ok tt)
    /\ filed st' = filed st + length rows
    /\ length (sent st') <= length (sent st) + length rows
    /\ (sound st -> sound st').
Proof.
  revert st. induction rows as [|[[url h] d] rest IH]; intros st.
  - exists st. simpl. split; [reflexivity|]. split; [lia|].
    split; [lia | auto].
  - destruct (process_single_article_returns url h d st) as (st1 & r & E & O).
    rewrite (process_rows_cons _ _ _ _ _ _ _ E).
    destruct (IH (filed_in (bucket_of r) r st1)) as (st' & E' & C & S' & I).
    exists st'. split; [exact E'|].
    destruct (filed_in_count (bucket_of r) r st1) as [C1 S1].
    destruct (outcome_frame _ _ _ _ _ _ O) as (A & F & P & L).
    assert (filed st1 = filed st) by (unfold filed; congruence).
    rewrite C1 in C. rewrite S1 in S'. simpl.
    split; [lia|]. split; [lia|].
    intros Hs. apply I, filed_in_sound.
    + eapply outcome_exactly_one; eauto.
    + unfold sound in *. now rewrite A, F, P.
Qed.

(** The loop of the recheck never raises either: it leaves the lists of
    the scraper alone, sorts every article into one of its own three
    lists, and costs at most one request for each. *)
Lemma recheck_loop_returns (articles : list ArticleData)
  (l1 l2 l3 : list ArticleData) (st : scraper) :
  exists st' l1' l2' l3',
    recheck articles l1 l2 l3 st = (st', Ok (l1', l2', l3'))
    /\ article_data st' = article_data st
    /\ failed_urls st' = failed_urls st
    /\ paywall_urls st' = paywall_urls st
    /\ length (sent st') <= length (sent st) + length articles
    /\ length l1' + length l2' + length l3'
       = length l1 + length l2 + length l3 + length articles
    /\ (Forall exactly_one l1 -> Forall exactly_one l1')
    /\ (Forall exactly_one l2 -> Forall exactly_one l2')
    /\ (Forall exactly_one l3 -> Forall exactly_one l3').
Proof.
  revert l1 l2 l3 st.
  induction articles as [|a rest IH]; intros l1 l2 l3 st.
  - exists st, l1, l2, l3. simpl.
    do 4 (split; [reflexivity|]). do 2 (split; [lia|]). auto.
  - destruct (process_single_article_returns (url a) (headline a)
                (published_date a) st) as (st1 & r & E & O).
    destruct (outcome_frame _ _ _ _ _ _ O) as (A & F & P & L).
    pose proof (outcome_exactly_one _ _ _ _ _ _ O) as X.
    cbn [recheck_loop]. unfold bind at 1. rewrite E.
    destruct (bucket_of r).
    + destruct (IH (l1 ++ [r]) l2 l3 st1)
        as (st' & l1' & l2' & l3' & E' & A' & F' & P' & L' & C & X1 & X2 & X3).
      exists st', l1', l2', l3'. rewrite length_app in C. simpl in *.
      split; [exact E'|]. do 3 (split; [congruence|]). do 2 (split; [lia|]).
      repeat split; auto. intros H. apply X1, Forall_app. auto.
    + destruct (IH l1 (l2 ++ [r]) l3 st1)
        as (st' & l1' & l2' & l3' & E' & A' & F' & P' & L' & C & X1 & X2 & X3).
      exists st', l1', l2', l3'. rewrite length_app in C. simpl in *.
      split; [exact E'|]. do 3 (split; [congruence|]). do 2 (split; [lia|]).
      repeat split; auto. intros H. apply X2, Forall_app. auto.
    + destruct (IH l1 l2 (l3 ++ [r]) st1)
        as (st' & l1' & l2' & l3' & E' & A' & F' & P' & L' & C & X1 & X2 & X3).
      exists st', l1', l2', l3'. rewrite length_app in C. simpl in *.
      split; [exact E'|]. do 3 (split; [congruence|]). do 2 (split; [lia|]).
      repeat split; auto. intros H. apply X3, Forall_app. auto.
Qed.

(** The recheck at the end of the batch: no exception, at most one more
    request for each record of the paywall list. *)
Lemma recheck_pass_returns (st : scraper) :
  exists st',
    recheck_pass is_paywall_page extract_article_content w st = (st', Ok tt)
    /\ length (sent st') <= length (sent st) + length (paywall_urls st)
    /\ (sound st -> sound st').
Proof.
  unfold recheck_pass. destruct (nonempty (paywall_urls st)) eqn:N.
  - unfold bind at 1, recheck_paywall_articles.
    destruct (recheck_loop_returns (paywall_urls st) [] [] [] st)
      as (st1 & l1 & l2 & l3 & E & A & F & P & L & _ & X1 & X2 & X3).
    rewrite E.
    assert (S1 : sound st -> sound st1)
      by (unfold sound; now rewrite A, F, P).
    specialize (X1 (Forall_nil _)). specialize (X2 (Forall_nil _)).
    specialize (X3 (Forall_nil _)).
    destruct l1, l2, l3;
      (eexists; split; [reflexivity|]; cbn; split; [lia|]; intros H;
       destruct (S1 H) as (Ha & Hf & Hp); unfold sound; cbn;
       repeat split; auto; try apply Forall_app; auto).
  - exists st. split; [reflexivity|]. split; [lia | auto].
Qed.

Lemma process_articles_returns (rows : list (cell * string * string))
  (st : scraper) :
  exists st',
    process_articles is_paywall_page extract_article_content w rows st
    = (st', Ok tt)
    /\ length (sent st') <= length (sent st) + length rows
                            + (length (paywall_urls st) + length rows)
    /\ (sound st -> sound st').
Proof.
  unfold process_articles, bind.
  destruct (process_rows_returns rows st) as (st1 & E & C & L & S1).
  rewrite E.
  destruct (recheck_pass_returns st1) as (st2 & E2 & L2 & S2).
  exists st2. split; [exact E2|]. split; [|auto].
  assert (length (paywall_urls st1) <= length (paywall_urls st) + length rows).
  { clear - E. revert st st1 E.
    induction rows as [|[[url h] d] rest IH]; intros st st1 E.
    - injection E as <-. simpl. lia.
    - destruct (process_single_article_returns url h d st)
        as (st0 & r & E0 & O).
      rewrite (process_rows_cons _ _ _ _ _ _ _ E0) in E.
      apply IH in E.
      destruct (outcome_frame _ _ _ _ _ _ O) as (_ & _ & P & _).
      destruct (bucket_of r); simpl in *; rewrite ?length_app in E;
        simpl in *; rewrite P in E; lia. }
  lia.
Qed.

End PipelineFacts.

(** C1: every record [process_single_article] returns has exactly one of
    [full_content] and [error], whatever the classifier, the locator and
    the site; so has every record of the three lists when
    [process_articles] ends. *)
Theorem one_of_content_and_error :
  forall is_paywall_page extract_article_content w,
    (forall url headline published_date st,
        exists st' r,
          process_single_article is_paywall_page extract_article_content w
            url headline published_date st = (st', Ok r)
          /\ exactly_one r)
    /\ (forall rows,
        exists st',
          process_articles is_paywall_page extract_article_content w rows
            new_scraper = (st', Ok tt)
          /\ Forall exactly_one (article_data st')
          /\ Forall exactly_one (failed_urls st')
          /\ Forall exactly_one (paywall_urls st')).
Proof.
  intros ip ex w. split.
  - intros url h d st.
    destruct (process_single_article_returns ip ex w url h d st)
      as (st' & r & E & O).
    exists st', r. split; [exact E|]. eapply outcome_exactly_one; eauto.
  - intros rows.
    destruct (process_articles_returns ip ex w rows new_scraper)
      as (st' & E & _ & S).
    exists st'. split; [exact E|]. apply S.
    repeat split; constructor.
Qed.



(** C5, as the code has it: a URL that is missing (NaN, which is also what
    an empty cell of the input table is read as) or is the placeholder
    [URL not available] gives the record with error [Invalid URL], and
    the scraper is as before: no request was made. *)
Theorem invalid_url_makes_no_request :
  forall is_paywall_page extract_article_content w url headline
         published_date st,
    url = NaN \/ url = Str "URL not available" ->
    process_single_article is_paywall_page extract_article_content w
      url headline published_date st
    = (st, Ok (failed url headline published_date "Invalid URL")).
Proof. intros. now apply invalid_url_short_circuit. Qed.

(** The placeholder is answered without a request. *)
Lemma invalid_url_makes_no_request_witness :
  ArticlesDataET.process_single_article Examples.timed_out
    (Str "URL not available") "H" "1 Jan 2025" new_scraper
  = (new_scraper,
     Ok (failed (Str "URL not available") "H" "1 Jan 2025" "Invalid URL")).
Proof.
  apply (invalid_url_makes_no_request ArticlesDataET.is_paywall_page
           ArticlesDataET.located
           Examples.timed_out (Str "URL not available") "H" "1 Jan 2025"
           new_scraper).
  right. reflexivity.
Defined.

(** C5, as the claim words it, fails for the empty string: it is no NaN
    and not the placeholder, so it is handed to the HTTP client, and
    whatever the client answers the error is not [Invalid URL]. *)
Lemma empty_url_is_requested :
  ArticlesDataET.process_single_article Examples.no_scheme (Str "") "H"
    "1 Jan 2025" new_scraper
  = (requested new_scraper "",
     Ok (failed (Str "") "H" "1 Jan 2025"
           "Request error: Invalid URL '': No scheme supplied. Perhaps you meant https://?"))
  /\ (forall is_paywall_page extract_article_content w headline
             published_date st,
        exists r,
          process_single_article is_paywall_page extract_article_content w
            (Str "") headline published_date st
          = (requested st "", Ok r)
          /\ error r <> Some "Invalid URL").
Proof.
  split; [reflexivity|].
  intros ip ex w h d st.
  destruct (process_single_article_returns ip ex w (Str "") h d st)
    as (st' & r & E & O).
  exists r.
  assert (N : "" <> "URL not available") by discriminate.
  rewrite <- (outcome_requested ip ex w st st' "" h d r N O).
  split; [exact E|].
  inversion O as [H| ? e | | | |? ? e]; subst; simpl; try discriminate.
  - destruct H; discriminate.
  - destruct e; discriminate.
  - destruct e; discriminate.
Qed.

(** * Routing and the recheck *)

Lemma bucket_of_no_content (r : ArticleData) :
  truthy_opt (full_content r) = false ->
  (bucket_of r = Paywalled <-> contains "Paywall" (str (error r)) = true)
  /\ (bucket_of r = Failed <-> contains "Paywall" (str (error r)) = false).
Proof.
  intros T. unfold bucket_of. rewrite T.
  destruct (contains "Paywall" (str (error r)));
    split; split; congruence.
Qed.

(** C10: a record without content goes to the paywall list exactly when
    [Paywall] occurs in the text of its error, and to the failures
    otherwise.  So when the HTTP client raises with a message that contains
    [Paywall], the record of that transport failure is filed as paywalled
    and its URL is requested a second time by the recheck. *)
Theorem paywall_routing_reads_the_message :
  (forall r,
      truthy_opt (full_content r) = false ->
      (bucket_of r = Paywalled <-> contains "Paywall" (str (error r)) = true)
      /\ (bucket_of r = Failed
          <-> contains "Paywall" (str (error r)) = false))
  /\ (forall is_paywall_page extract_article_content w u headline
             published_date msg,
      u <> "URL not available" ->
      w 0 u = Raises (RequestException msg) ->
      contains "Paywall" msg = true ->
      exists st1 st2,
        process_rows is_paywall_page extract_article_content w
          [(Str u, headline, published_date)] new_scraper = (st1, Ok tt)
        /\ paywall_urls st1
           = [failed (Str u) headline published_date
                ("Request error: " ++ msg)%string]
        /\ failed_urls st1 = []
        /\ process_articles is_paywall_page extract_article_content w
             [(Str u, headline, published_date)] new_scraper = (st2, Ok tt)
        /\ sent st2 = [u; u]).
Proof.
  split; [exact bucket_of_no_content|].
  intros ip ex w u h d msg N W C.
  pose (r := failed (Str u) h d ("Request error: " ++ msg)%string).
  assert (B : bucket_of r = Paywalled).
  { apply bucket_of_no_content; [reflexivity|].
    apply (contains_app_r "Paywall" "Request error: " msg C). }
  assert (E1 : process_rows ip ex w [(Str u, h, d)] new_scraper
               = (filed_in Paywalled r (requested new_scraper u), Ok tt)).
  { rewrite (process_rows_cons ip ex w (Str u) h d [] new_scraper
               (requested new_scraper u) r).
    - now rewrite B.
    - now apply request_exception_caught. }
  set (st1 := filed_in Paywalled r (requested new_scraper u)) in *.
  destruct (process_single_article_returns ip ex w (Str u) h d st1)
    as (st2 & r2 & E2 & O2).
  apply outcome_requested in O2; [|exact N]. subst st2.
  assert (E : exists st2,
             process_articles ip ex w [(Str u, h, d)] new_scraper
             = (st2, Ok tt) /\ sent st2 = [u; u]).
  { unfold process_articles. unfold bind at 1. rewrite E1.
    unfold recheck_pass, recheck_paywall_articles.
    change (nonempty (paywall_urls st1)) with true. cbv iota.
    unfold bind at 1.
    change (paywall_urls st1) with [r].
    cbn [recheck_loop]. unfold bind at 1.
    change (url r) with (Str u). change (headline r) with h.
    change (published_date r) with d. rewrite E2.
    destruct (bucket_of r2); cbn; eexists; split; reflexivity. }
  destruct E as (st2 & E & S2).
  exists st1, st2. repeat split; auto.
Qed.

(** A 404 for a URL that contains [Paywall]: filed as paywalled, requested
    twice. *)
Lemma paywall_routing_reads_the_message_witness :
  (bucket_of (failed (Str "http://x/a") "H" "1 Jan 2025" "Paywall detected")
   = Paywalled
   <-> contains "Paywall" "Paywall detected" = true)
  /\ exists st1 st2,
      process_rows ArticlesDataET.is_paywall_page ArticlesDataET.located
        Examples.echo_url
        [(Str Examples.paywall_story_url, "H", "1 Jan 2025")] new_scraper
      = (st1, Ok tt)
      /\ paywall_urls st1
         = [failed (Str Examples.paywall_story_url) "H" "1 Jan 2025"
              ("Request error: "
               ++ "404 Client Error: Not Found for url: "
               ++ Examples.paywall_story_url)%string]
      /\ failed_urls st1 = []
      /\ process_articles ArticlesDataET.is_paywall_page
           ArticlesDataET.located Examples.echo_url
           [(Str Examples.paywall_story_url, "H", "1 Jan 2025")] new_scraper
         = (st2, Ok tt)
      /\ sent st2 = [Examples.paywall_story_url; Examples.paywall_story_url].
Proof.
  destruct paywall_routing_reads_the_message as [H1 H2]. split.
  - apply (H1 (failed (Str "http://x/a") "H" "1 Jan 2025"
                 "Paywall detected")).
    reflexivity.
  - apply (H2 ArticlesDataET.is_paywall_page ArticlesDataET.located
             Examples.echo_url Examples.paywall_story_url "H" "1 Jan 2025"
             ("404 Client Error: Not Found for url: "
              ++ Examples.paywall_story_url)%string).
    + discriminate.
    + reflexivity.
    + reflexivity.
Defined.

(** C4, where the code departs from it: an article that is paywalled at
    the first request and readable at the recheck ends in the list of
    extracted articles, and its first record is still in the paywall list,
    because [self.paywall_urls] is only replaced when some article is
    still paywalled. *)
Theorem recovered_article_stays_in_paywall_list :
  ArticlesDataET.process_articles Examples.paywall_then_open [Examples.row]
    new_scraper
  = (mkScraper ["http://x/a"; "http://x/a"]
       [mkArticleData (Str "http://x/a") "H" "1 Jan 2025"
          (Some Examples.long_text) (Some "article tag") None]
       []
       [failed (Str "http://x/a") "H" "1 Jan 2025" "Paywall detected"],
     Ok tt).
Proof. vm_compute. reflexivity. Qed.

(** What the recheck does to the lists: the recovered and the newly failed
    records are appended, and the paywall list is replaced by the records
    that are still paywalled only when there is one. *)
Lemma recheck_pass_lists :
  forall is_paywall_page extract_article_content w st,
    nonempty (paywall_urls st) = true ->
    exists st1 recovered still_paywall new_failed,
      recheck_paywall_articles is_paywall_page extract_article_content w st
      = (st1, Ok (recovered, still_paywall, new_failed))
      /\ length recovered + length still_paywall + length new_failed
         = length (paywall_urls st)
      /\ recheck_pass is_paywall_page extract_article_content w st
         = (mkScraper (sent st1) (article_data st ++ recovered)
              (failed_urls st ++ new_failed)
              (if nonempty still_paywall then still_paywall
               else paywall_urls st),
            Ok tt).
Proof.
  intros ip ex w st N.
  destruct (recheck_loop_returns ip ex w (paywall_urls st) [] [] [] st)
    as (st1 & l1 & l2 & l3 & E & A & F & P & _ & C & _).
  exists st1, l1, l2, l3. unfold recheck_paywall_articles.
  split; [exact E|]. split; [exact C|].
  unfold recheck_pass. rewrite N. unfold bind at 1.
  unfold recheck_paywall_articles. rewrite E.
  destruct st1 as [s1 a1 f1 p1]. cbn [article_data failed_urls paywall_urls]
    in A, F, P. subst a1 f1 p1.
  destruct l1, l2, l3; cbn; rewrite ?app_nil_r; reflexivity.
Qed.

(** The parts of C4 that hold: the batch ends, and from a fresh scraper it
    makes at most twice as many requests as there are rows. *)
Lemma requests_at_most_twice_the_rows :
  forall is_paywall_page extract_article_content w rows,
  exists st',
    process_articles is_paywall_page extract_article_content w rows
      new_scraper = (st', Ok tt)
    /\ length (sent st') <= 2 * length rows.
Proof.
  intros ip ex w rows.
  destruct (process_articles_returns ip ex w rows new_scraper)
    as (st' & E & L & _).
  exists st'. split; [exact E|]. simpl in L. lia.
Qed.

(** * The sanitizer and the locator *)

Section LocatorFacts.

Lemma ET_process_spec (element : node) :
  ArticlesDataET.stale_access element = false ->
  ArticlesDataET._process_content_element element
  = Ok (decompose_all ArticlesDataET.unwanted element,
        if 200 <? String.length (cleaned_ET element)
        then Some (cleaned_ET element) else None).
Proof.
  intros S.
  unfold ArticlesDataET._process_content_element, cleaned_ET.
  rewrite S. cbv zeta.
  now rewrite (remove_boilerplate_cuts _ _ ET_phrases_nonempty).
Qed.

Lemma ET_process_some (element element' : node) (content : string) :
  ArticlesDataET._process_content_element element
  = Ok (element', Some content) ->
  content = cleaned_ET element /\ 200 < String.length content.
Proof.
  destruct (ArticlesDataET.stale_access element) eqn:S.
  - unfold ArticlesDataET._process_content_element. rewrite S. discriminate.
  - rewrite (ET_process_spec _ S).
    destruct (200 <? String.length (cleaned_ET element)) eqn:L;
      [|discriminate].
    intros [= _ <-]. apply Nat.ltb_lt in L. auto.
Qed.

Lemma ET_try_selectors_sound (selectors : list string) :
  forall soup soup' content method,
    ArticlesDataET.try_selectors selectors soup
    = Ok (soup', (Some content, method)) ->
    exists element element',
      ArticlesDataET._process_content_element element
      = Ok (element', Some content).
Proof.
  induction selectors as [|name rest IH]; intros soup soup' content method;
    cbn [ArticlesDataET.try_selectors].
  - discriminate.
  - destruct (find (class_is name) soup) as [element|]; [|apply IH].
    destruct (ArticlesDataET._process_content_element element)
      as [[element' c]|e] eqn:P; [|discriminate].
    destruct (truthy_opt c); [|apply IH].
    intros [= _ -> _]. eauto.
Qed.

Lemma ET_extract_sound (soup soup' : node) (content : string)
  (method : option string) :
  ArticlesDataET.extract_article_content soup
  = Ok (soup', (Some content, method)) ->
  exists element element',
    ArticlesDataET._process_content_element element
    = Ok (element', Some content).
Proof.
  unfold ArticlesDataET.extract_article_content.
  destruct (find (named "article") soup) as [article_tag|].
  - destruct (ArticlesDataET._process_content_element article_tag)
      as [[article_tag' c]|e] eqn:P; [|discriminate].
    destruct (truthy_opt c).
    + intros [= _ -> _]. eauto.
    + apply ET_try_selectors_sound.
  - apply ET_try_selectors_sound.
Qed.

Lemma generic_cleaned_spec (element : node) :
  FetchNewsArticles.stale_access element = false ->
  FetchNewsArticles.cleaned element
  = Ok (decompose_all FetchNewsArticles.unwanted element,
        cleaned_generic element).
Proof.
  intros S. unfold FetchNewsArticles.cleaned, cleaned_generic.
  rewrite S. cbv zeta.
  now rewrite (remove_boilerplate_cuts _ _ generic_phrases_nonempty).
Qed.

Lemma generic_try_selectors_sound
  (selectors : list FetchNewsArticles.selector) :
  forall soup soup' content method,
    FetchNewsArticles.try_selectors selectors soup
    = Ok (soup', (Some content, method)) ->
    exists element,
      content = cleaned_generic element /\ 200 < String.length content.
Proof.
  induction selectors as [|sel rest IH]; intros soup soup' content method;
    cbn [FetchNewsArticles.try_selectors].
  - discriminate.
  - destruct (FetchNewsArticles.criterion sel) as [p|]; [|apply IH].
    destruct (find p soup) as [element|]; [|apply IH].
    destruct (FetchNewsArticles.stale_access element) eqn:S.
    + unfold FetchNewsArticles.cleaned. rewrite S. discriminate.
    + rewrite (generic_cleaned_spec _ S).
      destruct (200 <? String.length (cleaned_generic element)) eqn:L;
        [|apply IH].
      intros [= _ <- _]. exists element. apply Nat.ltb_lt in L. auto.
Qed.

Lemma integrated_process_spec (element : node) :
  ETNewsIntegrated._process_content_element element
  = Ok (if 200 <? String.length (cleaned_integrated element)
        then Some (cleaned_integrated element) else None).
Proof.
  unfold ETNewsIntegrated._process_content_element, cleaned_integrated,
    pruned_copy.
  cbv zeta.
  now rewrite (remove_boilerplate_cuts _ _ integrated_phrases_nonempty).
Qed.

Lemma integrated_process_some (element : node) (content : string) :
  ETNewsIntegrated._process_content_element element = Ok (Some content) ->
  content = cleaned_integrated element /\ 200 < String.length content.
Proof.
  rewrite integrated_process_spec.
  destruct (200 <? String.length (cleaned_integrated element)) eqn:L;
    [|discriminate].
  intros [= <-]. apply Nat.ltb_lt in L. auto.
Qed.

(** What the loop over the classes returns, it returns for the element
    the search for one of the classes finds on the page. *)
Lemma integrated_selectors_sound (selectors : list string) :
  forall soup content method,
    ETNewsIntegrated.try_selectors selectors soup
    = Ok (Some (Some content, method)) ->
    exists name element,
      In name selectors
      /\ find (class_is name) soup = Some element
      /\ ETNewsIntegrated._process_content_element element
         = Ok (Some content)
      /\ method = Some ("class: " ++ name)%string.
Proof.
  induction selectors as [|name rest IH]; intros soup content method;
    cbn [ETNewsIntegrated.try_selectors].
  - discriminate.
  - assert (K : ETNewsIntegrated.try_selectors rest soup
                = Ok (Some (Some content, method)) ->
                exists n element,
                  In n (name :: rest)
                  /\ find (class_is n) soup = Some element
                  /\ ETNewsIntegrated._process_content_element element
                     = Ok (Some content)
                  /\ method = Some ("class: " ++ n)%string).
    { intros H. destruct (IH _ _ _ H) as (n & e & I & R).
      exists n, e. split; [now right | exact R]. }
    destruct (find (class_is name) soup) as [element|] eqn:F; [|exact K].
    destruct (ETNewsIntegrated._process_content_element element)
      as [c|e] eqn:P; [|discriminate].
    destruct (truthy_opt c); [|exact K].
    intros [= -> <-]. exists name, element.
    split; [now left|]. auto.
Qed.

Lemma integrated_ids_sound (ids : list string) :
  forall soup content method,
    ETNewsIntegrated.try_ids ids soup = Ok (Some (Some content, method)) ->
    exists name element,
      In name ids
      /\ find (id_is name) soup = Some element
      /\ ETNewsIntegrated._process_content_element element
         = Ok (Some content)
      /\ method = Some ("id: " ++ name)%string.
Proof.
  induction ids as [|name rest IH]; intros soup content method;
    cbn [ETNewsIntegrated.try_ids].
  - discriminate.
  - assert (K : ETNewsIntegrated.try_ids rest soup
                = Ok (Some (Some content, method)) ->
                exists n element,
                  In n (name :: rest)
                  /\ find (id_is n) soup = Some element
                  /\ ETNewsIntegrated._process_content_element element
                     = Ok (Some content)
                  /\ method = Some ("id: " ++ n)%string).
    { intros H. destruct (IH _ _ _ H) as (n & e & I & R).
      exists n, e. split; [now right | exact R]. }
    destruct (find (id_is name) soup) as [element|] eqn:F; [|exact K].
    destruct (ETNewsIntegrated._process_content_element element)
      as [c|e] eqn:P; [|discriminate].
    destruct (truthy_opt c); [|exact K].
    intros [= -> <-]. exists name, element.
    split; [now left|]. auto.
Qed.

(** The three loops of [ET_news_integrated.py] never raise. *)
Lemma integrated_selectors_return (selectors : list string) (soup : node) :
  exists r, ETNewsIntegrated.try_selectors selectors soup = Ok r.
Proof.
  induction selectors as [|name rest IH];
    cbn [ETNewsIntegrated.try_selectors]; [eauto|].
  destruct (find (class_is name) soup) as [element|]; [|exact IH].
  rewrite integrated_process_spec. destruct (truthy_opt _); eauto.
Qed.

Lemma integrated_ids_return (ids : list string) (soup : node) :
  exists r, ETNewsIntegrated.try_ids ids soup = Ok r.
Proof.
  induction ids as [|name rest IH];
    cbn [ETNewsIntegrated.try_ids]; [eauto|].
  destruct (find (id_is name) soup) as [element|]; [|exact IH].
  rewrite integrated_process_spec. destruct (truthy_opt _); eauto.
Qed.

Lemma integrated_article_return (soup : node) :
  exists r, ETNewsIntegrated.article_step soup = Ok r.
Proof.
  unfold ETNewsIntegrated.article_step.
  destruct (find (named "article") soup) as [article_tag|]; [|eauto].
  rewrite integrated_process_spec. destruct (truthy_opt _); eauto.
Qed.

Lemma integrated_paragraphs_sound (soup : node) (content : string)
  (method : option string) :
  ETNewsIntegrated.paragraphs_in_main_content soup
  = Some (Some content, method) ->
  method = Some "paragraphs in main content"
  /\ exists main_content,
      content = ETNewsIntegrated.paragraph_text main_content
      /\ 200 < String.length content.
Proof.
  unfold ETNewsIntegrated.paragraphs_in_main_content.
  destruct (find ETNewsIntegrated.main_content_div soup) as [main|];
    [|discriminate].
  destruct (nonempty _); [|discriminate].
  destruct (truthy _ && _) eqn:T; [|discriminate].
  intros [= <- <-]. apply andb_true_iff in T. destruct T as [_ L].
  apply Nat.ltb_lt in L. eauto.
Qed.

(** What a sanitizer returns is left alone by [clean_text]. *)
Lemma integrated_process_clean (element : node) (content : string) :
  ETNewsIntegrated._process_content_element element = Ok (Some content) ->
  clean_text content = content.
Proof.
  intros H. apply integrated_process_some in H. destruct H as [-> _].
  apply clean_text_idem.
Qed.

Lemma integrated_paragraphs_found (soup : node) (content : string)
  (method : option string) :
  ETNewsIntegrated.paragraphs_in_main_content soup
  = Some (Some content, method) ->
  method = Some "paragraphs in main content"
  /\ exists main_content,
      find ETNewsIntegrated.main_content_div soup = Some main_content
      /\ content = ETNewsIntegrated.paragraph_text main_content
      /\ 200 < String.length content.
Proof.
  unfold ETNewsIntegrated.paragraphs_in_main_content.
  destruct (find ETNewsIntegrated.main_content_div soup) as [main|];
    [|discriminate].
  destruct (nonempty _); [|discriminate].
  destruct (truthy _ && _) eqn:T; [|discriminate].
  intros [= <- <-]. apply andb_true_iff in T. destruct T as [_ L].
  apply Nat.ltb_lt in L. eauto.
Qed.

(** The way the locator of [ET_news_integrated.py] came by a text it
    returns: the element one of its searches found on the page, or the
    paragraphs of the main content. *)
Lemma integrated_extract_found (soup : node) (content : string)
  (method : option string) :
  ETNewsIntegrated.extract_article_content soup
  = Ok (Some content, method) ->
  (exists element,
      (find (named "article") soup = Some element
       /\ method = Some "article tag"
       \/ (exists name,
              In name ETNewsIntegrated.content_selectors
              /\ find (class_is name) soup = Some element
              /\ method = Some ("class: " ++ name)%string)
       \/ (exists name,
              In name ETNewsIntegrated.id_selectors
              /\ find (id_is name) soup = Some element
              /\ method = Some ("id: " ++ name)%string))
      /\ ETNewsIntegrated._process_content_element element
         = Ok (Some content))
  \/ (method = Some "paragraphs in main content"
      /\ exists main_content,
          find ETNewsIntegrated.main_content_div soup = Some main_content
          /\ content = ETNewsIntegrated.paragraph_text main_content
          /\ 200 < String.length content).
Proof.
  unfold ETNewsIntegrated.extract_article_content.
  destruct (integrated_article_return soup) as (r1 & A). rewrite A.
  destruct r1 as [r|]; cbn [ETNewsIntegrated.or_else].
  { intros [= ->]. left. revert A. unfold ETNewsIntegrated.article_step.
    destruct (find (named "article") soup) as [tag|]; [|discriminate].
    destruct (ETNewsIntegrated._process_content_element tag)
      as [c|e] eqn:P; [|discriminate].
    destruct (truthy_opt c); [|discriminate].
    intros [= -> <-]. exists tag. auto. }
  destruct (integrated_selectors_return ETNewsIntegrated.content_selectors
              soup) as (r2 & S).
  rewrite S. destruct r2 as [r|]; cbn [ETNewsIntegrated.or_else].
  { intros [= ->]. left.
    destruct (integrated_selectors_sound _ _ _ _ S)
      as (name & element & I & F & P & M).
    exists element. split; [|exact P]. right. left. exists name. auto. }
  destruct (integrated_ids_return ETNewsIntegrated.id_selectors soup)
    as (r3 & I).
  rewrite I. destruct r3 as [r|]; cbn [ETNewsIntegrated.or_else].
  { intros [= ->]. left.
    destruct (integrated_ids_sound _ _ _ _ I)
      as (name & element & In_ & F & P & M).
    exists element. split; [|exact P]. right. right. exists name. auto. }
  destruct (ETNewsIntegrated.paragraphs_in_main_content soup) as [r|] eqn:P;
    [|discriminate].
  intros [= ->]. right. now apply integrated_paragraphs_found.
Qed.


End LocatorFacts.







(** What [_process_content_element] of [articles_data_ET.py] gives when it
    returns. *)
Lemma ET_process_returned (element element' : node)
  (content : option string) :
  ArticlesDataET._process_content_element element = Ok (element', content) ->
  ArticlesDataET.stale_access element = false
  /\ element' = decompose_all ArticlesDataET.unwanted element.
Proof.
  destruct (ArticlesDataET.stale_access element) eqn:S.
  - unfold ArticlesDataET._process_content_element. rewrite S. discriminate.
  - rewrite (ET_process_spec _ S). intros [= <- _]. auto.
Qed.

(** A text the loop over the classes returns is the text
    [_process_content_element] gave for the element that the search for
    one of the classes found on the page as the steps before left it. *)
Lemma ET_try_selectors_found (selectors : list string) :
  incl selectors ArticlesDataET.content_selectors ->
  forall soup soup0 soup' content method,
    seen_from soup soup0 ->
    ArticlesDataET.try_selectors selectors soup0
    = Ok (soup', (Some content, method)) ->
    exists p m soup1 element,
      seen_from soup soup1
      /\ ET_search p m
      /\ method = Some m
      /\ find p soup1 = Some element
      /\ ArticlesDataET._process_content_element element
         = Ok (decompose_all ArticlesDataET.unwanted element, Some content)
      /\ soup' = put_first p
                   (decompose_all ArticlesDataET.unwanted element) soup1.
Proof.
  induction selectors as [|name rest IH];
    intros I soup soup0 soup' content method Seen;
    cbn [ArticlesDataET.try_selectors].
  - discriminate.
  - assert (I' : incl rest ArticlesDataET.content_selectors)
      by (intros x Hx; apply I; now right).
    assert (Search : ET_search (class_is name) ("class: " ++ name)%string).
    { right. exists name. split; [apply I; now left | auto]. }
    destruct (find (class_is name) soup0) as [element|] eqn:F;
      [|now apply IH].
    destruct (ArticlesDataET._process_content_element element)
      as [[element' c]|e] eqn:P; [|discriminate].
    destruct (truthy_opt c).
    + intros [= <- -> <-].
      destruct (ET_process_returned _ _ _ P) as [_ ->].
      exists (class_is name), ("class: " ++ name)%string, soup0, element.
      auto 10.
    + apply (IH I'). exact (seen_next soup _ _ _ _ _ _ Seen Search F P).
Qed.

Lemma ET_extract_found (soup soup' : node) (content : string)
  (method : option string) :
  ArticlesDataET.extract_article_content soup
  = Ok (soup', (Some content, method)) ->
  exists p m soup0 element,
    seen_from soup soup0
    /\ ET_search p m
    /\ method = Some m
    /\ find p soup0 = Some element
    /\ ArticlesDataET._process_content_element element
       = Ok (decompose_all ArticlesDataET.unwanted element, Some content)
    /\ soup' = put_first p
                 (decompose_all ArticlesDataET.unwanted element) soup0.
Proof.
  unfold ArticlesDataET.extract_article_content.
  assert (Search : ET_search (named "article") "article tag")
    by (left; auto).
  destruct (find (named "article") soup) as [article_tag|] eqn:F.
  - destruct (ArticlesDataET._process_content_element article_tag)
      as [[article_tag' c]|e] eqn:P; [|discriminate].
    destruct (truthy_opt c).
    + intros [= <- -> <-].
      destruct (ET_process_returned _ _ _ P) as [_ ->].
      exists (named "article"), "article tag", soup, article_tag.
      split; [apply seen_first|]. auto 10.
    + apply ET_try_selectors_found; [apply incl_refl|].
      exact (seen_next soup _ _ _ _ _ _ (seen_first soup) Search F P).
  - apply ET_try_selectors_found; [apply incl_refl | apply seen_first].
Qed.

(** C8, where the code departs from it.  The last step of the locator of
    [ET_news_integrated.py] returns the paragraphs of the main content as
    [get_text().strip()] and [' '.join] leave them, after the test of the
    length alone.  On a page whose text is a paragraph in a [div] of class
    [main-content] the locator returns the paragraph with its line break
    and with the boilerplate phrase it ends in: a text that [clean_text]
    changes and that [_process_content_element] returns for no element.
    The three steps before it call [_process_content_element]: for the
    same paragraph in an [article] tag the locator returns the text cut
    before the phrase. *)
Theorem paragraph_step_skips_the_sanitizer :
  ETNewsIntegrated.extract_article_content Examples.paragraph_page
  = Ok (Some Examples.raw_paragraph, Some "paragraphs in main content")
  /\ In "Read More News on" ETNewsIntegrated.boilerplate_text
  /\ contains "Read More News on" Examples.raw_paragraph = true
  /\ clean_text Examples.raw_paragraph <> Examples.raw_paragraph
  /\ (forall element,
        ETNewsIntegrated._process_content_element element
        <> Ok (Some Examples.raw_paragraph))
  /\ ETNewsIntegrated.extract_article_content Examples.paragraph_in_article
     = Ok (Some Examples.long_text, Some "article tag").
Proof.
  assert (N : clean_text Examples.raw_paragraph <> Examples.raw_paragraph).
  { apply String.eqb_neq. vm_compute. reflexivity. }
  split; [vm_compute; reflexivity|].
  split; [cbv; tauto|].
  split; [vm_compute; reflexivity|].
  split; [exact N|].
  split; [|vm_compute; reflexivity].
  intros element H. apply integrated_process_clean in H. contradiction.
Qed.

(** X23: a text the locator of [articles_data_ET.py] returns is the text
    of an element that one of its searches, for the article tag or for a
    class of its list, found on the page as the steps before left it: the
    element without its unwanted parts, its text cut at the boilerplate
    and cleaned of white space, longer than 200 characters; the method
    names the search.  In [ET_news_integrated.py] a text returned with
    another method than [paragraphs in main content] is in the same way
    the cleaned text, longer than 200 characters, of the pruned copy of
    the element that the search the method names found on the page. *)
Theorem locator_returns_cleaned_text :
  (forall soup soup' content method,
      ArticlesDataET.extract_article_content soup
      = Ok (soup', (Some content, method)) ->
      exists p m soup0 element,
        seen_from soup soup0
        /\ ET_search p m
        /\ method = Some m
        /\ find p soup0 = Some element
        /\ ArticlesDataET._process_content_element element
           = Ok (decompose_all ArticlesDataET.unwanted element,
                 Some content)
        /\ content = cleaned_ET element
        /\ 200 < String.length content
        /\ soup' = put_first p
                     (decompose_all ArticlesDataET.unwanted element) soup0)
  /\ (forall soup content method,
      ETNewsIntegrated.extract_article_content soup
      = Ok (Some content, method) ->
      method <> Some "paragraphs in main content" ->
      exists element,
        (find (named "article") soup = Some element
         /\ method = Some "article tag"
         \/ (exists name,
                In name ETNewsIntegrated.content_selectors
                /\ find (class_is name) soup = Some element
                /\ method = Some ("class: " ++ name)%string)
         \/ (exists name,
                In name ETNewsIntegrated.id_selectors
                /\ find (id_is name) soup = Some element
                /\ method = Some ("id: " ++ name)%string))
        /\ ETNewsIntegrated._process_content_element element
           = Ok (Some content)
        /\ content = cleaned_integrated element
        /\ 200 < String.length content).
Proof.
  split.
  - intros soup soup' content method H.
    destruct (ET_extract_found _ _ _ _ H)
      as (p & m & soup0 & element & Seen & Search & M & F & P & S).
    destruct (ET_process_some _ _ _ P) as [C L].
    exists p, m, soup0, element. auto 10.
  - intros soup content method H N.
    destruct (integrated_extract_found _ _ _ H)
      as [(element & How & P)|[M _]]; [|contradiction].
    destruct (integrated_process_some _ _ P) as [C L].
    exists element. auto.
Qed.

(** The article of 201 characters on the page of [articles_data_ET.py],
    and the paragraph in an article tag on the page of
    [ET_news_integrated.py]. *)
Lemma locator_returns_cleaned_text_witness :
  (exists p m soup0 element,
      seen_from Examples.readable_page soup0
      /\ ET_search p m
      /\ Some "article tag" = Some m
      /\ find p soup0 = Some element
      /\ ArticlesDataET._process_content_element element
         = Ok (decompose_all ArticlesDataET.unwanted element,
               Some Examples.long_text)
      /\ Examples.long_text = cleaned_ET element
      /\ 200 < String.length Examples.long_text
      /\ Examples.readable_page
         = put_first p
             (decompose_all ArticlesDataET.unwanted element) soup0)
  /\ (exists element,
        (find (named "article") Examples.paragraph_in_article = Some element
         /\ Some "article tag" = Some "article tag"
         \/ (exists name,
                In name ETNewsIntegrated.content_selectors
                /\ find (class_is name) Examples.paragraph_in_article
                   = Some element
                /\ Some "article tag" = Some ("class: " ++ name)%string)
         \/ (exists name,
                In name ETNewsIntegrated.id_selectors
                /\ find (id_is name) Examples.paragraph_in_article
                   = Some element
                /\ Some "article tag" = Some ("id: " ++ name)%string))
        /\ ETNewsIntegrated._process_content_element element
           = Ok (Some Examples.long_text)
        /\ Examples.long_text = cleaned_integrated element
        /\ 200 < String.length Examples.long_text).
Proof.
  destruct locator_returns_cleaned_text as [H1 H2]. split.
  - apply (H1 Examples.readable_page Examples.readable_page
             Examples.long_text (Some "article tag")).
    vm_compute. reflexivity.
  - apply (H2 Examples.paragraph_in_article Examples.long_text
             (Some "article tag")).
    + vm_compute. reflexivity.
    + discriminate.
Defined.

(** * Cleaning twice *)

Section FixedPoints.

Lemma fold_left_fixed {A B : Type} (f : A -> B -> A) (l : list B) (a : A) :
  (forall b, f a b = a) -> fold_left f l a = a.
Proof.
  intros H. induction l as [|b l IH]; [reflexivity|].
  cbn [fold_left]. now rewrite H.
Qed.

Lemma long_is_truthy (c : string) : 200 < String.length c -> truthy c = true.
Proof. destruct c; simpl; [lia | reflexivity]. Qed.

Lemma text_element_stripped (c : string) :
  clean_text c = c -> truthy c = true ->
  get_text_stripped (text_element c) = c.
Proof.
  intros C T. unfold get_text_stripped.
  change (_all_strings (text_element c)) with [c]. cbn [map].
  assert (S : strip c = c) by (rewrite <- C; apply strip_clean_text).
  rewrite S. cbn [filter]. rewrite T. reflexivity.
Qed.

Lemma document_stripped (c : string) :
  clean_text c = c -> truthy c = true ->
  get_text_stripped (document [text_element c]) = c.
Proof.
  intros C T. rewrite <- (text_element_stripped c C T) at 2. reflexivity.
Qed.

Lemma pruned_copy_text_element (c : string) :
  pruned_copy (text_element c) = document [text_element c].
Proof.
  unfold pruned_copy.
  rewrite (fold_left_fixed _ ETNewsIntegrated.unwanted_classes)
    by reflexivity.
  change (decompose_all
            (named_in ["script"; "style"; "noscript"; "iframe"; "form"])
            (document [text_element c]))
    with (document [text_element c]).
  apply fold_left_fixed. reflexivity.
Qed.

End FixedPoints.

(** C9, as the code has it: [clean_text] is idempotent, and a cleaned text
    in which none of the configured boilerplate phrases occurs comes back
    unchanged when it is given to the sanitizer again. *)
Theorem cleaned_text_without_phrase_is_fixed :
  (forall text, clean_text (clean_text text) = clean_text text)
  /\ (forall element element' content,
      ArticlesDataET._process_content_element element
      = Ok (element', Some content) ->
      Forall (fun p => contains p content = false)
        ArticlesDataET.boilerplate_text ->
      ArticlesDataET._process_content_element (text_element content)
      = Ok (text_element content, Some content))
  /\ (forall element content,
      ETNewsIntegrated._process_content_element element
      = Ok (Some content) ->
      Forall (fun p => contains p content = false)
        ETNewsIntegrated.boilerplate_text ->
      ETNewsIntegrated._process_content_element (text_element content)
      = Ok (Some content)).
Proof.
  split; [exact clean_text_idem|]. split.
  - intros element element' content H A. apply ET_process_some in H.
    destruct H as [E L].
    assert (C : clean_text content = content)
      by (rewrite E; apply clean_text_idem).
    rewrite ET_process_spec by reflexivity. unfold cleaned_ET.
    change (decompose_all ArticlesDataET.unwanted (text_element content))
      with (text_element content).
    rewrite (text_element_stripped content C (long_is_truthy _ L)).
    rewrite (cuts_absent _ _ A), C.
    apply Nat.ltb_lt in L. now rewrite L.
  - intros element content H A. apply integrated_process_some in H.
    destruct H as [E L].
    assert (C : clean_text content = content)
      by (rewrite E; apply clean_text_idem).
    rewrite integrated_process_spec. unfold cleaned_integrated.
    rewrite pruned_copy_text_element.
    rewrite (document_stripped content C (long_is_truthy _ L)).
    rewrite (cuts_absent _ _ A), C.
    apply Nat.ltb_lt in L. now rewrite L.
Qed.

(** The text of an element with an advertisement and padding, cleaned
    again. *)
Lemma cleaned_text_without_phrase_is_fixed_witness :
  ArticlesDataET._process_content_element (text_element Examples.long_text)
  = Ok (text_element Examples.long_text, Some Examples.long_text)
  /\ ETNewsIntegrated._process_content_element
       (text_element Examples.long_text)
     = Ok (Some Examples.long_text).
Proof.
  destruct cleaned_text_without_phrase_is_fixed as (_ & H1 & H2). split.
  - apply (H1 Examples.padded_element
             (Tag "div" [] None
                [NavigableString ("  " ++ Examples.long_text ++ "  ")%string])
             Examples.long_text).
    + vm_compute. reflexivity.
    + repeat constructor.
  - apply (H2 Examples.padded_element Examples.long_text).
    + vm_compute. reflexivity.
    + repeat constructor.
Defined.

(** C9, as the claim words it, fails: a line break inside a boilerplate
    phrase hides it from the cut, [clean_text] turns the line break into a
    blank, and the cleaned text, given to the sanitizer again, is cut at
    the phrase. *)
Lemma cleaned_text_is_cut_again :
  ArticlesDataET._process_content_element
    (text_element Examples.broken_phrase_text)
  = Ok (text_element Examples.broken_phrase_text,
        Some Examples.joined_phrase_text)
  /\ ArticlesDataET._process_content_element
       (text_element Examples.joined_phrase_text)
     = Ok (text_element Examples.joined_phrase_text, Some Examples.long_text)
  /\ Examples.joined_phrase_text <> Examples.long_text.
Proof.
  split; [vm_compute; reflexivity|].
  split; [vm_compute; reflexivity|].
  apply String.eqb_neq. vm_compute. reflexivity.
Qed.

(** The locator of [articles_data_ET.py] changes the page it reads: run
    again on the page as the first run left it, it can return another
    text. *)
Lemma second_run_on_the_same_page :
  ArticlesDataET.extract_article_content Examples.nested_page
  = Ok (Examples.nested_page_after,
        (Some (times "a" 201), Some "class: artText"))
  /\ ArticlesDataET.extract_article_content Examples.nested_page_after
     = Ok (Examples.nested_page_after,
           (Some (times "b" 201), Some "article tag")).
Proof. split; vm_compute; reflexivity. Qed.

(** The removal loop of [articles_data_ET.py] raises when an unwanted
    element holds another [div]; [process_single_article] reports it as an
    unexpected error. *)
Lemma nested_advertisement_raises :
  ArticlesDataET._process_content_element
    (Tag "article" [] None
       [Tag "div" ["ads"] None [Tag "div" [] None []];
        NavigableString Examples.long_text])
  = Raise ArticlesDataET.attribute_error.
Proof. reflexivity. Qed.

(** * The batch, row by row *)

Section BatchFacts.

Variable is_paywall_page : node -> bool.
Variable extract_article_content
  : node -> result (option string * option string).
Variable w : world.

Local Notation "'psa'" :=
  (process_single_article is_paywall_page extract_article_content w).
Local Notation "'ends'" :=
  (outcome is_paywall_page extract_article_content w).
Local Notation "'rows_loop'" :=
  (process_rows is_paywall_page extract_article_content w).
Local Notation "'recheck'" :=
  (recheck_loop is_paywall_page extract_article_content w).

Lemma outcome_sent (st st' : scraper) (url : cell) (h d : string)
  (r : ArticleData) :
  ends st url h d st' r ->
  sent st' = sent st ++ requests_for [url].
Proof.
  unfold requests_for.
  destruct 1 as [[->| ->]|u e -> N|u soup -> N|u soup c m -> N
                |u soup c m -> N|u soup e -> N];
    cbn [flat_map usable app]; try (now rewrite app_nil_r);
    apply String.eqb_neq in N; rewrite N; reflexivity.
Qed.

Lemma outcome_made_for (st st' : scraper) (url : cell) (h d : string)
  (r : ArticleData) :
  ends st url h d st' r -> made_for (url, h, d) r.
Proof. destruct 1; repeat split. Qed.

(** A record is filed where it fits. *)
Lemma outcome_fits (st st' : scraper) (url : cell) (h d : string)
  (r : ArticleData) :
  ends st url h d st' r -> fits (bucket_of r) r.
Proof.
  intros O.
  assert (H : (full_content r = None)
              \/ (truthy_opt (full_content r) = true /\ error r = None)).
  { destruct O; cbn; auto. }
  unfold bucket_of, fits. destruct H as [H|[H E]].
  - rewrite H. cbn [truthy_opt].
    destruct (contains "Paywall" (str (error r))); auto.
  - rewrite H. auto.
Qed.

(** A record that is filed as paywalled was made with a request. *)
Lemma outcome_paywalled_usable (st st' : scraper) (url : cell) (h d : string)
  (r : ArticleData) :
  ends st url h d st' r -> bucket_of r = Paywalled ->
  exists u, usable url = Some u.
Proof.
  destruct 1 as [H|u e -> N|u soup -> N|u soup c m -> N
                |u soup c m -> N|u soup e -> N];
    try (intros _; exists u; cbn; apply String.eqb_neq in N;
         now rewrite N).
  discriminate.
Qed.

Lemma requests_for_app (l l' : list cell) :
  requests_for (l ++ l') = requests_for l ++ requests_for l'.
Proof. apply flat_map_app. Qed.

Lemma filed_in_lists (r : ArticleData) (st : scraper) :
  article_data (filed_in (bucket_of r) r st)
  = article_data st ++ filter (goes_to Extracted) [r]
  /\ failed_urls (filed_in (bucket_of r) r st)
     = failed_urls st ++ filter (goes_to Failed) [r]
  /\ paywall_urls (filed_in (bucket_of r) r st)
     = paywall_urls st ++ filter (goes_to Paywalled) [r]
  /\ sent (filed_in (bucket_of r) r st) = sent st.
Proof.
  unfold goes_to. cbn [filter].
  destruct (bucket_of r); cbn; rewrite ?app_nil_r; auto.
Qed.

(** The loop over the rows, in full: the records, their lists and the
    requests. *)
Lemma process_rows_sorts (rows : list (cell * string * string)) :
  forall st,
  exists st' records,
    rows_loop rows st = (st', Ok tt)
    /\ Forall2 made_for rows records
    /\ Forall (fun r => fits (bucket_of r) r) records
    /\ Forall (fun r => bucket_of r = Paywalled ->
                        exists u, usable (url r) = Some u) records
    /\ article_data st'
       = article_data st ++ filter (goes_to Extracted) records
    /\ failed_urls st' = failed_urls st ++ filter (goes_to Failed) records
    /\ paywall_urls st'
       = paywall_urls st ++ filter (goes_to Paywalled) records
    /\ sent st' = sent st ++ requests_for (map row_url rows).
Proof.
  induction rows as [|[[url h] d] rest IH]; intros st.
  - exists st, []. cbn. rewrite !app_nil_r. repeat split; constructor.
  - destruct (process_single_article_returns is_paywall_page
                extract_article_content w url h d st) as (st1 & r & E & O).
    rewrite (process_rows_cons _ _ _ _ _ _ _ _ _ _ E).
    destruct (IH (filed_in (bucket_of r) r st1))
      as (st' & records & E' & M & Fi & U & A & F & P & S).
    destruct (filed_in_lists r st1) as (A1 & F1 & P1 & S1).
    destruct (outcome_frame _ _ _ _ _ _ _ _ _ O) as (A0 & F0 & P0 & _).
    pose proof (outcome_made_for _ _ _ _ _ _ O) as Mr.
    exists st', (r :: records). split; [exact E'|].
    split; [constructor; assumption|].
    split; [constructor; [eapply outcome_fits; eauto | assumption]|].
    split.
    { constructor; [|assumption]. intros B.
      destruct Mr as (-> & _). eapply outcome_paywalled_usable; eauto. }
    rewrite A, F, P, S, A1, F1, P1, S1, A0, F0, P0.
    rewrite (outcome_sent _ _ _ _ _ _ O).
    change (map row_url ((url, h, d) :: rest))
      with ([url] ++ map row_url rest).
    rewrite requests_for_app, <- !app_assoc.
    change (r :: records) with ([r] ++ records).
    rewrite !filter_app. auto.
Qed.

End BatchFacts.


Section RecheckFacts.

Variable is_paywall_page : node -> bool.
Variable extract_article_content
  : node -> result (option string * option string).
Variable w : world.

Local Notation "'recheck'" :=
  (recheck_loop is_paywall_page extract_article_content w).

(** The loop of the recheck, in full. *)
Lemma recheck_loop_sorts (articles : list ArticleData) :
  forall l1 l2 l3 st,
  exists st' records,
    recheck articles l1 l2 l3 st
    = (st', Ok (l1 ++ filter (goes_to Extracted) records,
                l2 ++ filter (goes_to Paywalled) records,
                l3 ++ filter (goes_to Failed) records))
    /\ Forall2 (fun a r => made_for (row_of a) r) articles records
    /\ Forall (fun r => fits (bucket_of r) r) records
    /\ article_data st' = article_data st
    /\ failed_urls st' = failed_urls st
    /\ paywall_urls st' = paywall_urls st
    /\ sent st' = sent st ++ requests_for (map url articles).
Proof.
  induction articles as [|a rest IH]; intros l1 l2 l3 st.
  - exists st, []. cbn. rewrite !app_nil_r. repeat split; constructor.
  - destruct (process_single_article_returns is_paywall_page
                extract_article_content w (url a) (headline a)
                (published_date a) st) as (st1 & r & E & O).
    destruct (outcome_frame _ _ _ _ _ _ _ _ _ O) as (A0 & F0 & P0 & _).
    pose proof (outcome_made_for _ _ _ _ _ _ _ _ _ O) as Mr.
    pose proof (outcome_fits _ _ _ _ _ _ _ _ _ O) as Fr.
    pose proof (outcome_sent _ _ _ _ _ _ _ _ _ O) as Sr.
    cbn [recheck_loop]. unfold bind at 1. rewrite E.
    change (map url (a :: rest)) with ([url a] ++ map url rest).
    rewrite requests_for_app.
    unfold goes_to. destruct (bucket_of r) eqn:B.
    + destruct (IH (l1 ++ [r]) l2 l3 st1)
        as (st' & records & E' & M & Fi & A & F & P & S).
      exists st', (r :: records). cbn [filter]. rewrite B. cbn [bucket_eqb].
      rewrite E', <- !app_assoc. split; [reflexivity|].
      split; [constructor; assumption|].
      split; [constructor; [now rewrite B | assumption]|].
      rewrite A, F, P, S, Sr, <- app_assoc. auto.
    + destruct (IH l1 (l2 ++ [r]) l3 st1)
        as (st' & records & E' & M & Fi & A & F & P & S).
      exists st', (r :: records). cbn [filter]. rewrite B. cbn [bucket_eqb].
      rewrite E', <- !app_assoc. split; [reflexivity|].
      split; [constructor; assumption|].
      split; [constructor; [now rewrite B | assumption]|].
      rewrite A, F, P, S, Sr, <- app_assoc. auto.
    + destruct (IH l1 l2 (l3 ++ [r]) st1)
        as (st' & records & E' & M & Fi & A & F & P & S).
      exists st', (r :: records). cbn [filter]. rewrite B. cbn [bucket_eqb].
      rewrite E', <- !app_assoc. split; [reflexivity|].
      split; [constructor; assumption|].
      split; [constructor; [now rewrite B | assumption]|].
      rewrite A, F, P, S, Sr, <- app_assoc. auto.
Qed.

Lemma Forall_filter_goes_to (b : bucket) (records : list ArticleData) :
  Forall (fun r => fits (bucket_of r) r) records ->
  Forall (fits b) (filter (goes_to b) records).
Proof.
  intros H. apply Forall_forall. intros r I.
  apply filter_In in I. destruct I as [I G].
  rewrite Forall_forall in H. specialize (H r I).
  unfold goes_to in G. destruct (bucket_of r), b; try discriminate; exact H.
Qed.

(** The recheck, in full: what it leaves in the scraper. *)
Lemma recheck_pass_sorts (st : scraper) :
  exists st' records,
    recheck_pass is_paywall_page extract_article_content w st = (st', Ok tt)
    /\ Forall2 (fun a r => made_for (row_of a) r) (paywall_urls st) records
    /\ Forall (fun r => fits (bucket_of r) r) records
    /\ article_data st'
       = article_data st ++ filter (goes_to Extracted) records
    /\ failed_urls st' = failed_urls st ++ filter (goes_to Failed) records
    /\ paywall_urls st'
       = (if nonempty (filter (goes_to Paywalled) records)
          then filter (goes_to Paywalled) records
          else paywall_urls st)
    /\ sent st' = sent st ++ requests_for (map url (paywall_urls st)).
Proof.
  unfold recheck_pass. destruct (nonempty (paywall_urls st)) eqn:N.
  - unfold bind at 1, recheck_paywall_articles.
    destruct (recheck_loop_sorts (paywall_urls st) [] [] [] st)
      as (st1 & records & E & M & Fi & A & F & P & S).
    rewrite E. cbn [app].
    destruct st1 as [s1 a1 f1 p1].
    cbn [article_data failed_urls paywall_urls sent] in A, F, P, S.
    subst a1 f1 p1 s1.
    destruct (filter (goes_to Extracted) records) eqn:E1,
             (filter (goes_to Paywalled) records) eqn:E2,
             (filter (goes_to Failed) records) eqn:E3;
      (eexists; exists records; split; [reflexivity|];
       rewrite E1, E2, E3; cbn; rewrite ?app_nil_r; auto 10).
  - exists st, []. destruct (paywall_urls st); [|discriminate].
    cbn. rewrite !app_nil_r. repeat split; constructor.
Qed.

End RecheckFacts.

Lemma made_for_row_of (row : cell * string * string) (r : ArticleData) :
  made_for row r <-> row_of r = row.
Proof.
  destruct row as [[u h] d]. unfold made_for, row_of. cbn. split.
  - intros (-> & -> & ->). reflexivity.
  - intros E. injection E as -> -> ->. auto.
Qed.

Lemma Forall2_from_rows (rows : list (cell * string * string))
  (records : list ArticleData) :
  Forall2 made_for rows records -> Forall (from_rows rows) records.
Proof.
  induction 1 as [|row r rows records M _ IH]; constructor.
  - left. symmetry. now apply made_for_row_of.
  - eapply Forall_impl; [|exact IH]. intros a I. right. exact I.
Qed.

Lemma Forall_filter {A : Type} (P : A -> Prop) (f : A -> bool)
  (l : list A) :
  Forall P l -> Forall P (filter f l).
Proof.
  intros H. apply Forall_forall. intros x I. apply filter_In in I.
  rewrite Forall_forall in H. now apply H.
Qed.

Lemma paywalled_requests (records : list ArticleData) :
  Forall (fun r => bucket_of r = Paywalled ->
                   exists u, usable (url r) = Some u) records ->
  length (requests_for (map url (filter (goes_to Paywalled) records)))
  = length (filter (goes_to Paywalled) records).
Proof.
  induction 1 as [|r records U _ IH]; [reflexivity|].
  cbn [filter]. destruct (goes_to Paywalled r) eqn:G; [|exact IH].
  unfold goes_to in G. destruct (bucket_of r) eqn:B; try discriminate.
  destruct (U eq_refl) as [u Eu].
  change (map url (r :: ?l)) with ([url r] ++ map url l).
  rewrite requests_for_app, length_app. unfold requests_for at 1.
  cbn [flat_map]. rewrite Eu. cbn. now rewrite IH.
Qed.

(** * The whole batch *)

(** X2: the first loop of [process_articles] sends one request for each
    row whose URL is a string other than the placeholder, in the order of
    the rows, and none for the other rows. *)
Theorem first_pass_requests :
  forall is_paywall_page extract_article_content w rows st,
  exists st',
    process_rows is_paywall_page extract_article_content w rows st
    = (st', Ok tt)
    /\ sent st' = sent st ++ requests_for (map row_url rows).
Proof.
  intros ip ex w rows st.
  destruct (process_rows_sorts ip ex w rows st)
    as (st' & records & E & _ & _ & _ & _ & _ & _ & S).
  exists st'. auto.
Qed.

(** X3: the first loop makes one record for each row, with the URL, the
    headline and the date of that row, and appends it to exactly one of the
    three lists; each list keeps the order of the rows. *)
Theorem first_pass_files_rows_in_order :
  forall is_paywall_page extract_article_content w rows st,
  exists st' records,
    process_rows is_paywall_page extract_article_content w rows st
    = (st', Ok tt)
    /\ Forall2 made_for rows records
    /\ article_data st'
       = article_data st ++ filter (goes_to Extracted) records
    /\ failed_urls st' = failed_urls st ++ filter (goes_to Failed) records
    /\ paywall_urls st'
       = paywall_urls st ++ filter (goes_to Paywalled) records.
Proof.
  intros ip ex w rows st.
  destruct (process_rows_sorts ip ex w rows st)
    as (st' & records & E & M & _ & _ & A & F & P & _).
  exists st', records. auto.
Qed.

(** X4: [process_articles] keeps every list of its kind.  When the lists
    of the scraper hold records of their kind before the batch (content
    and no error in [article_data]; no content and an error that names the
    paywall in [paywall_urls]; no content and an error that does not in
    [failed_urls]), they do after it, recheck included. *)
Theorem batch_lists_hold_their_kind :
  forall is_paywall_page extract_article_content w rows st,
    labelled st ->
    exists st',
      process_articles is_paywall_page extract_article_content w rows st
      = (st', Ok tt)
      /\ labelled st'.
Proof.
  intros ip ex w rows st (La & Lf & Lp).
  unfold process_articles, bind.
  destruct (process_rows_sorts ip ex w rows st)
    as (st1 & records & E & _ & Fi & _ & A & F & P & _).
  rewrite E.
  destruct (recheck_pass_sorts ip ex w st1)
    as (st2 & again & E2 & _ & Fi2 & A2 & F2 & P2 & _).
  exists st2. split; [exact E2|].
  unfold labelled. rewrite A2, F2, P2, A, F, P.
  pose proof (Forall_filter_goes_to Extracted _ Fi) as R1.
  pose proof (Forall_filter_goes_to Failed _ Fi) as R2.
  pose proof (Forall_filter_goes_to Paywalled _ Fi) as R3.
  pose proof (Forall_filter_goes_to Extracted _ Fi2) as S1.
  pose proof (Forall_filter_goes_to Failed _ Fi2) as S2.
  pose proof (Forall_filter_goes_to Paywalled _ Fi2) as S3.
  split; [|split].
  - apply Forall_app; split; [apply Forall_app; split|]; assumption.
  - apply Forall_app; split; [apply Forall_app; split|]; assumption.
  - destruct (nonempty (filter (goes_to Paywalled) again)).
    + assumption.
    + apply Forall_app; split; assumption.
Qed.

Lemma batch_lists_hold_their_kind_witness :
  labelled BatchExamples.earlier_run
  /\ exists st',
       ArticlesDataET.process_articles Examples.paywall_then_open
         BatchExamples.two_rows BatchExamples.earlier_run = (st', Ok tt)
       /\ labelled st'.
Proof.
  assert (L : labelled BatchExamples.earlier_run).
  { unfold labelled, BatchExamples.earlier_run. cbn.
    split; [|split]; repeat constructor. }
  split; [exact L|].
  exact (batch_lists_hold_their_kind ArticlesDataET.is_paywall_page
           ArticlesDataET.located Examples.paywall_then_open
           BatchExamples.two_rows BatchExamples.earlier_run L).
Defined.

(** X5: in a batch that starts on a fresh scraper, the recheck requests
    every record the first loop filed as paywalled exactly once more, in
    the order of the list, and nothing else. *)
Theorem recheck_requests_each_paywalled_once :
  forall is_paywall_page extract_article_content w rows,
  exists st1 st2,
    process_rows is_paywall_page extract_article_content w rows new_scraper
    = (st1, Ok tt)
    /\ process_articles is_paywall_page extract_article_content w rows
         new_scraper = (st2, Ok tt)
    /\ sent st2 = sent st1 ++ requests_for (map url (paywall_urls st1))
    /\ length (requests_for (map url (paywall_urls st1)))
       = length (paywall_urls st1).
Proof.
  intros ip ex w rows.
  destruct (process_rows_sorts ip ex w rows new_scraper)
    as (st1 & records & E & _ & _ & U & _ & _ & P & _).
  destruct (recheck_pass_sorts ip ex w st1)
    as (st2 & again & E2 & _ & _ & _ & _ & _ & S2).
  exists st1, st2. split; [exact E|].
  split; [unfold process_articles, bind; now rewrite E|].
  split; [exact S2|].
  rewrite P. cbn [paywall_urls new_scraper app].
  now apply paywalled_requests.
Qed.

(** X6: after a batch on a fresh scraper, every record in any of the three
    lists carries the URL, the headline and the date of one of the rows of
    the input table: the recheck copies them from the record it rechecks. *)
Theorem every_record_comes_from_a_row :
  forall is_paywall_page extract_article_content w rows,
  exists st',
    process_articles is_paywall_page extract_article_content w rows
      new_scraper = (st', Ok tt)
    /\ Forall (from_rows rows) (article_data st')
    /\ Forall (from_rows rows) (failed_urls st')
    /\ Forall (from_rows rows) (paywall_urls st').
Proof.
  intros ip ex w rows.
  unfold process_articles, bind.
  destruct (process_rows_sorts ip ex w rows new_scraper)
    as (st1 & records & E & M & _ & _ & A & F & P & _).
  rewrite E.
  destruct (recheck_pass_sorts ip ex w st1)
    as (st2 & again & E2 & M2 & _ & A2 & F2 & P2 & _).
  exists st2. split; [exact E2|].
  cbn [new_scraper article_data failed_urls paywall_urls app] in A, F, P.
  pose proof (Forall2_from_rows _ _ M) as R.
  assert (R1 : Forall (from_rows rows) (paywall_urls st1))
    by (rewrite P; now apply Forall_filter).
  assert (R2 : Forall (from_rows rows) again).
  { clear - M2 R1. induction M2 as [|a r l l' Mr _ IH]; constructor.
    - apply made_for_row_of in Mr. unfold from_rows. rewrite Mr.
      now inversion R1.
    - apply IH. now inversion R1. }
  rewrite A2, F2, P2, A, F.
  split; [|split].
  - apply Forall_app; split; now apply Forall_filter.
  - apply Forall_app; split; now apply Forall_filter.
  - destruct (nonempty (filter (goes_to Paywalled) again));
      [now apply Forall_filter | exact R1].
Qed.


(** * The shape of a cleaned text *)

Lemma sub_spaces_run_head_solid (s : string) :
  head_solid (sub_spaces true s) = true.
Proof.
  induction s as [|c s IH]; cbn; auto.
  destruct (isspace c) eqn:E; cbn; [exact IH | now rewrite E].
Qed.

Lemma prefix_two_blanks (c : ascii) (r : string) :
  prefix "  " (String c r) = true ->
  isspace c = true /\ head_solid r = false.
Proof.
  intros P. apply prefix_cons_inv in P.
  destruct P as [P|(a & E & P)]; [discriminate|].
  injection E as <- <-. destruct r as [|d r]; [discriminate|].
  apply prefix_cons_inv in P.
  destruct P as [P|(a & E & _)]; [discriminate|].
  injection E as <- _. split; reflexivity.
Qed.

Lemma sub_spaces_single (b : bool) (s : string) :
  contains "  " (sub_spaces b s) = false.
Proof.
  revert b. induction s as [|c s IH]; intros b; [reflexivity|].
  cbn [sub_spaces]. destruct (isspace c) eqn:E.
  - destruct b; [apply IH|].
    cbn [contains].
    destruct (prefix "  " (String " " (sub_spaces true s))) eqn:P;
      [|apply IH].
    apply prefix_two_blanks in P. destruct P as [_ P].
    now rewrite sub_spaces_run_head_solid in P.
  - cbn [contains].
    destruct (prefix "  " (String c (sub_spaces false s))) eqn:P;
      [|apply IH].
    apply prefix_two_blanks in P. destruct P as [P _]. congruence.
Qed.

Lemma sub_spaces_length (b : bool) (s : string) :
  String.length (sub_spaces b s) <= String.length s.
Proof.
  revert b.
  induction s as [|c s IH]; intros b; cbn [sub_spaces String.length]; [lia|].
  pose proof (IH true). pose proof (IH false).
  destruct (isspace c); [destruct b|]; cbn [String.length]; lia.
Qed.

Lemma lstrip_length (s : string) :
  String.length (lstrip s) <= String.length s.
Proof.
  induction s as [|c s IH]; cbn; [lia|].
  destruct (isspace c); cbn; lia.
Qed.

Lemma rstrip_length (s : string) :
  String.length (rstrip s) <= String.length s.
Proof.
  induction s as [|c s IH]; cbn; [lia|].
  destruct (rstrip s); [destruct (isspace c)|]; cbn in *; lia.
Qed.

(** X7: [clean_text] returns a single-spaced text, never longer than its
    argument: its only white space is the blank, no two blanks are
    adjacent, and it neither starts nor ends with one. *)
Theorem clean_text_single_spaced :
  forall s,
    all_chars blank_or_solid (clean_text s) = true
    /\ contains "  " (clean_text s) = false
    /\ strip (clean_text s) = clean_text s
    /\ String.length (clean_text s) <= String.length s.
Proof.
  intros s. destruct (clean_text_shape s) as (H & R & _).
  split; [|split; [|split]].
  - rewrite clean_text_eq. apply sub_spaces_blanks.
  - rewrite clean_text_eq. apply sub_spaces_single.
  - now apply strip_fixed.
  - rewrite clean_text_eq.
    pose proof (sub_spaces_length false (strip s)).
    pose proof (rstrip_length (lstrip s)). pose proof (lstrip_length s).
    unfold strip in *. lia.
Qed.

(** X8: the three [replace] calls at the end of [clean_text] never change
    anything: the text the regular expression returns has no line feed,
    carriage return or tab left, so [clean_text] is
    [re.sub(r'\s+', ' ', text.strip())] on every argument. *)
Theorem replace_calls_change_nothing :
  forall s,
    clean_text s = sub_spaces false (strip s)
    /\ replace_char LF " " (clean_text s) = clean_text s
    /\ replace_char CR " " (clean_text s) = clean_text s
    /\ replace_char TAB " " (clean_text s) = clean_text s.
Proof.
  intros s. split; [apply clean_text_eq|].
  assert (B : all_chars blank_or_solid (clean_text s) = true)
    by (rewrite clean_text_eq; apply sub_spaces_blanks).
  split; [|split]; apply replace_char_blanks; auto.
Qed.


(** * What an extracted record says about itself *)

Lemma ET_try_selectors_method (selectors : list string) :
  forall soup soup' content method,
    ArticlesDataET.try_selectors selectors soup
    = Ok (soup', (Some content, method)) ->
    exists name,
      In name selectors /\ method = Some ("class: " ++ name)%string.
Proof.
  induction selectors as [|name rest IH]; intros soup soup' content method;
    cbn [ArticlesDataET.try_selectors].
  - discriminate.
  - assert (K : forall s, ArticlesDataET.try_selectors rest s
                          = Ok (soup', (Some content, method)) ->
                exists n, In n (name :: rest)
                          /\ method = Some ("class: " ++ n)%string).
    { intros s H. destruct (IH _ _ _ _ H) as (n & I & E).
      exists n. split; [now right | exact E]. }
    destruct (find (class_is name) soup) as [element|]; [|apply K].
    destruct (ArticlesDataET._process_content_element element)
      as [[element' c]|e]; [|discriminate].
    destruct (truthy_opt c); [|apply K].
    intros [= _ _ <-]. exists name. split; [now left | reflexivity].
Qed.

Lemma ET_located_shape (soup : node) (content : string)
  (method : option string) :
  ArticlesDataET.located soup = Ok (Some content, method) ->
  200 < String.length content
  /\ clean_text content = content
  /\ exists m, method = Some m /\ In m ET_methods.
Proof.
  unfold ArticlesDataET.located.
  destruct (ArticlesDataET.extract_article_content soup)
    as [[soup' [c m]]|e] eqn:E; [|discriminate].
  intros [= -> ->].
  destruct (ET_extract_sound _ _ _ _ E) as (element & element' & P).
  destruct (ET_process_some _ _ _ P) as [C L].
  split; [exact L|]. split; [subst content; apply clean_text_idem|].
  revert E. unfold ArticlesDataET.extract_article_content.
  assert (K : forall s, ArticlesDataET.try_selectors
                          ArticlesDataET.content_selectors s
                        = Ok (soup', (Some content, method)) ->
                exists m, method = Some m /\ In m ET_methods).
  { intros s H. destruct (ET_try_selectors_method _ _ _ _ _ H)
      as (name & I & ->).
    eexists. split; [reflexivity|]. right.
    apply in_map_iff. exists name. split; [reflexivity | assumption]. }
  destruct (find (named "article") soup) as [article_tag|]; [|apply K].
  destruct (ArticlesDataET._process_content_element article_tag)
    as [[article_tag' c]|e]; [|discriminate].
  destruct (truthy_opt c); [|apply K].
  intros [= _ _ <-]. exists "article tag". split; [reflexivity | now left].
Qed.

(** X9: every record [process_single_article] of [articles_data_ET.py]
    returns either has no content and names no extraction method, or has
    more than 200 characters of content, names the step that found it
    ([article tag] or [class: ] and one of the four class selectors), and
    its content is a text [clean_text] leaves as it is. *)
Theorem ET_record_names_its_step :
  forall w url headline published_date st,
  exists st' r,
    ArticlesDataET.process_single_article w url headline published_date st
    = (st', Ok r)
    /\ extracted_by ET_methods r
    /\ (forall content,
          full_content r = Some content -> clean_text content = content).
Proof.
  intros w url h d st.
  destruct (process_single_article_returns ArticlesDataET.is_paywall_page
              ArticlesDataET.located w url h d st) as (st' & r & E & O).
  exists st', r. split; [exact E|].
  unfold extracted_by.
  destruct O as [?|? ? ? ? ?|? ? ? ? ? ?|u soup c m ? ? ? ? L T|? ? ? ? ? ? ? ? ? ?
                |? ? ? ? ? ? ? ?];
    cbn [full_content extraction_method failed];
    try (split; [reflexivity | discriminate]).
  destruct (ET_located_shape _ _ _ L) as (Len & Cl & S).
  split; [split; assumption|]. now intros ? [= <-].
Qed.

Lemma integrated_located_shape (soup : node) (content : string)
  (method : option string) :
  ETNewsIntegrated.extract_article_content soup
  = Ok (Some content, method) ->
  200 < String.length content
  /\ (exists m, method = Some m /\ In m integrated_methods)
  /\ (method <> Some "paragraphs in main content" ->
      clean_text content = content).
Proof.
  intros H. unfold integrated_methods.
  destruct (integrated_extract_found _ _ _ H)
    as [(element & W & P)|(-> & main & _ & _ & L)].
  - destruct (integrated_process_some _ _ P) as [_ L].
    split; [exact L|].
    split; [|intros _; eapply integrated_process_clean; eauto].
    destruct W as [(_ & ->)|[(name & I & _ & ->)|(name & I & _ & ->)]].
    + exists "article tag". split; [reflexivity | now left].
    + eexists. split; [reflexivity|]. right. apply in_or_app. left.
      apply in_map_iff. exists name. split; [reflexivity | assumption].
    + eexists. split; [reflexivity|]. right. apply in_or_app. right.
      apply in_or_app. left. apply in_map_iff. exists name.
      split; [reflexivity | assumption].
  - split; [exact L|]. split.
    + eexists. split; [reflexivity|]. right. apply in_or_app. right.
      apply in_or_app. right. now left.
    + intros N. now destruct N.
Qed.

(** X10: every record [process_single_article] of [ET_news_integrated.py]
    returns either has no content and names no extraction method, or has
    more than 200 characters of content and names the step that found it:
    the article tag, one of the ten class selectors, one of the four id
    selectors, or the paragraphs of the main content.  Unless it is the
    last of these, the content is a text [clean_text] leaves as it is. *)
Theorem integrated_record_names_its_step :
  forall w url headline published_date st,
  exists st' r,
    ETNewsIntegrated.process_single_article w url headline published_date st
    = (st', Ok r)
    /\ extracted_by integrated_methods r
    /\ (forall content,
          full_content r = Some content ->
          extraction_method r <> Some "paragraphs in main content" ->
          clean_text content = content).
Proof.
  intros w url h d st.
  destruct (process_single_article_returns ETNewsIntegrated.is_paywall_page
              ETNewsIntegrated.located w url h d st) as (st' & r & E & O).
  exists st', r. split; [exact E|].
  unfold extracted_by.
  destruct O as [?|? ? ? ? ?|? ? ? ? ? ?|u soup c m ? ? ? ? L T|? ? ? ? ? ? ? ? ? ?
                |? ? ? ? ? ? ? ?];
    cbn [full_content extraction_method failed];
    try (split; [reflexivity | discriminate]).
  destruct (integrated_located_shape _ _ _ L) as (Len & S & Cl).
  split; [split; assumption|]. now intros ? [= <-].
Qed.


(** * What the removal loops leave *)

(** Induction on a tree, with the property known for every child. *)
Lemma node_induction (P : node -> Prop) :
  (forall s, P (NavigableString s)) ->
  (forall t cs i ks, Forall P ks -> P (Tag t cs i ks)) ->
  (forall c s, P (SpecialString c s)) ->
  forall n, P n.
Proof.
  intros HS HT HC. fix IH 1. intros [s|t cs i ks|c s].
  - apply HS.
  - apply HT. induction ks as [|k ks IHks]; constructor.
    + apply IH.
    + exact IHks.
  - apply HC.
Qed.

Lemma decompose_all_tag (p : node -> bool) (t : string) (cs : list string)
  (i : option string) (ks : list node) :
  decompose_all p (Tag t cs i ks) = Tag t cs i (kept p ks).
Proof.
  cbn [decompose_all]. f_equal. unfold kept.
  induction ks as [|k ks IH]; [reflexivity|].
  cbn [flat_map]. rewrite <- IH. destruct (p k); reflexivity.
Qed.

Lemma shallow_decompose_all (q p : node -> bool) (n : node) :
  shallow q -> q (decompose_all p n) = q n.
Proof.
  intros S. destruct n as [s|t cs i ks|c s]; [reflexivity| |reflexivity].
  rewrite decompose_all_tag. apply S.
Qed.

Lemma descendants_tag (t : string) (cs : list string) (i : option string)
  (ks : list node) (d : node) :
  In d (descendants (Tag t cs i ks))
  <-> exists k, In k ks /\ (d = k \/ In d (descendants k)).
Proof.
  cbn [descendants]. rewrite in_flat_map. split.
  - intros (k & I & [E|D]); exists k; auto.
  - intros (k & I & [E|D]); exists k; split; auto; [left|right]; auto.
Qed.

(** What is below a tree after the removals: nodes that were below it
    before and did not satisfy the criterion, with their own removals
    done. *)
Lemma descendants_decompose_all (p : node -> bool) (n : node) :
  forall d',
    In d' (descendants (decompose_all p n)) ->
    exists d,
      In d (descendants n) /\ p d = false /\ d' = decompose_all p d.
Proof.
  induction n as [s|t cs i ks IH|c s] using node_induction; intros d';
    [intros [] | | intros []].
  rewrite decompose_all_tag, descendants_tag.
  intros (k' & I & H). unfold kept in I. apply in_flat_map in I.
  destruct I as (k & Ik & I).
  destruct (p k) eqn:Pk; [destruct I|].
  destruct I as [<-|[]].
  rewrite Forall_forall in IH.
  destruct H as [->|D].
  - exists k. split; [|auto]. apply descendants_tag. eauto.
  - destruct (IH k Ik _ D) as (d & Dd & Pd & ->).
    exists d. split; [|auto]. apply descendants_tag. eauto.
Qed.

(** The removals done, nothing that satisfies the criterion is left. *)
Lemma decompose_all_free (p : node -> bool) (n : node) :
  shallow p -> free_of p (decompose_all p n).
Proof.
  intros S d' D. apply descendants_decompose_all in D.
  destruct D as (d & _ & Pd & ->). now rewrite shallow_decompose_all.
Qed.

(** Removals keep a tree free of what it was free of. *)
Lemma decompose_all_keeps_free (q p : node -> bool) (n : node) :
  shallow q -> free_of q n -> free_of q (decompose_all p n).
Proof.
  intros S F d' D. apply descendants_decompose_all in D.
  destruct D as (d & Dd & _ & ->). rewrite shallow_decompose_all; auto.
Qed.

(** A tree free of the criterion is left as it is. *)
Lemma decompose_all_fixed (p : node -> bool) (n : node) :
  free_of p n -> decompose_all p n = n.
Proof.
  induction n as [s|t cs i ks IH|c s] using node_induction;
    [reflexivity| |reflexivity].
  intros F. rewrite decompose_all_tag. f_equal. unfold kept.
  assert (K : forall k, In k ks -> p k = false /\ decompose_all p k = k).
  { intros k I. split.
    - apply F, descendants_tag. eauto.
    - rewrite Forall_forall in IH. apply IH; [exact I|].
      intros d D. apply F, descendants_tag. eauto. }
  clear F IH. induction ks as [|k ks IHks]; [reflexivity|].
  cbn [flat_map]. destruct (K k (or_introl eq_refl)) as [-> ->].
  cbn [app]. f_equal. apply IHks. intros k' I. apply K. now right.
Qed.

Lemma free_find_all (p : node -> bool) (n : node) :
  free_of p n -> find_all p n = [].
Proof.
  unfold free_of, find_all. generalize (descendants n).
  induction l as [|d l IH]; intros F; [reflexivity|].
  cbn [filter]. rewrite (F d (or_introl eq_refl)).
  apply IH. intros d' I. apply F. now right.
Qed.

Lemma ET_unwanted_shallow : shallow ArticlesDataET.unwanted.
Proof. intros t cs i ks ks'. reflexivity. Qed.

Lemma ET_free_not_stale (element : node) :
  free_of ArticlesDataET.unwanted element ->
  ArticlesDataET.stale_access element = false.
Proof.
  intros F. unfold ArticlesDataET.stale_access.
  apply not_true_is_false. intros H. apply existsb_exists in H.
  destruct H as (d & D & H). rewrite (F d D) in H. discriminate.
Qed.

(** X11: when [_process_content_element] of [articles_data_ET.py] returns,
    it has left no element in the tree that its removal loop looks for (a
    [script], [style], [noscript] or [div] with one of the six classes),
    and a second call on the element as the first one left it returns the
    same content and changes nothing more. *)
Theorem sanitizer_result_is_stable :
  forall element element' content,
    ArticlesDataET._process_content_element element
    = Ok (element', content) ->
    find_all ArticlesDataET.unwanted element' = []
    /\ ArticlesDataET._process_content_element element'
       = Ok (element', content).
Proof.
  intros element element' content.
  destruct (ArticlesDataET.stale_access element) eqn:S.
  - unfold ArticlesDataET._process_content_element. rewrite S. discriminate.
  - rewrite (ET_process_spec _ S). intros [= <- <-].
    pose proof (decompose_all_free _ element ET_unwanted_shallow) as F.
    split.
    + now apply free_find_all.
    + rewrite (ET_process_spec _ (ET_free_not_stale _ F)).
      unfold cleaned_ET. now rewrite (decompose_all_fixed _ _ F).
Qed.

Lemma sanitizer_result_is_stable_witness :
  ArticlesDataET._process_content_element
    SanitizerExamples.with_advertisement
  = Ok (SanitizerExamples.without_advertisement,
        Some (Examples.long_text ++ " The end.")%string)
  /\ find_all ArticlesDataET.unwanted SanitizerExamples.without_advertisement
     = []
  /\ ArticlesDataET._process_content_element
       SanitizerExamples.without_advertisement
     = Ok (SanitizerExamples.without_advertisement,
           Some (Examples.long_text ++ " The end.")%string).
Proof.
  assert (E : ArticlesDataET._process_content_element
                SanitizerExamples.with_advertisement
              = Ok (SanitizerExamples.without_advertisement,
                    Some (Examples.long_text ++ " The end.")%string))
    by (vm_compute; reflexivity).
  split; [exact E|].
  exact (sanitizer_result_is_stable _ _ _ E).
Defined.


Lemma rewrite_first_tag (p : node -> bool) (f : node -> option node)
  (t : string) (cs : list string) (i : option string) (ks : list node) :
  rewrite_first p f (Tag t cs i ks)
  = match rewrite_children p f ks with
    | Some ks' => Some (Tag t cs i ks')
    | None => None
    end.
Proof.
  cbn [rewrite_first].
  match goal with
  | |- match ?a with _ => _ end = match ?b with _ => _ end =>
      replace a with b; [reflexivity|]
  end.
  induction ks as [|k ks IH]; [reflexivity|].
  cbn [rewrite_children]. rewrite IH. reflexivity.
Qed.

Lemma free_of_tag (q : node -> bool) (t : string) (cs : list string)
  (i : option string) (ks : list node) :
  free_of q (Tag t cs i ks)
  <-> forall k, In k ks -> q k = false /\ free_of q k.
Proof.
  unfold free_of. split.
  - intros F k I. split.
    + apply F, descendants_tag. eauto.
    + intros d D. apply F, descendants_tag. eauto.
  - intros F d D. apply descendants_tag in D.
    destruct D as (k & I & [->|D]); [apply F, I | now apply (F k I)].
Qed.

(** Removing one node keeps a tree free of what it was free of. *)
Lemma rewrite_first_keeps_free (q p : node -> bool) (n : node) :
  shallow q ->
  forall n',
    rewrite_first p (fun _ => None) n = Some n' ->
    free_of q n -> free_of q n' /\ q n' = q n.
Proof.
  intros S. induction n as [s|t cs i ks IH|c s] using node_induction;
    intros n'; [discriminate| |discriminate].
  rewrite rewrite_first_tag.
  destruct (rewrite_children p (fun _ => None) ks) as [ks'|] eqn:R;
    [|discriminate].
  intros [= <-] F. split; [|apply S].
  rewrite free_of_tag in *.
  clear t cs i. revert ks' R.
  induction ks as [|k ks IHks]; intros ks'; [discriminate|].
  cbn [rewrite_children].
  assert (Fk : q k = false /\ free_of q k) by (apply F; now left).
  assert (Fks : forall k', In k' ks -> q k' = false /\ free_of q k')
    by (intros k' I; apply F; now right).
  inversion IH as [|? ? IHk IHrest]; subst.
  destruct (p k).
  - intros [= <-]. exact Fks.
  - destruct (rewrite_first p (fun _ => None) k) as [k'|] eqn:Rk.
    + intros [= <-] k0 [<-|I]; [|now apply Fks].
      destruct (IHk _ eq_refl (proj2 Fk)) as [F' Q'].
      split; [now rewrite Q' | exact F'].
    + destruct (rewrite_children p (fun _ => None) ks) as [l''|];
        [|discriminate].
      intros [= <-] k0 [<-|I]; [exact Fk|].
      now apply (IHks IHrest Fks l'').
Qed.

Lemma decompose_first_keeps_free (q p : node -> bool) (n : node) :
  shallow q -> free_of q n -> free_of q (decompose_first p n).
Proof.
  intros S F. unfold decompose_first.
  destruct (rewrite_first p (fun _ => None) n) as [n'|] eqn:R; [|exact F].
  now destruct (rewrite_first_keeps_free q p n S n' R F).
Qed.

Lemma class_where_shallow (f : string -> bool) : shallow (class_where f).
Proof. intros t cs i ks ks'. reflexivity. Qed.

Lemma unwanted_tag_shallow : shallow unwanted_tag.
Proof. intros t cs i ks ks'. reflexivity. Qed.

(** A fold of removal loops leaves nothing that one of them looks for. *)
Lemma fold_decompose_all_free {A : Type} (P : A -> node -> bool)
  (cs : list A) :
  (forall c, shallow (P c)) ->
  forall n,
    let n' := fold_left (fun copy c => decompose_all (P c) copy) cs n in
    (forall q, shallow q -> free_of q n -> free_of q n')
    /\ forall c, In c cs -> free_of (P c) n'.
Proof.
  intros S. induction cs as [|c cs IH]; intros n; cbn [fold_left].
  - split; [auto | intros c []].
  - destruct (IH (decompose_all (P c) n)) as [K F]. split.
    + intros q Sq Fq. apply K; [exact Sq|].
      now apply decompose_all_keeps_free.
    + intros c' [<-|I]; [|now apply F].
      apply K; [apply S|]. apply decompose_all_free, S.
Qed.

Lemma fold_decompose_first_keeps_free {A : Type} (P : A -> node -> bool)
  (q : node -> bool) (cs : list A) :
  shallow q ->
  forall n,
    free_of q n ->
    free_of q (fold_left (fun copy c => decompose_first (P c) copy) cs n).
Proof.
  intros S. induction cs as [|c cs IH]; intros n F; cbn [fold_left];
    [exact F|].
  apply IH. now apply decompose_first_keeps_free.
Qed.

(** X12: the copy [_process_content_element] of [ET_news_integrated.py]
    reads its text from holds, after the three removal loops, no element
    with a class token that contains one of the unwanted class names and no
    [script], [style], [noscript], [iframe] or [form]. *)
Theorem integrated_copy_is_pruned :
  forall element,
    (exists kept,
        remove_boilerplate ETNewsIntegrated.boilerplate_text
          (get_text_stripped (pruned_copy element)) = Some kept
        /\ ETNewsIntegrated._process_content_element element
           = Ok (let content := clean_text kept in
                 if 200 <? String.length content then Some content
                 else None))
    /\ find_all unwanted_class (pruned_copy element) = []
    /\ find_all unwanted_tag (pruned_copy element) = [].
Proof.
  intros element. split.
  { exists (cuts ETNewsIntegrated.boilerplate_text
              (get_text_stripped (pruned_copy element))).
    split; [apply remove_boilerplate_cuts, integrated_phrases_nonempty|].
    rewrite integrated_process_spec. unfold cleaned_integrated. cbv zeta.
    reflexivity. }
  unfold pruned_copy.
  pose (P := fun unwanted_class : string =>
              class_where
                (fun c => truthy c && contains unwanted_class c)).
  destruct (fold_decompose_all_free P ETNewsIntegrated.unwanted_classes
              (fun c => class_where_shallow _) (document [reparsed None element]))
    as [_ F].
  cbv zeta in F.
  assert (F1 : free_of unwanted_class
                 (decompose_all unwanted_tag
                    (fold_left (fun copy c => decompose_all (P c) copy)
                       ETNewsIntegrated.unwanted_classes
                       (document [reparsed None element])))).
  { intros d D. apply not_true_is_false. intros H.
    unfold unwanted_class in H. apply existsb_exists in H.
    destruct H as (c & I & H).
    assert (Fc : free_of (P c)
                 (decompose_all unwanted_tag
                    (fold_left (fun copy c => decompose_all (P c) copy)
                       ETNewsIntegrated.unwanted_classes
                       (document [reparsed None element]))))
      by (apply decompose_all_keeps_free;
          [apply class_where_shallow | apply F, I]).
    specialize (Fc d D). unfold P in Fc. rewrite Fc in H. discriminate. }
  assert (S1 : shallow unwanted_class).
  { intros t cs i ks ks'. reflexivity. }
  split; apply free_find_all.
  - apply fold_decompose_first_keeps_free; [exact S1|]. exact F1.
  - apply fold_decompose_first_keeps_free; [exact unwanted_tag_shallow|].
    apply decompose_all_free, unwanted_tag_shallow.
Qed.


(** * The batch of [fetch_news_articles.py] *)

Lemma error_text_not_invalid (e : exn) : error_text e <> "Invalid URL".
Proof. destruct e; cbn; discriminate. Qed.

(** [process_single_article] of [fetch_news_articles.py], in full. *)
Lemma generic_process_single_article_returns (w : world) (url : cell)
  (h d source : string) (st : scraper) :
  exists r,
    FetchNewsBatch.process_single_article w url h d source st
    = (requested st (FetchNewsBatch.url_text url), Ok r)
    /\ made_for (url, h, d) r
    /\ exactly_one r
    /\ error r <> Some "Invalid URL".
Proof.
  unfold FetchNewsBatch.process_single_article, try_except, bind, fetch, call.
  assert (K : forall reason, reason <> "Invalid URL" ->
                made_for (url, h, d) (failed url h d reason)
                /\ exactly_one (failed url h d reason)
                /\ error (failed url h d reason) <> Some "Invalid URL").
  { intros reason N. split; [repeat split|]. split.
    - right. split; [reflexivity | discriminate].
    - cbn. congruence. }
  destruct (w (length (sent st)) (FetchNewsBatch.url_text url)) as [e|soup].
  - eexists. split; [reflexivity|]. apply K, error_text_not_invalid.
  - destruct (FetchNewsArticles.is_paywall_page soup source).
    + eexists. split; [reflexivity|]. apply K. discriminate.
    + destruct (FetchNewsBatch.located soup source) as [[content method]|e].
      * destruct (truthy_opt content) eqn:T.
        -- eexists. split; [reflexivity|]. split; [repeat split|]. split.
           ++ left. split; [|reflexivity].
              destruct content; [discriminate | discriminate T].
           ++ discriminate.
        -- eexists. split; [reflexivity|]. apply K. discriminate.
      * eexists. split; [reflexivity|]. apply K, error_text_not_invalid.
Qed.

(** X13: [process_single_article] of [fetch_news_articles.py] calls
    [requests.get] for every row, also for a missing URL and for the
    placeholder [URL not available]: it has no test of the URL, and never
    answers [Invalid URL].  It never raises; the record carries the URL,
    the headline and the date it was given and has exactly one of content
    and error. *)
Theorem generic_scraper_requests_any_url :
  forall w url headline published_date source st,
  exists r,
    FetchNewsBatch.process_single_article w url headline published_date
      source st
    = (requested st (FetchNewsBatch.url_text url), Ok r)
    /\ made_for (url, headline, published_date) r
    /\ exactly_one r
    /\ error r <> Some "Invalid URL".
Proof.
  intros. apply generic_process_single_article_returns.
Qed.

(** X14: [process_articles] of [fetch_news_articles.py] never raises, makes
    exactly one request for each row of the table, in the order of the
    rows, and files one record for each row; there is no recheck, so the
    paywall list only grows. *)
Theorem generic_batch_requests_every_row :
  forall w source rows st,
  exists st' records,
    FetchNewsBatch.process_articles w rows source st = (st', Ok tt)
    /\ sent st'
       = sent st ++ map (fun row => FetchNewsBatch.url_text (row_url row))
                      rows
    /\ Forall2 made_for rows records
    /\ article_data st'
       = article_data st ++ filter (goes_to Extracted) records
    /\ failed_urls st' = failed_urls st ++ filter (goes_to Failed) records
    /\ paywall_urls st'
       = paywall_urls st ++ filter (goes_to Paywalled) records.
Proof.
  intros w source rows.
  induction rows as [|[[url h] d] rest IH]; intros st.
  - exists st, []. cbn. rewrite !app_nil_r. repeat split; constructor.
  - destruct (generic_process_single_article_returns w url h d source st)
      as (r & E & Mr & _).
    cbn [FetchNewsBatch.process_articles]. unfold bind at 1. rewrite E.
    unfold bind at 1, append_to at 1.
    destruct (IH (filed_in (bucket_of r) r
                    (requested st (FetchNewsBatch.url_text url))))
      as (st' & records & E' & S & M & A & F & P).
    destruct (filed_in_lists r (requested st (FetchNewsBatch.url_text url)))
      as (A1 & F1 & P1 & S1).
    exists st', (r :: records). split; [exact E'|].
    rewrite S, A, F, P, A1, F1, P1, S1.
    cbn [requested sent article_data failed_urls paywall_urls map row_url
         fst].
    change (r :: records) with ([r] ++ records).
    rewrite !filter_app, <- !app_assoc.
    split; [reflexivity|]. split; [constructor; assumption|]. auto.
Qed.


(** * [check_paywall_articles.py] *)

(** The script repeats the sanitizer of [articles_data_ET.py]. *)
Lemma script_locator_spec (soup : node) :
  CheckPaywallArticles.extract_article_content soup
  = match find (named "article") soup with
    | Some article_tag =>
        match ArticlesDataET._process_content_element article_tag with
        | Ok (_, content) => Ok content
        | Raise e => Raise e
        end
    | None => Ok None
    end.
Proof.
  unfold CheckPaywallArticles.extract_article_content,
    ArticlesDataET._process_content_element.
  destruct (find (named "article") soup) as [article_tag|]; [|reflexivity].
  unfold CheckPaywallArticles.stale_access, ArticlesDataET.stale_access,
    CheckPaywallArticles.unwanted, ArticlesDataET.unwanted,
    CheckPaywallArticles.boilerplate, ArticlesDataET.boilerplate_text,
    ArticlesDataET.attribute_error.
  cbv zeta.
  match goal with
  | |- (if ?b then _ else _) = _ => destruct b; [reflexivity|]
  end.
  match goal with
  | |- match ?c with Some _ => _ | None => _ end = _ =>
      destruct c; [|reflexivity]
  end.
  match goal with
  | |- (if ?b then _ else _) = _ => destruct b; reflexivity
  end.
Qed.

(** X15: the locator of the recheck script is the first step of the
    locator of [articles_data_ET.py] and nothing more: what it returns for
    a page, content or exception, [ArticleScraper.extract_article_content]
    returns for it with the method [article tag]; when it returns nothing,
    the scraper's locator goes on to its class selectors. *)
Theorem script_locator_is_the_article_step :
  forall soup,
    match CheckPaywallArticles.extract_article_content soup with
    | Ok (Some content) =>
        ArticlesDataET.located soup = Ok (Some content, Some "article tag")
        /\ 200 < String.length content
    | Ok None =>
        forall content method,
          ArticlesDataET.located soup = Ok (Some content, method) ->
          method <> Some "article tag"
    | Raise e => ArticlesDataET.located soup = Raise e
    end.
Proof.
  intros soup. rewrite script_locator_spec.
  unfold ArticlesDataET.located, ArticlesDataET.extract_article_content.
  assert (K : forall s content method,
            match ArticlesDataET.try_selectors
                    ArticlesDataET.content_selectors s with
            | Ok (_, r) => Ok r
            | Raise e => Raise e
            end = Ok (Some content, method) ->
            method <> Some "article tag").
  { intros s content method H.
    destruct (ArticlesDataET.try_selectors _ s)
      as [[soup' r]|e] eqn:R; [|discriminate].
    injection H as ->.
    destruct (ET_try_selectors_method _ _ _ _ _ R) as (name & _ & ->).
    discriminate. }
  destruct (find (named "article") soup) as [article_tag|]; [|apply K].
  destruct (ArticlesDataET._process_content_element article_tag)
    as [[article_tag' [content|]]|e] eqn:P.
  - destruct (ET_process_some _ _ _ P) as [_ L].
    assert (T : truthy content = true)
      by (destruct content; [cbn in L; lia | reflexivity]).
    cbn [truthy_opt]. rewrite T. auto.
  - cbn [truthy_opt]. apply K.
  - reflexivity.
Qed.

Lemma dict_get_set_other (k k' : string) (v : CheckPaywallArticles.value)
  (d : CheckPaywallArticles.dict) :
  k <> k' ->
  CheckPaywallArticles.dict_get k' (CheckPaywallArticles.dict_set k v d)
  = CheckPaywallArticles.dict_get k' d.
Proof.
  intros N. induction d as [|[k0 v0] d IH]; cbn.
  - apply String.eqb_neq in N. now rewrite N.
  - destruct (String.eqb k0 k) eqn:E; cbn.
    + apply String.eqb_eq in E. subst k0.
      apply String.eqb_neq in N. now rewrite N.
    + now rewrite IH.
Qed.

Lemma dict_get_set_same (k : string) (v : CheckPaywallArticles.value)
  (d : CheckPaywallArticles.dict) :
  CheckPaywallArticles.dict_get k (CheckPaywallArticles.dict_set k v d)
  = Some v.
Proof.
  induction d as [|[k0 v0] d IH]; cbn.
  - now rewrite String.eqb_refl.
  - destruct (String.eqb k0 k) eqn:E; cbn.
    + now rewrite String.eqb_refl.
    + now rewrite E.
Qed.

Lemma script_locator_some (soup : node) (text : string) :
  CheckPaywallArticles.extract_article_content soup = Ok (Some text) ->
  200 < String.length text.
Proof.
  rewrite script_locator_spec.
  destruct (find (named "article") soup) as [tag|]; [|discriminate].
  destruct (ArticlesDataET._process_content_element tag)
    as [[tag' c]|e] eqn:P; [|discriminate].
  intros [= ->]. now destruct (ET_process_some _ _ _ P).
Qed.

(** One turn of the loop of the script, for an article with a URL. *)
Lemma script_turn (w : world) (article : CheckPaywallArticles.dict)
  (rest : list CheckPaywallArticles.dict)
  (l1 l2 l3 : list CheckPaywallArticles.dict) (st : scraper) :
  CheckPaywallArticles.has_url article = true ->
  exists n1 n2 n3,
    CheckPaywallArticles.recheck_loop w (article :: rest) l1 l2 l3 st
    = CheckPaywallArticles.recheck_loop w rest (l1 ++ n1) (l2 ++ n2)
        (l3 ++ n3)
        (requested st (CheckPaywallArticles.url_of article))
    /\ length n1 + length n2 + length n3 = 1
    /\ Forall (CheckPaywallArticles.recovered_from [article]) n1
    /\ Forall (eq article) n2
    /\ Forall (CheckPaywallArticles.failed_from [article]) n3.
Proof.
  unfold CheckPaywallArticles.has_url, CheckPaywallArticles.url_of.
  cbn [CheckPaywallArticles.recheck_loop].
  destruct (CheckPaywallArticles.dict_get "url" article) as [url|];
    [intros _ | discriminate].
  unfold bind at 1, try_except, bind at 1, fetch, bind at 1, call.
  assert (Still : exists n1 n2 n3,
            CheckPaywallArticles.recheck_loop w rest l1 (l2 ++ [article]) l3
              (requested st (CheckPaywallArticles.py_str url))
            = CheckPaywallArticles.recheck_loop w rest (l1 ++ n1)
                (l2 ++ n2) (l3 ++ n3)
                (requested st (CheckPaywallArticles.py_str url))
            /\ length n1 + length n2 + length n3 = 1
            /\ Forall (CheckPaywallArticles.recovered_from [article]) n1
            /\ Forall (eq article) n2
            /\ Forall (CheckPaywallArticles.failed_from [article]) n3).
  { exists [], [article], []. rewrite !app_nil_r.
    repeat split; repeat constructor. }
  assert (Fails : forall e, exists n1 n2 n3,
            CheckPaywallArticles.recheck_loop w rest l1 l2
              (l3 ++ [CheckPaywallArticles.dict_set "error"
                        (CheckPaywallArticles.Text
                           (CheckPaywallArticles.message e)) article])
              (requested st (CheckPaywallArticles.py_str url))
            = CheckPaywallArticles.recheck_loop w rest (l1 ++ n1)
                (l2 ++ n2) (l3 ++ n3)
                (requested st (CheckPaywallArticles.py_str url))
            /\ length n1 + length n2 + length n3 = 1
            /\ Forall (CheckPaywallArticles.recovered_from [article]) n1
            /\ Forall (eq article) n2
            /\ Forall (CheckPaywallArticles.failed_from [article]) n3).
  { intros e.
    exists [], [],
      [CheckPaywallArticles.dict_set "error"
         (CheckPaywallArticles.Text (CheckPaywallArticles.message e))
         article].
    rewrite !app_nil_r.
    split; [reflexivity|]. split; [reflexivity|].
    split; [constructor|]. split; [constructor|].
    constructor; [|constructor]. exists article, e. split; [now left | auto]. }
  destruct (w (length (sent st)) (CheckPaywallArticles.py_str url))
    as [e|soup]; [apply Fails|].
  destruct (CheckPaywallArticles.extract_article_content soup)
    as [[text|]|e] eqn:X; [| apply Still | apply Fails].
  destruct (truthy text); [|apply Still].
  exists [CheckPaywallArticles.dict_set "full_content"
            (CheckPaywallArticles.Text text) article], [], [].
  rewrite !app_nil_r.
  split; [reflexivity|]. split; [reflexivity|].
  split; [|split; constructor].
  constructor; [|constructor]. exists article, text.
  split; [now left|]. split; [reflexivity|].
  split; [eapply script_locator_some; eauto|].
  apply dict_get_set_other. discriminate.
Qed.

Lemma recovered_from_incl (l l' : list CheckPaywallArticles.dict)
  (a : CheckPaywallArticles.dict) :
  incl l l' ->
  CheckPaywallArticles.recovered_from l a ->
  CheckPaywallArticles.recovered_from l' a.
Proof.
  intros I (a0 & text & H & R). exists a0, text. split; [apply I, H | exact R].
Qed.

Lemma failed_from_incl (l l' : list CheckPaywallArticles.dict)
  (a : CheckPaywallArticles.dict) :
  incl l l' ->
  CheckPaywallArticles.failed_from l a ->
  CheckPaywallArticles.failed_from l' a.
Proof.
  intros I (a0 & e & H & R). exists a0, e. split; [apply I, H | exact R].
Qed.

(** The loop of the script, for articles that all have a URL. *)
Lemma script_loop_sorts (w : world)
  (articles : list CheckPaywallArticles.dict) :
  Forall (fun a => CheckPaywallArticles.has_url a = true) articles ->
  forall l1 l2 l3 st,
  exists st' n1 n2 n3,
    CheckPaywallArticles.recheck_loop w articles l1 l2 l3 st
    = (st', Ok (l1 ++ n1, l2 ++ n2, l3 ++ n3))
    /\ sent st' = sent st ++ map CheckPaywallArticles.url_of articles
    /\ length n1 + length n2 + length n3 = length articles
    /\ Forall (CheckPaywallArticles.recovered_from articles) n1
    /\ incl n2 articles
    /\ Forall (CheckPaywallArticles.failed_from articles) n3.
Proof.
  induction 1 as [|a rest Ha _ IH]; intros l1 l2 l3 st.
  - exists st, [], [], []. cbn. rewrite !app_nil_r.
    repeat split; try constructor. intros x [].
  - destruct (script_turn w a rest l1 l2 l3 st Ha)
      as (m1 & m2 & m3 & E & C & R & S & F).
    destruct (IH (l1 ++ m1) (l2 ++ m2) (l3 ++ m3)
                (requested st (CheckPaywallArticles.url_of a)))
      as (st' & n1 & n2 & n3 & E' & Se & C' & R' & S' & F').
    exists st', (m1 ++ n1), (m2 ++ n2), (m3 ++ n3).
    rewrite E, E', !app_assoc. split; [reflexivity|].
    split; [rewrite Se; cbn; now rewrite <- app_assoc|].
    split; [rewrite !length_app; cbn; lia|].
    split; [|split].
    + apply Forall_app. split.
      * eapply Forall_impl; [|exact R]. intros x.
        apply recovered_from_incl. intros y [<-|[]]. now left.
      * eapply Forall_impl; [|exact R']. intros x.
        apply recovered_from_incl. intros y I. now right.
    + intros x I. apply in_app_or in I. destruct I as [I|I].
      * rewrite Forall_forall in S. left. now apply S.
      * right. now apply S'.
    + apply Forall_app. split.
      * eapply Forall_impl; [|exact F]. intros x.
        apply failed_from_incl. intros y [<-|[]]. now left.
      * eapply Forall_impl; [|exact F']. intros x.
        apply failed_from_incl. intros y I. now right.
Qed.

(** X16: when every article of the loaded list has a [url], the loop of
    the recheck script never raises, makes exactly one request for each
    article, in the order of the list, and puts each article into exactly
    one of its three lists.  A recovered article is the loaded one with
    more than 200 characters of content put in and its old error left in
    place; an article that raised is the loaded one with the bare message
    of the exception as its error; the others are left as loaded. *)
Theorem script_recheck_sorts_every_article :
  forall w articles st,
    Forall (fun a => CheckPaywallArticles.has_url a = true) articles ->
    exists st' successfully_extracted still_paywall failed_urls,
      CheckPaywallArticles.recheck_loop w articles [] [] [] st
      = (st', Ok (successfully_extracted, still_paywall, failed_urls))
      /\ sent st' = sent st ++ map CheckPaywallArticles.url_of articles
      /\ length successfully_extracted + length still_paywall
         + length failed_urls = length articles
      /\ Forall (CheckPaywallArticles.recovered_from articles)
           successfully_extracted
      /\ incl still_paywall articles
      /\ Forall (CheckPaywallArticles.failed_from articles) failed_urls.
Proof.
  intros w articles st H.
  destruct (script_loop_sorts w articles H [] [] [] st)
    as (st' & n1 & n2 & n3 & E).
  exists st', n1, n2, n3. exact E.
Qed.

Lemma script_recheck_sorts_every_article_witness :
  Forall (fun a => CheckPaywallArticles.has_url a = true)
    [CheckPaywallArticles.paywalled_article "http://x/a";
     CheckPaywallArticles.paywalled_article "http://x/b"]
  /\ exists st' successfully_extracted still_paywall failed_urls,
      CheckPaywallArticles.recheck_loop Examples.paywall_then_open
        [CheckPaywallArticles.paywalled_article "http://x/a";
         CheckPaywallArticles.paywalled_article "http://x/b"] [] [] []
        new_scraper
      = (st', Ok (successfully_extracted, still_paywall, failed_urls))
      /\ sent st'
         = sent new_scraper
           ++ map CheckPaywallArticles.url_of
                [CheckPaywallArticles.paywalled_article "http://x/a";
                 CheckPaywallArticles.paywalled_article "http://x/b"]
      /\ length successfully_extracted + length still_paywall
         + length failed_urls = 2
      /\ Forall (CheckPaywallArticles.recovered_from
                   [CheckPaywallArticles.paywalled_article "http://x/a";
                    CheckPaywallArticles.paywalled_article "http://x/b"])
           successfully_extracted
      /\ incl still_paywall
           [CheckPaywallArticles.paywalled_article "http://x/a";
            CheckPaywallArticles.paywalled_article "http://x/b"]
      /\ Forall (CheckPaywallArticles.failed_from
                   [CheckPaywallArticles.paywalled_article "http://x/a";
                    CheckPaywallArticles.paywalled_article "http://x/b"])
           failed_urls.
Proof.
  assert (H : Forall (fun a => CheckPaywallArticles.has_url a = true)
                [CheckPaywallArticles.paywalled_article "http://x/a";
                 CheckPaywallArticles.paywalled_article "http://x/b"])
    by (repeat constructor).
  split; [exact H|].
  exact (script_recheck_sorts_every_article Examples.paywall_then_open _
           new_scraper H).
Defined.

(** X17: [article['url']] is read outside the [try]: at the first article
    without a [url] the loop of the recheck script raises a [KeyError],
    after one request for each of the articles before it, and the three
    lists it has built are lost. *)
Theorem script_recheck_raises_without_url :
  forall w before article rest st,
    Forall (fun a => CheckPaywallArticles.has_url a = true) before ->
    CheckPaywallArticles.has_url article = false ->
    exists st',
      CheckPaywallArticles.recheck_loop w (before ++ article :: rest)
        [] [] [] st
      = (st', Raise (CheckPaywallArticles.key_error "url"))
      /\ sent st' = sent st ++ map CheckPaywallArticles.url_of before.
Proof.
  intros w before article rest st H N.
  assert (G : forall l1 l2 l3 st,
            exists st',
              CheckPaywallArticles.recheck_loop w (before ++ article :: rest)
                l1 l2 l3 st
              = (st', Raise (CheckPaywallArticles.key_error "url"))
              /\ sent st' = sent st ++ map CheckPaywallArticles.url_of before).
  { clear st. induction H as [|a l Ha _ IH]; intros l1 l2 l3 st.
    - exists st. cbn [app CheckPaywallArticles.recheck_loop map].
      unfold CheckPaywallArticles.has_url in N.
      destruct (CheckPaywallArticles.dict_get "url" article); [discriminate|].
      rewrite app_nil_r. auto.
    - change ((a :: l) ++ article :: rest) with (a :: (l ++ article :: rest)).
      destruct (script_turn w a (l ++ article :: rest) l1 l2 l3 st Ha)
        as (m1 & m2 & m3 & E & _).
      rewrite E.
      destruct (IH (l1 ++ m1) (l2 ++ m2) (l3 ++ m3)
                  (requested st (CheckPaywallArticles.url_of a)))
        as (st' & E' & S').
      exists st'. split; [exact E'|]. rewrite S'. cbn.
      now rewrite <- app_assoc. }
  apply G.
Qed.

Lemma script_recheck_raises_without_url_witness :
  Forall (fun a => CheckPaywallArticles.has_url a = true)
    [CheckPaywallArticles.paywalled_article "http://x/a"]
  /\ CheckPaywallArticles.has_url [("headline", CheckPaywallArticles.Text "H")]
     = false
  /\ exists st',
      CheckPaywallArticles.recheck_loop Examples.paywall_then_open
        ([CheckPaywallArticles.paywalled_article "http://x/a"]
         ++ [("headline", CheckPaywallArticles.Text "H")] :: [])
        [] [] [] new_scraper
      = (st', Raise (CheckPaywallArticles.key_error "url"))
      /\ sent st'
         = sent new_scraper
           ++ map CheckPaywallArticles.url_of
                [CheckPaywallArticles.paywalled_article "http://x/a"].
Proof.
  assert (H : Forall (fun a => CheckPaywallArticles.has_url a = true)
                [CheckPaywallArticles.paywalled_article "http://x/a"])
    by (repeat constructor).
  split; [exact H|]. split; [reflexivity|].
  exact (script_recheck_raises_without_url Examples.paywall_then_open _
           [("headline", CheckPaywallArticles.Text "H")] [] new_scraper H
           eq_refl).
Defined.


(** * [extract_year_month] *)

Section DateFacts.

Import ExtractYearMonth.

Lemma all_chars_app (f : ascii -> bool) (a b : string) :
  all_chars f (a ++ b) = all_chars f a && all_chars f b.
Proof.
  induction a as [|x a IH]; cbn; [reflexivity|].
  now rewrite IH, andb_assoc.
Qed.

Lemma length_app_string (a b : string) :
  String.length (a ++ b) = String.length a + String.length b.
Proof. induction a as [|x a IH]; cbn; [reflexivity | now rewrite IH]. Qed.

Lemma run_outside (c : char_class) (s : string) :
  starts_outside c s = true -> run c s = 0.
Proof.
  destruct s as [|x s]; cbn; [reflexivity|].
  destruct (in_class c x); [discriminate | reflexivity].
Qed.

Lemma run_app (c : char_class) (a r : string) :
  all_chars (in_class c) a = true ->
  run c (a ++ r) = String.length a + run c r.
Proof.
  induction a as [|x a IH]; cbn; [reflexivity|].
  intros H. apply andb_true_iff in H. destruct H as [Hx Ha].
  now rewrite Hx, IH.
Qed.

Lemma skip_app (a r : string) : skip (String.length a) (a ++ r) = r.
Proof. induction a as [|x a IH]; cbn; [now destruct r | exact IH]. Qed.

Lemma take_app (a r : string) : take (String.length a) (a ++ r) = a.
Proof.
  unfold take. induction a as [|x a IH]; cbn.
  - now destruct r.
  - now rewrite IH.
Qed.

Lemma descend_first {A : Type} (k m : nat) (attempt : nat -> option A)
  (r : A) :
  m <= k -> attempt k = Some r -> descend k m attempt = Some r.
Proof.
  intros L E. destruct k as [|k]; cbn [descend].
  - apply Nat.ltb_ge in L. now rewrite L, E.
  - apply Nat.ltb_ge in L. now rewrite L, E.
Qed.

Lemma descend_none {A : Type} (k m : nat) (attempt : nat -> option A) :
  (forall j, attempt j = None) -> descend k m attempt = None.
Proof.
  intros N. induction k as [|k IH]; cbn [descend].
  - destruct (0 <? m); [reflexivity | now rewrite N].
  - destruct (S k <? m); [reflexivity | now rewrite N].
Qed.

(** One piece of a pattern takes the whole run [x] when what follows it
    matches the rest. *)
Lemma match_step (a : atom) (p : list atom) (x r : string)
  (groups : list string) :
  longest a (x ++ r) = String.length x ->
  at_least a <= String.length x ->
  match_here p r = Some groups ->
  match_here (a :: p) (x ++ r)
  = Some (if captured a then x :: groups else groups).
Proof.
  intros L M R. cbn [match_here]. rewrite L.
  apply descend_first; [exact M|].
  now rewrite skip_app, R, take_app.
Qed.

Lemma longest_unbounded (a : atom) (x r : string) :
  at_most a = None ->
  all_chars (in_class (class a)) x = true ->
  starts_outside (class a) r = true ->
  longest a (x ++ r) = String.length x.
Proof.
  intros U H O. unfold longest. rewrite U, run_app, run_outside; auto.
Qed.

Lemma longest_bounded (a : atom) (m : nat) (x r : string) :
  at_most a = Some m ->
  all_chars (in_class (class a)) x = true ->
  starts_outside (class a) r = true \/ String.length x = m ->
  String.length x <= m ->
  longest a (x ++ r) = String.length x.
Proof.
  intros U H O L. unfold longest. rewrite U, run_app by exact H.
  destruct O as [O| ->]; [rewrite run_outside by exact O|]; lia.
Qed.

Lemma search_found (p : list atom) (s : string) (groups : list string) :
  match_here p s = Some groups -> search p s = Some groups.
Proof. intros H. destruct s; cbn [search]; now rewrite H. Qed.

(** A pattern whose first piece needs a character of its class does not
    match where there is none. *)
Lemma match_needs_first (a : atom) (p : list atom) (s : string) :
  1 <= at_least a -> starts_outside (class a) s = true ->
  match_here (a :: p) s = None.
Proof.
  intros M O. cbn [match_here].
  assert (L : longest a s = 0).
  { unfold longest. rewrite run_outside by exact O.
    destruct (at_most a); [apply Nat.min_0_r | reflexivity]. }
  rewrite L. cbn [descend].
  destruct (0 <? at_least a) eqn:E; [reflexivity|].
  apply Nat.ltb_ge in E. lia.
Qed.

Lemma search_skips (a : atom) (p : list atom) (l x : string) :
  1 <= at_least a ->
  all_chars (fun c => negb (in_class (class a) c)) l = true ->
  search (a :: p) (l ++ x) = search (a :: p) x.
Proof.
  intros M. induction l as [|c l IH]; [reflexivity|].
  cbn [all_chars]. intros H. apply andb_true_iff in H. destruct H as [Hc Hl].
  change (String c l ++ x)%string with (String c (l ++ x)).
  cbn [search]. rewrite match_needs_first by (cbn; auto).
  now apply IH.
Qed.

Lemma all_chars_skip (f : ascii -> bool) (k : nat) (s : string) :
  all_chars f s = true -> all_chars f (skip k s) = true.
Proof.
  revert s. induction k as [|k IH]; intros [|c s]; cbn; auto.
  intros H. apply andb_true_iff in H. now apply IH.
Qed.

Lemma all_outside_starts (c : char_class) (s : string) :
  all_chars (fun x => negb (in_class c x)) s = true ->
  starts_outside c s = true.
Proof.
  destruct s as [|x s]; cbn; [reflexivity|].
  intros H. apply andb_true_iff in H. tauto.
Qed.

(** The first pattern asks for letters: it is found nowhere in a text
    without any. *)
Lemma pattern1_needs_letters (s : string) :
  all_chars (fun x => negb (in_class letter x)) s = true ->
  search pattern1 s = None.
Proof.
  assert (M : forall s,
            all_chars (fun x => negb (in_class letter x)) s = true ->
            match_here pattern1 s = None).
  { clear s. intros s H. unfold pattern1. cbn [match_here].
    apply descend_none. intros k.
    rewrite descend_none; [reflexivity|]. intros k2.
    match goal with
    | |- context [descend ?n ?m ?f] =>
        change (descend n m f)
          with (match_here
                  [mkAtom true letter 3 None; mkAtom false space 1 None;
                   mkAtom true digit 4 (Some 4)]
                  (skip k2 (skip k s)))
    end.
    rewrite match_needs_first; [reflexivity | cbn; lia |].
    apply all_outside_starts. now do 2 apply all_chars_skip. }
  induction s as [|c s IH]; intros H; cbn [search]; rewrite (M _ H).
  - reflexivity.
  - cbn in H. apply andb_true_iff in H. now apply IH.
Qed.


(** The three classes are apart, and none holds the comma. *)
Lemma classes_apart (x : ascii) :
  (negb (in_class digit x)
   || (negb (isspace x) && negb (in_class letter x)
       && negb (Ascii.eqb x ",")))
  && (negb (in_class letter x)
      || (negb (isspace x) && negb (in_class digit x)
          && negb (Ascii.eqb x ",")))
  && (negb (isspace x)
      || (negb (in_class digit x) && negb (in_class letter x)
          && negb (Ascii.eqb x ",")))
  = true.
Proof. destruct x as [[] [] [] [] [] [] [] []]; vm_compute; reflexivity. Qed.

Lemma digit_apart (x : ascii) :
  in_class digit x = true ->
  isspace x = false /\ in_class letter x = false /\ Ascii.eqb x "," = false.
Proof.
  pose proof (classes_apart x) as H. intros D. rewrite D in H.
  destruct (isspace x), (in_class letter x), (Ascii.eqb x ",");
    try discriminate; auto.
Qed.

Lemma letter_apart (x : ascii) :
  in_class letter x = true ->
  isspace x = false /\ in_class digit x = false /\ Ascii.eqb x "," = false.
Proof.
  pose proof (classes_apart x) as H. intros D. rewrite D in H.
  destruct (isspace x), (in_class digit x), (Ascii.eqb x ",");
    try discriminate; auto.
Qed.

Lemma space_apart (x : ascii) :
  isspace x = true ->
  in_class digit x = false /\ in_class letter x = false.
Proof.
  pose proof (classes_apart x) as H. intros D. rewrite D in H.
  destruct (in_class digit x), (in_class letter x); try discriminate; auto.
Qed.

Lemma all_chars_impl (f g : ascii -> bool) (s : string) :
  (forall x, f x = true -> g x = true) ->
  all_chars f s = true -> all_chars g s = true.
Proof.
  intros I. induction s as [|x s IH]; cbn; [reflexivity|].
  intros H. apply andb_true_iff in H. destruct H as [Hx Hs].
  now rewrite (I x Hx), IH.
Qed.

Lemma app_empty_string (s : string) : (s ++ "")%string = s.
Proof. induction s as [|x s IH]; cbn; [reflexivity | now rewrite IH]. Qed.

Lemma app_assoc_string (a b c : string) :
  ((a ++ b) ++ c)%string = (a ++ b ++ c)%string.
Proof. induction a as [|x a IH]; cbn; [reflexivity | now rewrite IH]. Qed.

Lemma rstrip_solid (s : string) :
  all_chars (fun x => negb (isspace x)) s = true -> rstrip s = s.
Proof.
  induction s as [|x s IH]; cbn; [reflexivity|].
  intros H. apply andb_true_iff in H. destruct H as [Hx Hs].
  rewrite (IH Hs). apply negb_true_iff in Hx. rewrite Hx.
  now destruct s.
Qed.

Lemma rstrip_app_keep (a b : string) :
  rstrip b = b -> b <> EmptyString -> rstrip (a ++ b) = (a ++ b)%string.
Proof.
  intros R N. induction a as [|x a IH]; cbn; [exact R|].
  rewrite IH. destruct (a ++ b)%string eqn:E; [|reflexivity].
  destruct a; [cbn in E; congruence | discriminate].
Qed.

Lemma split_comma_plain (s : string) :
  no_comma s = true -> split_comma s = [s].
Proof.
  unfold no_comma. induction s as [|x s IH]; cbn; [reflexivity|].
  intros H. apply andb_true_iff in H. destruct H as [Hx Hs].
  rewrite (IH Hs). apply negb_true_iff in Hx. now rewrite Hx.
Qed.

Lemma split_comma_nonempty (s : string) : split_comma s <> [].
Proof.
  induction s as [|x s IH]; cbn; [discriminate|].
  destruct (split_comma s); [contradiction|].
  destruct (Ascii.eqb x ","); discriminate.
Qed.

Lemma split_comma_app (a r : string) :
  no_comma a = true ->
  split_comma (a ++ String "," r) = a :: split_comma r.
Proof.
  unfold no_comma. induction a as [|x a IH]; cbn.
  - intros _. pose proof (split_comma_nonempty r).
    destruct (split_comma r); [contradiction | reflexivity].
  - intros H. apply andb_true_iff in H. destruct H as [Hx Ha].
    rewrite (IH Ha). apply negb_true_iff in Hx. now rewrite Hx.
Qed.

Lemma replace_char_app (old new : ascii) (a b : string) :
  replace_char old new (a ++ b)
  = (replace_char old new a ++ replace_char old new b)%string.
Proof. induction a as [|x a IH]; cbn; [reflexivity | now rewrite IH]. Qed.

Lemma replace_comma_plain (s : string) :
  no_comma s = true -> replace_char "," " " s = s.
Proof.
  unfold no_comma. induction s as [|x s IH]; cbn; [reflexivity|].
  intros H. apply andb_true_iff in H. destruct H as [Hx Hs].
  rewrite (IH Hs). apply negb_true_iff in Hx. now rewrite Hx.
Qed.

(** A date without comma and without white space around it is cleaned to
    itself. *)
Lemma clean_date_plain (s : string) :
  head_solid s = true -> rstrip s = s -> no_comma s = true ->
  clean_date s = s.
Proof.
  intros H R N. unfold clean_date. rewrite (strip_fixed _ H R).
  rewrite (split_comma_plain _ N). cbn [length Nat.leb].
  destruct (contains "IST" s); now apply replace_comma_plain.
Qed.

(** A date with a time after its second comma: the time is dropped when it
    ends in [IST], and the first comma becomes a blank. *)
Lemma clean_date_timed (a y time : string) :
  head_solid a = true -> a <> EmptyString ->
  rstrip y = y -> y <> EmptyString ->
  no_comma a = true -> no_comma y = true ->
  clean_date (a ++ "," ++ y ++ "," ++ time ++ "IST")
  = (a ++ " " ++ y)%string.
Proof.
  intros H Na R Ny Ca Cy. unfold clean_date.
  assert (Hs : forall r, head_solid (a ++ r) = true)
    by (intros r; destruct a; [contradiction | exact H]).
  assert (S1 : strip (a ++ "," ++ y ++ "," ++ time ++ "IST")
               = (a ++ "," ++ y ++ "," ++ time ++ "IST")%string).
  { apply strip_fixed; [apply Hs|].
    rewrite <- !app_assoc_string.
    apply rstrip_app_keep; [reflexivity | discriminate]. }
  rewrite S1.
  assert (C : contains "IST" (a ++ "," ++ y ++ "," ++ time ++ "IST") = true).
  { do 5 apply contains_app_r. reflexivity. }
  rewrite C.
  change (a ++ "," ++ y ++ "," ++ time ++ "IST")%string
    with (a ++ String "," (y ++ String "," (time ++ "IST")))%string.
  rewrite (split_comma_app a _ Ca), (split_comma_app y _ Cy).
  cbn [length Nat.leb firstn String.concat].
  assert (S2 : strip (a ++ "," ++ y) = (a ++ "," ++ y)%string).
  { apply strip_fixed; [apply Hs|].
    rewrite <- app_assoc_string. now apply rstrip_app_keep. }
  rewrite S2, !replace_char_app.
  now rewrite (replace_comma_plain _ Ca), (replace_comma_plain _ Cy).
Qed.

Lemma length_positive (s : string) :
  1 <= String.length s -> s <> EmptyString.
Proof. destruct s; cbn; [lia | discriminate]. Qed.

Lemma starts_outside_app (c : char_class) (x r : string) :
  x <> EmptyString ->
  starts_outside c (x ++ r) = starts_outside c x.
Proof. destruct x; [contradiction | reflexivity]. Qed.

Lemma starts_outside_other (c c' : char_class) (x : string) :
  (forall a, in_class c' a = true -> in_class c a = false) ->
  all_chars (in_class c') x = true -> starts_outside c x = true.
Proof.
  intros D. destruct x as [|a x]; cbn; [reflexivity|].
  intros H. apply andb_true_iff in H. destruct H as [Ha _].
  now rewrite (D a Ha).
Qed.

(** What [date_parts] says, piece by piece. *)
Lemma date_parts_spec (day month year : string) :
  date_parts day month year = true ->
  (all_chars (in_class digit) day = true
   /\ 1 <= String.length day <= 2)
  /\ (all_chars (in_class letter) month = true
      /\ 3 <= String.length month)
  /\ (all_chars (in_class digit) year = true
      /\ String.length year = 4).
Proof.
  unfold date_parts. intros H.
  repeat (apply andb_true_iff in H; destruct H as [H ?]).
  repeat match goal with
         | E : (_ <=? _) = true |- _ => apply Nat.leb_le in E
         | E : (_ =? _) = true |- _ => apply Nat.eqb_eq in E
         end.
  auto.
Qed.

Section Parts.

Variables day month year w1 w2 : string.
Hypothesis parts : date_parts day month year = true.
Hypothesis blank1 : all_chars (in_class space) w1 = true.
Hypothesis some1 : 1 <= String.length w1.
Hypothesis blank2 : all_chars (in_class space) w2 = true.
Hypothesis some2 : 1 <= String.length w2.

Lemma digits_then (c : char_class) (x r : string) :
  c <> digit ->
  all_chars (in_class digit) x = true -> 1 <= String.length x ->
  starts_outside c (x ++ r) = true.
Proof.
  intros N H L. rewrite starts_outside_app by now apply length_positive.
  apply (starts_outside_other c digit); [|exact H].
  intros a Ha. destruct (digit_apart a Ha) as (S & Le & _).
  destruct c; [contradiction | exact S | exact Le].
Qed.

Lemma letters_then (c : char_class) (x r : string) :
  c <> letter ->
  all_chars (in_class letter) x = true -> 1 <= String.length x ->
  starts_outside c (x ++ r) = true.
Proof.
  intros N H L. rewrite starts_outside_app by now apply length_positive.
  apply (starts_outside_other c letter); [|exact H].
  intros a Ha. destruct (letter_apart a Ha) as (S & D & _).
  destruct c; [exact D | exact S | contradiction].
Qed.

Lemma blanks_then (c : char_class) (x r : string) :
  c <> space ->
  all_chars (in_class space) x = true -> 1 <= String.length x ->
  starts_outside c (x ++ r) = true.
Proof.
  intros N H L. rewrite starts_outside_app by now apply length_positive.
  apply (starts_outside_other c space); [|exact H].
  intros a Ha. destruct (space_apart a Ha) as (D & Le).
  destruct c; [exact D | contradiction | exact Le].
Qed.

(** The first pattern on day, month, year: found at the start, with the
    three as its groups. *)
Lemma pattern1_day_first :
  search pattern1 (day ++ w1 ++ month ++ w2 ++ year)
  = Some [day; month; year].
Proof.
  destruct (date_parts_spec _ _ _ parts) as ((Dd & Ld) & (Dm & Lm) & Dy & Ly).
  apply search_found. unfold pattern1.
  rewrite <- (app_empty_string year) at 1.
  apply (match_step (mkAtom true digit 1 (Some 2))); cbn [at_least]; [|lia|].
  { eapply longest_bounded; [reflexivity | exact Dd | | lia].
    left. apply blanks_then; [discriminate | assumption | assumption]. }
  apply (match_step (mkAtom false space 1 None)); cbn [at_least];
    [|exact some1|].
  { apply longest_unbounded; [reflexivity | exact blank1 |].
    apply letters_then; [discriminate | exact Dm | lia]. }
  apply (match_step (mkAtom true letter 3 None)); cbn [at_least];
    [|exact Lm|].
  { apply longest_unbounded; [reflexivity | exact Dm |].
    apply blanks_then; [discriminate | assumption | assumption]. }
  apply (match_step (mkAtom false space 1 None)); cbn [at_least];
    [|exact some2|].
  { apply longest_unbounded; [reflexivity | exact blank2 |].
    apply digits_then; [discriminate | exact Dy | lia]. }
  apply (match_step (mkAtom true digit 4 (Some 4)) [] year "" []);
    cbn [at_least]; [|lia|reflexivity].
  eapply longest_bounded; [reflexivity | exact Dy | now right | lia].
Qed.

(** The second pattern on month, day, year. *)
Lemma pattern2_month_first :
  search pattern2 (month ++ w1 ++ day ++ w2 ++ year)
  = Some [month; day; year].
Proof.
  destruct (date_parts_spec _ _ _ parts) as ((Dd & Ld) & (Dm & Lm) & Dy & Ly).
  apply search_found. unfold pattern2.
  rewrite <- (app_empty_string year) at 1.
  apply (match_step (mkAtom true letter 3 None)); cbn [at_least];
    [|exact Lm|].
  { apply longest_unbounded; [reflexivity | exact Dm |].
    apply blanks_then; [discriminate | assumption | assumption]. }
  apply (match_step (mkAtom false space 1 None)); cbn [at_least];
    [|exact some1|].
  { apply longest_unbounded; [reflexivity | exact blank1 |].
    apply digits_then; [discriminate | exact Dd | lia]. }
  apply (match_step (mkAtom true digit 1 (Some 2))); cbn [at_least]; [|lia|].
  { eapply longest_bounded; [reflexivity | exact Dd | | lia].
    left. apply blanks_then; [discriminate | assumption | assumption]. }
  apply (match_step (mkAtom false space 1 None)); cbn [at_least];
    [|exact some2|].
  { apply longest_unbounded; [reflexivity | exact blank2 |].
    apply digits_then; [discriminate | exact Dy | lia]. }
  apply (match_step (mkAtom true digit 4 (Some 4)) [] year "" []);
    cbn [at_least]; [|lia|reflexivity].
  eapply longest_bounded; [reflexivity | exact Dy | now right | lia].
Qed.

(** The first pattern is not found in month, day, year: after the month
    there is no letter left. *)
Lemma pattern1_not_month_first :
  search pattern1 (month ++ w1 ++ day ++ w2 ++ year) = None.
Proof.
  destruct (date_parts_spec _ _ _ parts) as ((Dd & Ld) & (Dm & Lm) & Dy & Ly).
  unfold pattern1. rewrite search_skips; [|cbn; lia|].
  - apply pattern1_needs_letters. rewrite !all_chars_app.
    assert (B : forall w, all_chars (in_class space) w = true ->
                all_chars (fun x => negb (in_class letter x)) w = true).
    { intros w. apply all_chars_impl. intros x Hx.
      destruct (space_apart x Hx) as [_ ->]. reflexivity. }
    assert (G : forall w, all_chars (in_class digit) w = true ->
                all_chars (fun x => negb (in_class letter x)) w = true).
    { intros w. apply all_chars_impl. intros x Hx.
      destruct (digit_apart x Hx) as (_ & -> & _). reflexivity. }
    now rewrite (B _ blank1), (B _ blank2), (G _ Dd), (G _ Dy).
  - cbn [class]. revert Dm. apply all_chars_impl. intros x Hx.
    destruct (letter_apart x Hx) as (_ & -> & _). reflexivity.
Qed.

End Parts.

End DateFacts.


Lemma lower_char_idem (c : ascii) : lower_char (lower_char c) = lower_char c.
Proof. destruct c as [[] [] [] [] [] [] [] []]; vm_compute; reflexivity. Qed.

Lemma lower_idem (s : string) : lower (lower s) = lower s.
Proof.
  induction s as [|c s IH]; cbn; [reflexivity|].
  now rewrite lower_char_idem, IH.
Qed.

Lemma lower_substring (n m : nat) (s : string) :
  lower (substring n m s) = substring n m (lower s).
Proof.
  revert n m. induction s as [|c s IH]; intros [|n] [|m]; cbn;
    try reflexivity; try apply IH.
  now rewrite IH.
Qed.

Lemma month_map_range (key : string) (month_num : nat) :
  ExtractYearMonth.get String.eqb ExtractYearMonth.month_map key
  = Some month_num ->
  1 <= month_num <= 12.
Proof.
  unfold ExtractYearMonth.month_map. cbn [ExtractYearMonth.get].
  repeat match goal with
         | |- context [if ?b then _ else _] => destruct b
         end;
    intros [= <-]; lia.
Qed.

(** From the cleaned date to the row. *)
Lemma year_month_of_clean (strptime : string -> option (nat * string))
  (s month name : string) (year : nat) :
  strip s = s -> s <> EmptyString ->
  ExtractYearMonth.year_and_month_str strptime
    (ExtractYearMonth.clean_date s)
  = Some (year, substring 0 3 (lower month)) ->
  ExtractYearMonth.month_of month = Some name ->
  1900 <= year <= 2100 ->
  ExtractYearMonth.year_month strptime (Str s) = Some (year, name).
Proof.
  intros S N Y M R. unfold ExtractYearMonth.year_month.
  rewrite S. destruct s as [|c s]; [contradiction|]. cbn [truthy].
  rewrite Y, lower_substring, lower_idem.
  unfold ExtractYearMonth.month_of in M.
  destruct (ExtractYearMonth.get String.eqb ExtractYearMonth.month_map
              (substring 0 3 (lower month))) as [k|] eqn:K; [|discriminate].
  apply month_map_range in K. rewrite M.
  replace (negb (k =? 0)) with true
    by (symmetry; apply negb_true_iff, Nat.eqb_neq; lia).
  replace (1 <=? k) with true by (symmetry; apply Nat.leb_le; lia).
  replace (k <=? 12) with true by (symmetry; apply Nat.leb_le; lia).
  replace (1900 <=? year) with true by (symmetry; apply Nat.leb_le; lia).
  replace (year <=? 2100) with true by (symmetry; apply Nat.leb_le; lia).
  reflexivity.
Qed.

(** A word: no white space, no comma, not empty. *)
Lemma word_facts (a : string) :
  all_chars (fun x => negb (isspace x) && negb (Ascii.eqb x ",")) a = true ->
  1 <= String.length a ->
  (forall r, head_solid (a ++ r) = true)
  /\ (forall r, rstrip (r ++ a) = (r ++ a)%string)
  /\ ExtractYearMonth.no_comma a = true
  /\ a <> EmptyString.
Proof.
  intros H L. split; [|split; [|split]].
  - intros r. destruct a as [|x a]; [cbn in L; lia|]. cbn in *.
    apply andb_true_iff in H. destruct H as [H _].
    apply andb_true_iff in H. tauto.
  - intros r. apply rstrip_app_keep; [|now apply length_positive].
    apply rstrip_solid. revert H. apply all_chars_impl.
    intros x Hx. apply andb_true_iff in Hx. tauto.
  - revert H. apply all_chars_impl.
    intros x Hx. apply andb_true_iff in Hx. tauto.
  - now apply length_positive.
Qed.

Lemma digits_word (a : string) :
  all_chars (ExtractYearMonth.in_class ExtractYearMonth.digit) a = true ->
  all_chars (fun x => negb (isspace x) && negb (Ascii.eqb x ",")) a = true.
Proof.
  apply all_chars_impl. intros x Hx.
  destruct (digit_apart x Hx) as (-> & _ & ->). reflexivity.
Qed.

Lemma letters_word (a : string) :
  all_chars (ExtractYearMonth.in_class ExtractYearMonth.letter) a = true ->
  all_chars (fun x => negb (isspace x) && negb (Ascii.eqb x ",")) a = true.
Proof.
  apply all_chars_impl. intros x Hx.
  destruct (letter_apart x Hx) as (-> & _ & ->). reflexivity.
Qed.

(** Two words and a year, written plainly or with commas and a time. *)
Lemma written_dates_clean (a b y time : string) :
  all_chars (fun x => negb (isspace x) && negb (Ascii.eqb x ",")) a = true ->
  1 <= String.length a ->
  all_chars (fun x => negb (isspace x) && negb (Ascii.eqb x ",")) b = true ->
  1 <= String.length b ->
  all_chars (fun x => negb (isspace x) && negb (Ascii.eqb x ",")) y = true ->
  1 <= String.length y ->
  (strip (a ++ " " ++ b ++ " " ++ y) = (a ++ " " ++ b ++ " " ++ y)%string
   /\ ExtractYearMonth.clean_date (a ++ " " ++ b ++ " " ++ y)
      = (a ++ " " ++ b ++ " " ++ y)%string)
  /\ (strip (a ++ " " ++ b ++ ", " ++ y ++ "," ++ time ++ "IST")
      = (a ++ " " ++ b ++ ", " ++ y ++ "," ++ time ++ "IST")%string
      /\ ExtractYearMonth.clean_date
           (a ++ " " ++ b ++ ", " ++ y ++ "," ++ time ++ "IST")
         = (a ++ " " ++ b ++ "  " ++ y)%string).
Proof.
  intros Ha La Hb Lb Hy Ly.
  destruct (word_facts a Ha La) as (Ah & _ & Ac & An).
  destruct (word_facts b Hb Lb) as (_ & Br & Bc & _).
  destruct (word_facts y Hy Ly) as (_ & Yr & Yc & _).
  assert (S1 : rstrip (a ++ " " ++ b ++ " " ++ y)
               = (a ++ " " ++ b ++ " " ++ y)%string).
  { rewrite <- !app_assoc_string. apply Yr. }
  assert (C1 : ExtractYearMonth.no_comma (a ++ " " ++ b ++ " " ++ y) = true).
  { unfold ExtractYearMonth.no_comma in *. rewrite !all_chars_app.
    now rewrite Ac, Bc, Yc. }
  split.
  { split; [now apply strip_fixed|]. now apply clean_date_plain. }
  assert (E : (a ++ " " ++ b ++ ", " ++ y ++ "," ++ time ++ "IST")%string
              = ((a ++ " " ++ b) ++ "," ++ (" " ++ y) ++ ","
                 ++ time ++ "IST")%string).
  { rewrite !app_assoc_string. reflexivity. }
  split.
  - apply strip_fixed; [apply Ah|].
    rewrite <- !app_assoc_string.
    apply rstrip_app_keep; [reflexivity | discriminate].
  - rewrite E, clean_date_timed.
    + rewrite !app_assoc_string. reflexivity.
    + apply Ah.
    + destruct a; [contradiction | discriminate].
    + apply (Yr " ").
    + discriminate.
    + unfold ExtractYearMonth.no_comma in *. rewrite !all_chars_app.
      now rewrite Ac, Bc.
    + unfold ExtractYearMonth.no_comma in *. cbn [append all_chars].
      now rewrite Yc.
Qed.

(** X18: [extract_year_month] reads the dates its comment lists.  For a
    day of one or two digits, a month written with three letters or more
    whose first three, in lower case, are a key of [month_map], and a year
    of four digits from 1900 to 2100, the row gets that year and the full
    name of that month, whether the date is written [15 Jan 2024],
    [Jan 15 2024], [15 Jan, 2024, ... IST] or [Jan 15, 2024, ... IST], and
    whatever [strptime] would make of it. *)
Theorem written_dates_are_read :
  forall strptime day month year name time,
    ExtractYearMonth.date_parts day month year = true ->
    ExtractYearMonth.month_of month = Some name ->
    1900 <= ExtractYearMonth.int year <= 2100 ->
    ExtractYearMonth.year_month strptime
      (Str (day ++ " " ++ month ++ " " ++ year))
    = Some (ExtractYearMonth.int year, name)
    /\ ExtractYearMonth.year_month strptime
         (Str (month ++ " " ++ day ++ " " ++ year))
       = Some (ExtractYearMonth.int year, name)
    /\ ExtractYearMonth.year_month strptime
         (Str (day ++ " " ++ month ++ ", " ++ year ++ "," ++ time ++ "IST"))
       = Some (ExtractYearMonth.int year, name)
    /\ ExtractYearMonth.year_month strptime
         (Str (month ++ " " ++ day ++ ", " ++ year ++ "," ++ time ++ "IST"))
       = Some (ExtractYearMonth.int year, name).
Proof.
  intros strptime day month year name time P M R.
  destruct (date_parts_spec _ _ _ P) as ((Dd & Ld) & (Dm & Lm) & Dy & Ly).
  pose proof (digits_word _ Dd) as Wd.
  pose proof (letters_word _ Dm) as Wm.
  pose proof (digits_word _ Dy) as Wy.
  assert (Ld1 : 1 <= String.length day) by lia.
  assert (Lm1 : 1 <= String.length month) by lia.
  assert (Ly1 : 1 <= String.length year) by lia.
  destruct (written_dates_clean day month year time Wd Ld1 Wm Lm1 Wy Ly1)
    as ((S2 & C2) & (S1 & C1)).
  destruct (written_dates_clean month day year time Wm Lm1 Wd Ld1 Wy Ly1)
    as ((S3 & C3) & (S0 & C0)).
  assert (N : forall r, (day ++ r)%string <> EmptyString)
    by (intros r; destruct day; [cbn in Ld1; lia | discriminate]).
  assert (N' : forall r, (month ++ r)%string <> EmptyString)
    by (intros r; destruct month; [cbn in Lm1; lia | discriminate]).
  assert (B1 : all_chars
                 (ExtractYearMonth.in_class ExtractYearMonth.space) " "
               = true) by reflexivity.
  assert (B2 : all_chars
                 (ExtractYearMonth.in_class ExtractYearMonth.space) "  "
               = true) by reflexivity.
  assert (One : 1 <= String.length " ") by (cbn; lia).
  assert (Two : 1 <= String.length "  ") by (cbn; lia).
  split; [|split; [|split]].
  - apply (year_month_of_clean strptime _ month); auto.
    rewrite C2. unfold ExtractYearMonth.year_and_month_str.
    now rewrite (pattern1_day_first day month year " " " " P B1 One B1 One).
  - apply (year_month_of_clean strptime _ month); auto.
    rewrite C3. unfold ExtractYearMonth.year_and_month_str.
    rewrite (pattern1_not_month_first day month year " " " ") by assumption.
    now rewrite (pattern2_month_first day month year " " " " P B1 One B1 One).
  - apply (year_month_of_clean strptime _ month); auto.
    rewrite C1. unfold ExtractYearMonth.year_and_month_str.
    now rewrite (pattern1_day_first day month year " " "  " P B1 One B2 Two).
  - apply (year_month_of_clean strptime _ month); auto.
    rewrite C0. unfold ExtractYearMonth.year_and_month_str.
    rewrite (pattern1_not_month_first day month year " " "  ") by assumption.
    now rewrite (pattern2_month_first day month year " " "  " P B1 One B2 Two).
Qed.

Lemma written_dates_are_read_witness :
  ExtractYearMonth.year_month DateExamples.far_future
    (Str "15 Jan 2024") = Some (2024, "January")
  /\ ExtractYearMonth.year_month DateExamples.far_future
       (Str "Jan 15 2024") = Some (2024, "January")
  /\ ExtractYearMonth.year_month DateExamples.far_future
       (Str "15 Jan, 2024, 08:15 AM IST") = Some (2024, "January")
  /\ ExtractYearMonth.year_month DateExamples.far_future
       (Str "Jan 15, 2024, 08:15 AM IST") = Some (2024, "January").
Proof.
  assert (R : 1900 <= ExtractYearMonth.int "2024" <= 2100)
    by (vm_compute; split; apply Nat.leb_le; reflexivity).
  exact (written_dates_are_read DateExamples.far_future "15" "Jan" "2024"
           "January" " 08:15 AM " eq_refl eq_refl R).
Defined.

(** X19: whatever the patterns or [strptime] make of a date, a row gets a
    year and a month only when the year is from 1900 to 2100 and the month
    is one of the twelve names; a missing or blank date gives the row
    nothing. *)
Theorem year_and_month_are_checked :
  forall strptime date_str year month,
    ExtractYearMonth.year_month strptime date_str = Some (year, month) ->
    1900 <= year <= 2100
    /\ In month (map snd ExtractYearMonth.month_names)
    /\ exists text, date_str = Str text /\ strip text <> EmptyString.
Proof.
  intros strptime date_str year month.
  unfold ExtractYearMonth.year_month.
  destruct date_str as [|text]; [discriminate|].
  destruct (strip text) eqn:S; [discriminate|]. cbn [truthy].
  destruct (ExtractYearMonth.year_and_month_str strptime _) as [[y m]|];
    [|discriminate].
  destruct (ExtractYearMonth.get String.eqb ExtractYearMonth.month_map _)
    as [k|]; [|discriminate].
  destruct (negb (k =? 0) && (1 <=? k) && (k <=? 12) && (1900 <=? y)
            && (y <=? 2100)) eqn:G; [|discriminate].
  destruct (ExtractYearMonth.get Nat.eqb ExtractYearMonth.month_names k)
    as [name|] eqn:Nm; [|discriminate].
  intros [= <- <-].
  repeat (apply andb_true_iff in G; destruct G as [G ?]).
  repeat match goal with
         | E : (_ <=? _) = true |- _ => apply Nat.leb_le in E
         end.
  split; [lia|]. split.
  - clear - Nm. revert Nm. unfold ExtractYearMonth.month_names.
    cbn [ExtractYearMonth.get map snd].
    repeat match goal with
           | |- context [if ?b then _ else _] => destruct b
           end;
      intros [= <-]; cbn; tauto.
  - exists text. split; [reflexivity|]. rewrite S. discriminate.
Qed.

Lemma year_and_month_are_checked_witness :
  ExtractYearMonth.year_month DateExamples.far_future (Str "15 Jan 2024")
  = Some (2024, "January")
  /\ 1900 <= 2024 <= 2100
  /\ In "January" (map snd ExtractYearMonth.month_names)
  /\ exists text, Str "15 Jan 2024" = Str text /\ strip text <> EmptyString.
Proof.
  assert (E : ExtractYearMonth.year_month DateExamples.far_future
                (Str "15 Jan 2024") = Some (2024, "January"))
    by (vm_compute; reflexivity).
  split; [exact E|].
  exact (year_and_month_are_checked _ _ _ _ E).
Defined.


(** * The sources of [fetch_news_articles.py] *)

Lemma generic_try_selectors_method
  (selectors : list FetchNewsArticles.selector) :
  forall soup soup' content method,
    FetchNewsArticles.try_selectors selectors soup
    = Ok (soup', (Some content, method)) ->
    exists sel,
      In sel selectors
      /\ method = Some (FetchNewsArticles.type_ sel ++ ": "
                        ++ FetchNewsArticles.name_ sel)%string.
Proof.
  induction selectors as [|sel rest IH]; intros soup soup' content method;
    cbn [FetchNewsArticles.try_selectors].
  - discriminate.
  - assert (K : forall s, FetchNewsArticles.try_selectors rest s
                          = Ok (soup', (Some content, method)) ->
                exists sel',
                  In sel' (sel :: rest)
                  /\ method = Some (FetchNewsArticles.type_ sel' ++ ": "
                                    ++ FetchNewsArticles.name_ sel')%string).
    { intros s H. destruct (IH _ _ _ _ H) as (sel' & I & E).
      exists sel'. split; [now right | exact E]. }
    destruct (FetchNewsArticles.criterion sel) as [p|]; [|apply K].
    destruct (find p soup) as [element|]; [|apply K].
    destruct (FetchNewsArticles.cleaned element) as [[element' c]|e];
      [|discriminate].
    destruct (200 <? String.length c); [|apply K].
    intros [= _ _ <-]. exists sel. split; [now left | reflexivity].
Qed.

(** X20: every record [process_single_article] of
    [fetch_news_articles.py] returns either has no content and names no
    method, or has more than 200 characters of content that [clean_text]
    leaves as it is, and names the selector of the source that found it,
    as [type: name]. *)
Theorem generic_record_names_its_selector :
  forall w url headline published_date source st,
  exists st' r,
    FetchNewsBatch.process_single_article w url headline published_date
      source st = (st', Ok r)
    /\ match full_content r with
       | Some content =>
           200 < String.length content
           /\ clean_text content = content
           /\ exists sel,
               In sel (FetchNewsArticles.content_selectors source)
               /\ extraction_method r
                  = Some (FetchNewsArticles.type_ sel ++ ": "
                          ++ FetchNewsArticles.name_ sel)%string
       | None => extraction_method r = None
       end.
Proof.
  intros w url h d source st.
  unfold FetchNewsBatch.process_single_article, try_except, bind, fetch, call.
  destruct (w (length (sent st)) (FetchNewsBatch.url_text url)) as [e|soup].
  { do 2 eexists. split; reflexivity. }
  destruct (FetchNewsArticles.is_paywall_page soup source).
  { do 2 eexists. split; reflexivity. }
  unfold FetchNewsBatch.located, FetchNewsArticles.extract_article_content.
  destruct (FetchNewsArticles.try_selectors _ soup)
    as [[soup' [content method]]|e] eqn:T.
  - destruct content as [c|].
    + destruct (generic_try_selectors_sound _ _ _ _ _ T)
        as (element & -> & L).
      destruct (generic_try_selectors_method _ _ _ _ _ T) as (sel & I & ->).
      assert (Tr : truthy (cleaned_generic element) = true)
        by (destruct (cleaned_generic element); [cbn in L; lia | reflexivity]).
      cbn [truthy_opt]. rewrite Tr.
      do 2 eexists. split; [reflexivity|]. cbn [full_content].
      split; [exact L|]. split; [apply clean_text_idem|].
      exists sel. split; [exact I | reflexivity].
    + do 2 eexists. split; reflexivity.
  - do 2 eexists. split; reflexivity.
Qed.

(** X21: the name of the source is read without regard to case: the
    classifier and the locator of [fetch_news_articles.py] treat a source
    as they treat its lower-case form. *)
Theorem source_name_ignores_case :
  forall soup source,
    FetchNewsArticles.is_paywall_page soup source
    = FetchNewsArticles.is_paywall_page soup (lower source)
    /\ FetchNewsArticles.extract_article_content soup source
       = FetchNewsArticles.extract_article_content soup (lower source).
Proof.
  intros soup source.
  unfold FetchNewsArticles.is_paywall_page,
    FetchNewsArticles.extract_article_content,
    FetchNewsArticles.paywall_indicators,
    FetchNewsArticles.content_selectors.
  cbv zeta. rewrite lower_idem. split; reflexivity.
Qed.


(** * How many records a batch leaves *)

(** X22: a batch on a fresh scraper leaves one record for each row of the
    table in its three lists together, unless the recheck finds that no
    article is paywalled any more: the paywall list is then left as the
    first loop made it, and the lists hold as many records more as that
    list has, each rechecked record being filed a second time. *)
Theorem batch_record_count :
  forall is_paywall_page extract_article_content w rows,
  exists st1 st2 st' recovered still_paywall new_failed,
    process_rows is_paywall_page extract_article_content w rows new_scraper
    = (st1, Ok tt)
    /\ recheck_paywall_articles is_paywall_page extract_article_content w st1
       = (st2, Ok (recovered, still_paywall, new_failed))
    /\ process_articles is_paywall_page extract_article_content w rows
         new_scraper = (st', Ok tt)
    /\ filed st'
       = length rows
         + (if nonempty still_paywall then 0
            else length (paywall_urls st1)).
Proof.
  intros ip ex w rows.
  destruct (process_rows_returns ip ex w rows new_scraper)
    as (st1 & E & C1 & _).
  change (filed new_scraper) with 0 in C1. cbn [Nat.add] in C1.
  unfold process_articles, bind. rewrite E.
  destruct (nonempty (paywall_urls st1)) eqn:N.
  - destruct (recheck_pass_lists ip ex w st1 N)
      as (st2 & recovered & still & new_failed & Er & C & Ep).
    exists st1, st2. eexists. exists recovered, still, new_failed.
    split; [reflexivity|]. split; [exact Er|]. split; [exact Ep|].
    unfold filed in *. cbn [article_data failed_urls paywall_urls].
    rewrite !length_app. destruct still; cbn [nonempty length] in *; lia.
  - exists st1, st1, st1, [], [], [].
    destruct (paywall_urls st1) eqn:P; [|discriminate].
    split; [reflexivity|].
    split; [unfold recheck_paywall_articles; rewrite P; reflexivity|].
    split; [unfold recheck_pass; rewrite P; reflexivity|].
    cbn. lia.
Qed.
